(** * Reconciliation loops of the HMC controllers

    A shallow embedding of the Management, ManagedCluster and Template
    controllers (internal/controller) and of the api/v1alpha1 declarations
    they use.  Every call that leaves the controller (the Kubernetes client,
    the helm, sveltos, utils and certmanager packages, encoding/json) is an
    operation [Op] of a small free monad [Prog]; a reconcile pass is a value
    of [Prog], interpreted against an arbitrary stateful environment, and the
    sequence of operations it issues is its trace. *)

From stdpp Require Import gmap strings list.
From Stdlib Require Import ZArith Lia Ascii.

Set Warnings "-register-all".
Local Open Scope string_scope.
Local Open Scope Z_scope.
Local Open Scope list_scope.

(** ** Go values *)

(** A Go [error].  [ErrStatus] is an API status error (its flag says whether
    the reason is NotFound), [ErrWrap] an error built with [fmt.Errorf] and
    the verb [%w], [ErrJoin] the result of [errors.Join]. *)
Inductive error : Type :=
| ErrNew (msg : string)
| ErrStatus (notFound : bool) (msg : string)
| ErrWrap (msg : string) (cause : error)
| ErrJoin (errs : list error).

(** [strings.Join] *)
Fixpoint strings_Join (l : list string) (sep : string) : string :=
  match l with
  | [] => EmptyString
  | [s] => s
  | s :: rest => s +:+ sep +:+ strings_Join rest sep
  end.

(** The [Error()] method. *)
Fixpoint Error (e : error) : string :=
  match e with
  | ErrNew msg => msg
  | ErrStatus _ msg => msg
  | ErrWrap msg _ => msg
  | ErrJoin errs => strings_Join (List.map Error errs) (String "010"%char EmptyString)
  end.

(** The first API status error in the tree of [e], as [errors.As] finds it. *)
Fixpoint asStatus (e : error) : option bool :=
  match e with
  | ErrNew _ => None
  | ErrStatus nf _ => Some nf
  | ErrWrap _ cause => asStatus cause
  | ErrJoin errs =>
      (fix first (l : list error) : option bool :=
         match l with
         | [] => None
         | x :: rest => match asStatus x with Some b => Some b | None => first rest end
         end) errs
  end.

(** [apierrors.IsNotFound] *)
Definition IsNotFound (e : error) : bool :=
  match asStatus e with Some true => true | _ => false end.

(** [errors.New], and [fmt.Errorf] with and without [%w]; the message is
    passed already formatted. *)
Definition errors_New (msg : string) : error := ErrNew msg.
Definition Errorf (msg : string) : error := ErrNew msg.
Definition Errorf_w (msg : string) (cause : error) : error := ErrWrap msg cause.

(** [errors.Join] of two possibly nil errors: nil values are dropped and the
    result is nil when nothing is left. *)
Definition errors_Join (a b : option error) : option error :=
  match a, b with
  | None, None => None
  | Some x, None => Some (ErrJoin [x])
  | None, Some y => Some (ErrJoin [y])
  | Some x, Some y => Some (ErrJoin [x; y])
  end.

(** The errors that were joined into [e], innermost first. *)
Fixpoint joined (e : error) : list error :=
  match e with
  | ErrJoin errs => List.flat_map joined errs
  | _ => [e]
  end.

(** A Go pair [(value, err)]: the value is meaningful only when [err] is nil. *)
Definition Result (A : Type) : Type := (error + A)%type.
Abbreviation Fail e := (inl e).
Abbreviation Ok v := (inr v).

(** [time.Duration], in nanoseconds. *)
Definition Duration := Z.
Definition Second : Duration := 1000000000.

(** ** Kubernetes, Flux and Helm types *)

(** The part of [metav1.ObjectMeta] the controllers read or write. *)
Record ObjectMeta := {
  Name : string;
  Namespace : string;
  UID : string;
  Generation : Z;
  Labels : gmap string string;
  Finalizers : list string;
  DeletionTimestamp : option Z;
}.

Definition withFinalizers (m : ObjectMeta) (fs : list string) : ObjectMeta :=
  {| Name := Name m; Namespace := Namespace m; UID := UID m;
     Generation := Generation m; Labels := Labels m; Finalizers := fs;
     DeletionTimestamp := DeletionTimestamp m |}.

(** [controllerutil.ContainsFinalizer], [AddFinalizer], [RemoveFinalizer]:
    the object after the call and whether its finalizers changed. *)
Definition ContainsFinalizer (m : ObjectMeta) (finalizer : string) : bool :=
  existsb (String.eqb finalizer) (Finalizers m).

Definition AddFinalizer (m : ObjectMeta) (finalizer : string) : ObjectMeta * bool :=
  if ContainsFinalizer m finalizer then (m, false)
  else (withFinalizers m (Finalizers m ++ [finalizer]), true).

Definition RemoveFinalizer (m : ObjectMeta) (finalizer : string) : ObjectMeta * bool :=
  let f := List.filter (fun x => negb (String.eqb x finalizer)) (Finalizers m) in
  (withFinalizers m f, negb (Nat.eqb (length (Finalizers m)) (length f))).

(** [metav1.Condition] without its timestamps. *)
Record Condition := {
  cType : string;
  cStatus : string;
  cReason : string;
  cMessage : string;
}.

Definition ConditionTrue : string := "True".
Definition ConditionFalse : string := "False".
Definition ConditionUnknown : string := "Unknown".

(** [apimeta.FindStatusCondition]: the first condition of the given type. *)
Definition FindStatusCondition (conditions : list Condition) (conditionType : string)
  : option Condition :=
  List.find (fun c => String.eqb (cType c) conditionType) conditions.

(** [apimeta.SetStatusCondition]: the first condition of the same type takes
    the new status, reason and message; without one the new condition is
    appended. *)
Fixpoint SetStatusCondition (conditions : list Condition) (newCondition : Condition)
  : list Condition :=
  match conditions with
  | [] => [newCondition]
  | c :: rest =>
      if String.eqb (cType c) (cType newCondition) then
        {| cType := cType c; cStatus := cStatus newCondition;
           cReason := cReason newCondition; cMessage := cMessage newCondition |} :: rest
      else c :: SetStatusCondition rest newCondition
  end.

Record GroupVersionKind := { Group : string; Version : string; Kind : string }.

Record PartialObjectMetadata := {
  pom_gvk : GroupVersionKind;
  pom_meta : ObjectMeta;
}.

Record OwnerReference := {
  or_APIVersion : string;
  or_Kind : string;
  or_Name : string;
  or_UID : string;
}.

(** [ctrl.Result] *)
Record ctrl_Result := { Requeue : bool; RequeueAfter : Duration }.
Definition noRequeue : ctrl_Result := {| Requeue := false; RequeueAfter := 0 |}.

(** [apiextensionsv1.JSON] *)
Record JSON := { Raw : string }.

(** A decoded JSON document ([interface{}] as [encoding/json] fills it). *)
Inductive JValue : Type :=
| JNull
| JBool (b : bool)
| JNumber (n : string)
| JString (s : string)
| JArray (l : list JValue)
| JObject (m : gmap string JValue).

(** [fluxv2.CrossNamespaceSourceReference], [meta.NamespacedObjectReference]. *)
Record CrossNamespaceSourceReference := {
  ref_Kind : string;
  ref_Name : string;
  ref_Namespace : string;
}.

Record NamespacedObjectReference := {
  nor_Name : string;
  nor_Namespace : string;
}.

(** [sourcev1.HelmChart], [sourcev1.HelmRepository], [fluxv2.HelmRelease]. *)
Record LocalHelmChartSourceReference := { src_Kind : string; src_Name : string }.

Record HelmChartSpec := {
  hcs_Chart : string;
  hcs_Version : string;
  hcs_SourceRef : LocalHelmChartSourceReference;
  hcs_Interval : Duration;
}.

Record Artifact := { art_URL : string }.

Record HelmChart := {
  hc_meta : ObjectMeta;
  hc_OwnerReferences : list OwnerReference;
  hc_Spec : HelmChartSpec;
  hc_Artifact : option Artifact;     (* Status.Artifact *)
}.

Record HelmRepository := {
  hrepo_meta : ObjectMeta;
  hrepo_URL : string;                (* Spec.URL *)
}.

Record HelmRelease := {
  hr_meta : ObjectMeta;
  hr_Suspend : bool;                 (* Spec.Suspend *)
  hr_Conditions : list Condition;    (* Status.Conditions *)
}.

Definition HelmChartKind : string := "HelmChart".
Definition HelmRepositoryKind : string := "HelmRepository".
Definition HelmReleaseKind : string := "HelmRelease".
Definition fluxmeta_ReadyCondition : string := "Ready".

(** [fluxconditions.Get] and [fluxconditions.IsReady] *)
Definition fluxconditions_Get (hr : HelmRelease) (t : string) : option Condition :=
  FindStatusCondition (hr_Conditions hr) t.

Definition fluxconditions_IsReady (hr : HelmRelease) : bool :=
  match fluxconditions_Get hr fluxmeta_ReadyCondition with
  | Some c => String.eqb (cStatus c) ConditionTrue
  | None => false
  end.

(** [chart.Chart] of Helm: metadata (nil when the archive has none) and
    default values. *)
Record ChartMetadata := {
  md_Description : string;
  md_Annotations : gmap string string;
}.

Record Chart := {
  ch_Metadata : option ChartMetadata;
  ch_Values : gmap string JValue;
}.

(** An item of the dynamic client's list of CAPI clusters, seen through
    [unstructured.NestedSlice (obj, status, conditions)] and, per element,
    through the map assertion and [FromUnstructured]. *)
Inductive UCondition : Type :=
| UNotAMap
| UNotConvertible (e : error)
| UCond (c : Condition).

Inductive NestedSlice : Type :=
| NestedError (e : error)
| NestedAbsent
| NestedFound (conditions : list UCondition).

Record UCluster := { uc_statusConditions : NestedSlice }.

(** ** api/v1alpha1 *)

(** *** management_types.go *)

Definition DefaultCoreHMCTemplate : string := "hmc".
Definition DefaultCoreCAPITemplate : string := "cluster-api".
Definition ManagementName : string := "hmc".
Definition ManagementFinalizer : string := "hmc.mirantis.com/management".

Record Component := {
  comp_Template : string;
  comp_Config : option JSON;
}.

Record Core := {
  HMC : Component;
  CAPI : Component;
}.

Definition DefaultCoreConfiguration : Core :=
  {| HMC := {| comp_Template := DefaultCoreHMCTemplate; comp_Config := None |};
     CAPI := {| comp_Template := DefaultCoreCAPITemplate; comp_Config := None |} |}.

Record ManagementSpec := {
  ms_Core : option Core;
  ms_Providers : list Component;
}.

Definition HelmReleaseName (c : Component) : string := comp_Template c.

(** [SetDefaults]: the spec after the call and the returned flag. *)
Definition SetDefaults (m : ManagementSpec) : ManagementSpec * bool :=
  match ms_Core m with
  | Some _ => (m, false)
  | None =>
      ({| ms_Core := Some DefaultCoreConfiguration; ms_Providers := ms_Providers m |}, true)
  end.

Record Providers := {
  InfrastructureProviders : list string;
  BootstrapProviders : list string;
  ControlPlaneProviders : list string;
}.

Record ComponentStatus := {
  cs_Success : bool;
  cs_Error : string;
}.

Record ManagementStatus := {
  mst_ObservedGeneration : Z;
  mst_AvailableProviders : Providers;
  mst_Components : gmap string ComponentStatus;
}.

Record Management := {
  m_meta : ObjectMeta;
  m_Spec : ManagementSpec;
  m_Status : ManagementStatus;
}.

(** *** Templates *)

Record HelmSpec := {
  hs_ChartName : string;
  hs_ChartVersion : string;
  hs_ChartRef : option CrossNamespaceSourceReference;
}.

(** The single-kind [Template] that the Management controller and the
    Template controller of part_001 work on. *)
Record TemplateSpec := {
  ts_Type : string;
  ts_Helm : HelmSpec;
  ts_Providers : Providers;
}.

Record TemplateStatus := {
  tst_Valid : bool;
  tst_ValidationError : string;
  tst_Description : string;
  tst_Config : option JSON;
  tst_ChartRef : option CrossNamespaceSourceReference;
  tst_Type : string;
  tst_Providers : Providers;
  tst_ObservedGeneration : Z;
}.

Record Template := {
  t_meta : ObjectMeta;
  t_Spec : TemplateSpec;
  t_Status : TemplateStatus;
}.

(** The three template kinds of template_controller.go (ClusterTemplate,
    ServiceTemplate, ProviderTemplate) have one shape: the common spec and
    status behind [GetSpec] and [GetStatus]. *)
Record TemplateSpecCommon := {
  tsc_Helm : HelmSpec;
  tsc_Providers : Providers;
}.

Record TemplateStatusCommon := {
  tstc_Valid : bool;
  tstc_ValidationError : string;
  tstc_Description : string;
  tstc_Config : option JSON;
  tstc_ChartRef : option CrossNamespaceSourceReference;
  tstc_Providers : Providers;
  tstc_ObservedGeneration : Z;
}.

Inductive TemplateKind : Type :=
| ClusterTemplateKind
| ServiceTemplateKind
| ProviderTemplateKind.

Record KindTemplate := {
  kt_Kind : TemplateKind;
  kt_meta : ObjectMeta;
  kt_Spec : TemplateSpecCommon;
  kt_Status : TemplateStatusCommon;
}.

Abbreviation ClusterTemplate := KindTemplate.
Abbreviation ServiceTemplate := KindTemplate.

(** *** ManagedCluster *)

Record RegistryConfig := {
  PlainHTTP : bool;
  Insecure : bool;
}.

(** [Config] is read by the first revision of the controller only.  Like
    [Values] it is a pointer to a JSON value, as [Values] of [ServiceSpec]
    is. *)
Record ManagedClusterServiceSpec := {
  svc_Template : string;
  svc_Install : bool;
  svc_ReleaseName : string;
  svc_ReleaseNamespace : string;
  svc_Config : option JSON;
  svc_Values : option JSON;
  svc_CreateNamespace : bool;
  svc_RegistryConfig : RegistryConfig;
}.

Record ManagedClusterSpec := {
  mcs_Template : string;
  mcs_Config : option JSON;
  mcs_DryRun : bool;
  mcs_Services : list ManagedClusterServiceSpec;
}.

Record ManagedClusterStatus := {
  mcst_ObservedGeneration : Z;
  mcst_Conditions : list Condition;
}.

Record ManagedCluster := {
  mc_meta : ObjectMeta;
  mc_Spec : ManagedClusterSpec;
  mc_Status : ManagedClusterStatus;
}.

Definition withConditions (mc : ManagedCluster) (cs : list Condition) : ManagedCluster :=
  {| mc_meta := mc_meta mc; mc_Spec := mc_Spec mc;
     mc_Status := {| mcst_ObservedGeneration := mcst_ObservedGeneration (mc_Status mc);
                     mcst_Conditions := cs |} |}.

Definition withObservedGeneration (mc : ManagedCluster) (g : Z) : ManagedCluster :=
  {| mc_meta := mc_meta mc; mc_Spec := mc_Spec mc;
     mc_Status := {| mcst_ObservedGeneration := g;
                     mcst_Conditions := mcst_Conditions (mc_Status mc) |} |}.

Definition withMeta (mc : ManagedCluster) (m : ObjectMeta) : ManagedCluster :=
  {| mc_meta := m; mc_Spec := mc_Spec mc; mc_Status := mc_Status mc |}.

(** [apimeta.SetStatusCondition(managedCluster.GetConditions(), c)] *)
Definition setCondition (mc : ManagedCluster) (c : Condition) : ManagedCluster :=
  withConditions mc (SetStatusCondition (mcst_Conditions (mc_Status mc)) c).

(** *** Declarations of the api package that are not among the sources

    The controllers name these constants and one method of [ManagedCluster];
    their values are parameters of the development.  The four condition
    types are pairwise distinct.  [InitConditions] is taken to write
    [Status.Conditions] only: it yields the new condition list. *)
Class API := {
  ManagedClusterFinalizer : string;
  BlockingFinalizer : string;
  ManagedClusterKind : string;
  TemplateKind_ : string;
  GroupVersion_String : string;
  HMCManagedLabelKey : string;
  HMCManagedLabelValue : string;
  FluxHelmChartNameKey : string;
  FluxHelmChartNamespaceKey : string;
  ClusterNameLabelKey : string;
  ProviderSveltosName : string;
  ProviderSveltosTargetNamespace : string;
  ProviderSveltosCreateNamespace : bool;
  TemplateReadyCondition : string;
  HelmChartReadyCondition : string;
  HelmReleaseReadyCondition : string;
  ReadyCondition : string;
  FailedReason : string;
  SucceededReason : string;
  ProgressingReason : string;
  ChartAnnotationType : string;
  ChartAnnotationInfraProviders : string;
  ChartAnnotationBootstrapProviders : string;
  ChartAnnotationControlPlaneProviders : string;
  TemplateTypeDeployment : string;
  TemplateTypeProvider : string;
  TemplateTypeCore : string;
  DefaultReconcileInterval : Duration;
  InitConditions : ManagedCluster -> list Condition;
  condition_types_distinct :
    NoDup [TemplateReadyCondition; HelmChartReadyCondition;
           HelmReleaseReadyCondition; ReadyCondition];
}.

(** ** Packages the controllers call *)

(** [helm.ReconcileHelmReleaseOpts] *)
Record ReconcileHelmReleaseOpts := {
  rho_Values : option JSON;
  rho_OwnerReference : option OwnerReference;
  rho_ChartRef : option CrossNamespaceSourceReference;
  rho_DependsOn : list NamespacedObjectReference;
  rho_TargetNamespace : string;
  rho_CreateNamespace : bool;
}.

(** [sveltos.HelmChartOpts], [sveltos.ReconcileClusterProfileOpts] *)
Record HelmChartOpts := {
  hco_RepositoryURL : string;
  hco_RepositoryName : string;
  hco_ChartName : string;
  hco_ChartVersion : string;
  hco_ReleaseName : string;
  hco_Values : option JSON;
  hco_ReleaseNamespace : string;
  hco_CreateNamespace : bool;
  hco_PlainHTTP : bool;
  hco_Insecure : bool;
}.

Record ReconcileClusterProfileOpts := {
  rcp_OwnerReference : option OwnerReference;
  rcp_HelmChartOpts : list HelmChartOpts;
}.

(** The operations a reconcile pass issues.  Each stands for one call in the
    source; [resp] is what the call hands back. *)
Inductive Op : Type :=
(* client.Client: Get *)
| GetTemplate (namespace name : string)
| GetClusterTemplate (namespace name : string)
| GetServiceTemplate (namespace name : string)
| GetHelmChart (namespace name : string)
| GetHelmRepository (namespace name : string)
| GetHelmRelease (namespace name : string)
(* client.Client: Update, Status().Update, List, Patch, CreateOrUpdate *)
| UpdateManagement (obj : Management)
| UpdateManagedCluster (obj : ManagedCluster)
| UpdateHelmRelease (obj : HelmRelease)
| StatusUpdateManagement (obj : Management)
| StatusUpdateManagedCluster (obj : ManagedCluster)
| StatusUpdateTemplate (obj : Template)
| StatusUpdateKindTemplate (obj : KindTemplate)
| ListMetadata (gvk : GroupVersionKind) (namespace : string)
               (selector : gmap string string) (limit : Z)
| PatchMetadata (obj original : PartialObjectMetadata)
| CreateOrUpdateHelmChart (desired : HelmChart)
(* dynamic client *)
| DynamicListClusters (namespace : string) (selector : gmap string string)
(* internal/helm *)
| ReconcileHelmRelease2 (name namespace : string) (opts : ReconcileHelmReleaseOpts)
| ReconcileHelmRelease (name namespace : string) (opts : ReconcileHelmReleaseOpts)
| DeleteHelmRelease (name namespace : string)
| ReconcileHelmRepository (name namespace : string)
| ArtifactReady (chart : HelmChart)
| DownloadChartFromArtifact (artifact : option Artifact)
(* helm.sh/helm/v3 *)
| ActionConfigInit (namespace : string)
| InstallRun (releaseName namespace : string) (chart : Chart) (vals : gmap string JValue)
| ChartValidate (chart : Chart)
(* internal/sveltos *)
| ReconcileClusterProfile (namespace name : string) (matchLabels : gmap string string)
                          (opts : ReconcileClusterProfileOpts)
| ReconcileClusterProfile1 (name namespace : string) (opts : ReconcileClusterProfileOpts)
| DeleteClusterProfile (namespace name : string)
(* internal/utils, internal/certmanager *)
| EnsureDeleteAllOf (gvk : GroupVersionKind) (selector : gmap string string)
| VerifyAPI (namespace : string)
(* encoding/json and the values of a ManagedCluster *)
| JSONUnmarshal (raw : string)
| JSONMarshal (v : gmap string JValue)
| HelmValues (config : option JSON).

Definition resp (o : Op) : Type :=
  match o with
  | GetTemplate _ _ => Result Template
  | GetClusterTemplate _ _ => Result ClusterTemplate
  | GetServiceTemplate _ _ => Result ServiceTemplate
  | GetHelmChart _ _ => Result HelmChart
  | GetHelmRepository _ _ => Result HelmRepository
  | GetHelmRelease _ _ => Result HelmRelease
  | UpdateManagement _ | UpdateManagedCluster _ | UpdateHelmRelease _
  | StatusUpdateManagement _ | StatusUpdateManagedCluster _
  | StatusUpdateTemplate _ | StatusUpdateKindTemplate _ => option error
  | ListMetadata _ _ _ _ => Result (list PartialObjectMetadata)
  | PatchMetadata _ _ => option error
  | CreateOrUpdateHelmChart _ => Result HelmChart
  | DynamicListClusters _ _ => Result (list UCluster)
  | ReconcileHelmRelease2 _ _ _ | ReconcileHelmRelease _ _ _ => Result HelmRelease
  | DeleteHelmRelease _ _ | ReconcileHelmRepository _ _ => option error
  | ArtifactReady _ => (bool * option error)%type
  | DownloadChartFromArtifact _ => Result Chart
  | ActionConfigInit _ | InstallRun _ _ _ _ | ChartValidate _ => option error
  | ReconcileClusterProfile _ _ _ _ | ReconcileClusterProfile1 _ _ _ => Result string
  | DeleteClusterProfile _ _ | EnsureDeleteAllOf _ _ | VerifyAPI _ => option error
  | JSONUnmarshal _ => Result (gmap string JValue)
  | JSONMarshal _ => Result string
  | HelmValues _ => Result (gmap string JValue)
  end.

(** ** Reconcile passes as programs *)

(** A pass returns, panics (a nil dereference or a failed type assertion),
    or issues an operation and goes on with its answer. *)
Inductive Prog (A : Type) : Type :=
| Ret (a : A)
| Panic
| Do (o : Op) (k : resp o -> Prog A).

Arguments Ret {A} a.
Arguments Panic {A}.
Arguments Do {A} o k.

Fixpoint bind {A B : Type} (p : Prog A) (f : A -> Prog B) : Prog B :=
  match p with
  | Ret a => f a
  | Panic => Panic
  | Do o k => Do o (fun r => bind (k r) f)
  end.

Definition call (o : Op) : Prog (resp o) := Do o Ret.

Notation "x <- p ;; q" := (bind p (fun x => q))
  (at level 100, p at next level, right associativity, only parsing).

Inductive Outcome (A : Type) : Type :=
| Done (a : A)
| Panicked.

Arguments Done {A} a.
Arguments Panicked {A}.

(** Whether the answer to an operation carries an error. *)
Definition isFail {A : Type} (x : Result A) : bool :=
  match x with Fail _ => true | Ok _ => false end.

Definition isErr (x : option error) : bool :=
  match x with Some _ => true | None => false end.

Definition failed (o : Op) : resp o -> bool :=
  match o return resp o -> bool with
  | GetTemplate _ _ => isFail
  | GetClusterTemplate _ _ => isFail
  | GetServiceTemplate _ _ => isFail
  | GetHelmChart _ _ => isFail
  | GetHelmRepository _ _ => isFail
  | GetHelmRelease _ _ => isFail
  | UpdateManagement _ => isErr
  | UpdateManagedCluster _ => isErr
  | UpdateHelmRelease _ => isErr
  | StatusUpdateManagement _ => isErr
  | StatusUpdateManagedCluster _ => isErr
  | StatusUpdateTemplate _ => isErr
  | StatusUpdateKindTemplate _ => isErr
  | ListMetadata _ _ _ _ => isFail
  | PatchMetadata _ _ => isErr
  | CreateOrUpdateHelmChart _ => isFail
  | DynamicListClusters _ _ => isFail
  | ReconcileHelmRelease2 _ _ _ => isFail
  | ReconcileHelmRelease _ _ _ => isFail
  | DeleteHelmRelease _ _ => isErr
  | ReconcileHelmRepository _ _ => isErr
  | ArtifactReady _ => fun x => isErr x.2
  | DownloadChartFromArtifact _ => isFail
  | ActionConfigInit _ => isErr
  | InstallRun _ _ _ _ => isErr
  | ChartValidate _ => isErr
  | ReconcileClusterProfile _ _ _ _ => isFail
  | ReconcileClusterProfile1 _ _ _ => isFail
  | DeleteClusterProfile _ _ => isErr
  | EnsureDeleteAllOf _ _ => isErr
  | VerifyAPI _ => isErr
  | JSONUnmarshal _ => isFail
  | JSONMarshal _ => isFail
  | HelmValues _ => isFail
  end.

(** An operation of a pass together with whether it failed. *)
Abbreviation Event := (Op * bool)%type.

Section Run.
Context {W : Type}.

(** The environment: it answers every operation and moves to a new state. *)
Definition Env := forall o : Op, W -> resp o * W.

Variable env : Env.

(** What the pass returns, the operations it issues, in order, and the
    state it leaves. *)
Fixpoint outcome {A} (p : Prog A) (w : W) : Outcome A :=
  match p with
  | Ret a => Done a
  | Panic => Panicked
  | Do o k => outcome (k (env o w).1) (env o w).2
  end.

Fixpoint trace {A} (p : Prog A) (w : W) : list Event :=
  match p with
  | Ret _ | Panic => []
  | Do o k => (o, failed o (env o w).1) :: trace (k (env o w).1) (env o w).2
  end.

Fixpoint final {A} (p : Prog A) (w : W) : W :=
  match p with
  | Ret _ | Panic => w
  | Do o k => final (k (env o w).1) (env o w).2
  end.

(** The operations of a pass without their results. *)
Definition ops {A} (p : Prog A) (w : W) : list Op := List.map fst (trace p w).
End Run.

(** [fluxv2.GroupVersion.WithKind] and [sourcev1.GroupVersion.WithKind] *)
Definition fluxv2_WithKind (kind : string) : GroupVersionKind :=
  {| Group := "helm.toolkit.fluxcd.io"; Version := "v2"; Kind := kind |}.
Definition sourcev1_WithKind (kind : string) : GroupVersionKind :=
  {| Group := "source.toolkit.fluxcd.io"; Version := "v1"; Kind := kind |}.

Definition emptyProviders : Providers :=
  {| InfrastructureProviders := []; BootstrapProviders := []; ControlPlaneProviders := [] |}.

(** ** internal/controller/management_controller.go *)

Module ManagementController.

Record ManagementReconciler := { SystemNamespace : string }.

(** The [component] struct: a [Component] with the dependencies and the
    namespace override of its release. *)
Record component := {
  Component_ : Component;
  dependsOn : list NamespacedObjectReference;
  targetNamespace : string;
  createNamespace : bool;
}.

Definition withSpec (m : Management) (s : ManagementSpec) : Management :=
  {| m_meta := m_meta m; m_Spec := s; m_Status := m_Status m |}.

Definition withMeta (m : Management) (meta : ObjectMeta) : Management :=
  {| m_meta := meta; m_Spec := m_Spec m; m_Status := m_Status m |}.

Definition emptyTemplateStatus : TemplateStatus :=
  {| tst_Valid := false; tst_ValidationError := EmptyString;
     tst_Description := EmptyString; tst_Config := None; tst_ChartRef := None;
     tst_Type := EmptyString; tst_Providers := emptyProviders;
     tst_ObservedGeneration := 0 |}.

Section Controller.
Context {api : API}.
Variable r : ManagementReconciler.

Definition wrappedComponents (mgmt : Management) : list component :=
  match ms_Core (m_Spec mgmt) with
  | None => []
  | Some core =>
      [ {| Component_ := HMC core; dependsOn := [];
           targetNamespace := EmptyString; createNamespace := false |};
        {| Component_ := CAPI core;
           dependsOn := [ {| nor_Name := comp_Template (HMC core);
                             nor_Namespace := EmptyString |} ];
           targetNamespace := EmptyString; createNamespace := false |} ]
      ++ List.map
           (fun p =>
              let sveltos := String.eqb (comp_Template p) ProviderSveltosName in
              {| Component_ := p;
                 dependsOn := [ {| nor_Name := comp_Template (CAPI core);
                                   nor_Namespace := EmptyString |} ];
                 targetNamespace :=
                   if sveltos then ProviderSveltosTargetNamespace else EmptyString;
                 createNamespace :=
                   if sveltos then ProviderSveltosCreateNamespace else false |})
           (ms_Providers (m_Spec mgmt))
  end.

(** [config[key]] asserted to be a map when it is not nil; the assertion
    has no [ok] form in the source and panics on any other value. *)
Definition subConfig (config : gmap string JValue) (key : string)
  : Prog (gmap string JValue) :=
  match config !! key with
  | None | Some JNull => Ret ∅
  | Some (JObject m) => Ret m
  | Some _ => Panic
  end.

Definition withHMCConfig (mgmt : Management) (core : Core) (cfg : JSON) : Management :=
  withSpec mgmt
    {| ms_Core := Some {| HMC := {| comp_Template := comp_Template (HMC core);
                                    comp_Config := Some cfg |};
                          CAPI := CAPI core |};
       ms_Providers := ms_Providers (m_Spec mgmt) |}.

Definition enableAdditionalComponents (mgmt : Management)
  : Prog (Management * option error) :=
  match ms_Core (m_Spec mgmt) with
  | None => Panic
  | Some core =>
      let hmcComponent := HMC core in
      parsed <- match comp_Config hmcComponent with
                | Some cfg => call (JSONUnmarshal (Raw cfg))
                | None => Ret (Ok ∅)
                end ;;
      match parsed with
      | Fail err =>
          Ret (mgmt, Some (Errorf
            ("failed to unmarshal HMC config into map[string]interface{}: " +:+ Error err)))
      | Ok config =>
          admissionWebhookValues <- subConfig config "admissionWebhook" ;;
          capiOperatorValues <- subConfig config "cluster-api-operator" ;;
          verified <- call (VerifyAPI (SystemNamespace r)) ;;
          match verified with
          | Some err =>
              Ret (mgmt, Some (Errorf
                ("failed to check in the cert-manager API is installed: " +:+ Error err)))
          | None =>
              let admissionWebhookValues := <["enabled" := JBool true]> admissionWebhookValues in
              let config := <["admissionWebhook" := JObject admissionWebhookValues]> config in
              let capiOperatorValues :=
                match capiOperatorValues !! "enabled" with
                | Some (JBool false) => capiOperatorValues
                | _ => <["enabled" := JBool true]> capiOperatorValues
                end in
              let config := <["cluster-api-operator" := JObject capiOperatorValues]> config in
              marshalled <- call (JSONMarshal config) ;;
              match marshalled with
              | Fail err =>
                  Ret (mgmt, Some (Errorf ("failed to marshal HMC config: " +:+ Error err)))
              | Ok updatedConfig =>
                  Ret (withHMCConfig mgmt core {| Raw := updatedConfig |}, None)
              end
          end
      end
  end.

Definition updateComponentsStatus
    (components : gmap string ComponentStatus) (providers : Providers)
    (componentName : string) (templateStatus : TemplateStatus) (err : string)
  : gmap string ComponentStatus * Providers :=
  let components :=
    <[componentName := {| cs_Success := String.eqb err EmptyString; cs_Error := err |}]>
      components in
  if String.eqb err EmptyString then
    (components,
     {| InfrastructureProviders :=
          InfrastructureProviders providers ++
          InfrastructureProviders (tst_Providers templateStatus);
        BootstrapProviders :=
          BootstrapProviders providers ++
          BootstrapProviders (tst_Providers templateStatus);
        ControlPlaneProviders :=
          ControlPlaneProviders providers ++
          ControlPlaneProviders (tst_Providers templateStatus) |})
  else (components, providers).

(** The variables the loop of [Update] carries from one component to the
    next: [errs], [detectedProviders], [detectedComponents]. *)
Definition LoopState : Type :=
  (option error * Providers * gmap string ComponentStatus)%type.

Definition failComponent (st : LoopState) (name : string)
    (templateStatus : TemplateStatus) (errMsg : string) : LoopState :=
  let '(errs, detectedProviders, detectedComponents) := st in
  let '(detectedComponents, detectedProviders) :=
    updateComponentsStatus detectedComponents detectedProviders name templateStatus errMsg in
  (errors_Join errs (Some (errors_New errMsg)), detectedProviders, detectedComponents).

(** One iteration of the loop over [components] in [Update]. *)
Definition Update_component (c : component) (st : LoopState) : Prog LoopState :=
  let name := comp_Template (Component_ c) in
  got <- call (GetTemplate (SystemNamespace r) name) ;;
  match got with
  | Fail err =>
      let errMsg := "Failed to get Template " +:+ SystemNamespace r +:+ "/" +:+ name
                    +:+ ": " +:+ Error err in
      Ret (failComponent st name emptyTemplateStatus errMsg)
  | Ok template =>
      if negb (tst_Valid (t_Status template)) then
        let errMsg := "Template " +:+ SystemNamespace r +:+ "/" +:+ name
                      +:+ " is not marked as valid" in
        Ret (failComponent st name (t_Status template) errMsg)
      else
        released <- call (ReconcileHelmRelease2 (HelmReleaseName (Component_ c))
                            (SystemNamespace r)
                            {| rho_Values := comp_Config (Component_ c);
                               rho_OwnerReference := None;
                               rho_ChartRef := tst_ChartRef (t_Status template);
                               rho_DependsOn := dependsOn c;
                               rho_TargetNamespace := targetNamespace c;
                               rho_CreateNamespace := createNamespace c |}) ;;
        match released with
        | Fail err =>
            let errMsg := "error reconciling HelmRelease " +:+ SystemNamespace r +:+ "/"
                          +:+ name +:+ ": " +:+ Error err in
            Ret (failComponent st name (t_Status template) errMsg)
        | Ok _ =>
            let '(errs, detectedProviders, detectedComponents) := st in
            let '(detectedComponents, detectedProviders) :=
              updateComponentsStatus detectedComponents detectedProviders name
                (t_Status template) EmptyString in
            Ret (errs, detectedProviders, detectedComponents)
        end
  end.

Fixpoint Update_components (components : list component) (st : LoopState)
  : Prog LoopState :=
  match components with
  | [] => Ret st
  | c :: rest => st' <- Update_component c st ;; Update_components rest st'
  end.

Definition Update (management : Management)
  : Prog (Management * ctrl_Result * option error) :=
  let '(meta, finalizersUpdated) := AddFinalizer (m_meta management) ManagementFinalizer in
  let management := withMeta management meta in
  if finalizersUpdated then
    updated <- call (UpdateManagement management) ;;
    match updated with
    | Some err =>
        Ret (management, noRequeue,
             Some (Errorf_w ("failed to update Management " +:+ Name (m_meta management)
                             +:+ ": " +:+ Error err) err))
    | None => Ret (management, noRequeue, None)
    end
  else
    let '(spec, changed) := SetDefaults (m_Spec management) in
    let management := withSpec management spec in
    if changed then
      updated <- call (UpdateManagement management) ;;
      Ret (management, noRequeue, updated)
    else
      enabled <- enableAdditionalComponents management ;;
      let '(management, err) := enabled in
      match err with
      | Some err => Ret (management, noRequeue, Some err)
      | None =>
          let components := wrappedComponents management in
          st <- Update_components components (None, emptyProviders, ∅) ;;
          let '(errs, detectedProviders, detectedComponents) := st in
          let management :=
            {| m_meta := m_meta management; m_Spec := m_Spec management;
               m_Status := {| mst_ObservedGeneration := Generation (m_meta management);
                              mst_AvailableProviders := detectedProviders;
                              mst_Components := detectedComponents |} |} in
          updated <- call (StatusUpdateManagement management) ;;
          let errs :=
            match updated with
            | Some err =>
                errors_Join errs
                  (Some (Errorf_w ("failed to update status for Management "
                                   +:+ Name (m_meta management) +:+ ": " +:+ Error err) err))
            | None => errs
            end in
          Ret (management, noRequeue, errs)
      end.

Definition removeHelmReleases (hmcReleaseName : string) (opts : gmap string string)
  : Prog (option error) :=
  got <- call (GetHelmRelease (SystemNamespace r) hmcReleaseName) ;;
  let deleteAll := call (EnsureDeleteAllOf (fluxv2_WithKind HelmReleaseKind) opts) in
  match got with
  | Fail err => if negb (IsNotFound err) then Ret (Some err) else deleteAll
  | Ok hmcRelease =>
      if negb (hr_Suspend hmcRelease) then
        let hmcRelease := {| hr_meta := hr_meta hmcRelease; hr_Suspend := true;
                             hr_Conditions := hr_Conditions hmcRelease |} in
        updated <- call (UpdateHelmRelease hmcRelease) ;;
        match updated with
        | Some err => Ret (Some err)
        | None => deleteAll
        end
      else deleteAll
  end.

Definition removeHelmCharts (opts : gmap string string) : Prog (option error) :=
  call (EnsureDeleteAllOf (sourcev1_WithKind HelmChartKind) opts).

Definition removeHelmRepositories (opts : gmap string string) : Prog (option error) :=
  call (EnsureDeleteAllOf (sourcev1_WithKind HelmRepositoryKind) opts).

Definition Delete (management : Management)
  : Prog (Management * ctrl_Result * option error) :=
  let listOpts : gmap string string := {[ HMCManagedLabelKey := HMCManagedLabelValue ]} in
  match ms_Core (m_Spec management) with
  | None => Panic
  | Some core =>
      released <- removeHelmReleases (HelmReleaseName (HMC core)) listOpts ;;
      match released with
      | Some err => Ret (management, noRequeue, Some err)
      | None =>
          charts <- removeHelmCharts listOpts ;;
          match charts with
          | Some err => Ret (management, noRequeue, Some err)
          | None =>
              repositories <- removeHelmRepositories listOpts ;;
              match repositories with
              | Some err => Ret (management, noRequeue, Some err)
              | None =>
                  let '(meta, removed) :=
                    RemoveFinalizer (m_meta management) ManagementFinalizer in
                  let management := withMeta management meta in
                  if removed then
                    updated <- call (UpdateManagement management) ;;
                    Ret (management, noRequeue, updated)
                  else Ret (management, noRequeue, None)
              end
          end
      end
  end.
End Controller.

End ManagementController.

(** A panic in [p] unwinds through a deferred call before it goes on. *)
Fixpoint onPanic {A B : Type} (p : Prog A) (deferred : Prog B) : Prog A :=
  match p with
  | Ret a => Ret a
  | Panic => _ <- deferred ;; Panic
  | Do o k => Do o (fun r => onPanic (k r) deferred)
  end.

(** [types.NamespacedName.String] *)
Definition NamespacedName_String (namespace name : string) : string :=
  namespace +:+ "/" +:+ name.

(** ** internal/controller/managedcluster_controller.go, second revision
    (the one with [DefaultRequeueInterval] and [updateServices]) *)

Module ManagedClusterController.

Definition DefaultRequeueInterval : Duration := 10 * Second.

Record ManagedClusterReconciler := { SystemNamespace : string }.

Record providerSchema := { machine : GroupVersionKind; cluster : GroupVersionKind }.

Definition gvkAWSCluster : GroupVersionKind :=
  {| Group := "infrastructure.cluster.x-k8s.io"; Version := "v1beta2"; Kind := "awscluster" |}.
Definition gvkAzureCluster : GroupVersionKind :=
  {| Group := "infrastructure.cluster.x-k8s.io"; Version := "v1beta1"; Kind := "azurecluster" |}.
Definition gvkMachine : GroupVersionKind :=
  {| Group := "cluster.x-k8s.io"; Version := "v1beta1"; Kind := "machine" |}.

Definition requeueAfter (d : Duration) : ctrl_Result :=
  {| Requeue := false; RequeueAfter := d |}.

Section Controller.
Context {api : API}.
Variable r : ManagedClusterReconciler.

Definition ownerReference (mc : ManagedCluster) : OwnerReference :=
  {| or_APIVersion := GroupVersion_String; or_Kind := ManagedClusterKind;
     or_Name := Name (mc_meta mc); or_UID := UID (mc_meta mc) |}.

(** The loop over the conditions of the CAPI cluster in
    [setStatusFromClusterStatus]. *)
Fixpoint copyClusterConditions (managedCluster : ManagedCluster)
    (conditions : list UCondition) (allConditionsComplete : bool)
  : ManagedCluster * bool * option error :=
  match conditions with
  | [] => (managedCluster, negb allConditionsComplete, None)
  | UNotAMap :: _ =>
      (managedCluster, true,
       Some (Errorf ("failed to cast condition to map[string]interface{} for managedCluster: "
                     +:+ Namespace (mc_meta managedCluster) +:+ " in namespace: "
                     +:+ Name (mc_meta managedCluster) +:+ ": %!w(<nil>)")))
  | UNotConvertible err :: _ =>
      (managedCluster, true,
       Some (Errorf_w
               ("failed to convert unstructured conditions to metav1.Condition for managedCluster "
                +:+ Namespace (mc_meta managedCluster) +:+ " in namespace: "
                +:+ Name (mc_meta managedCluster) +:+ ": " +:+ Error err) err))
  | UCond metaCondition :: rest =>
      let allConditionsComplete :=
        if negb (String.eqb (cStatus metaCondition) "True") then false
        else allConditionsComplete in
      let metaCondition :=
        if String.eqb (cReason metaCondition) EmptyString
           && String.eqb (cStatus metaCondition) "True"
        then {| cType := cType metaCondition; cStatus := cStatus metaCondition;
                cReason := "Succeeded"; cMessage := cMessage metaCondition |}
        else metaCondition in
      copyClusterConditions (setCondition managedCluster metaCondition) rest
        allConditionsComplete
  end.

(** The dynamic client hands back a nil list with every error, so for an
    error other than NotFound the test [len(list.Items) == 0] dereferences
    nil. *)
Definition setStatusFromClusterStatus (managedCluster : ManagedCluster)
  : Prog (ManagedCluster * bool * option error) :=
  listed <- call (DynamicListClusters (Namespace (mc_meta managedCluster))
                    {[ FluxHelmChartNameKey := Name (mc_meta managedCluster) ]}) ;;
  match listed with
  | Fail err => if IsNotFound err then Ret (managedCluster, true, None) else Panic
  | Ok [] => Ret (managedCluster, true, None)
  | Ok (first :: _) =>
      match uc_statusConditions first with
      | NestedError err =>
          Ret (managedCluster, true,
               Some (Errorf_w ("failed to get cluster information for managedCluster "
                               +:+ Namespace (mc_meta managedCluster) +:+ " in namespace: "
                               +:+ Name (mc_meta managedCluster) +:+ ": " +:+ Error err) err))
      | NestedAbsent =>
          Ret (managedCluster, true,
               Some (Errorf ("failed to get cluster information for managedCluster "
                             +:+ Namespace (mc_meta managedCluster) +:+ " in namespace: "
                             +:+ Name (mc_meta managedCluster)
                             +:+ ": status.conditions not found")))
      | NestedFound conditions => Ret (copyClusterConditions managedCluster conditions true)
      end
  end.

(** The loop of [updateStatus] over the conditions: [warnings] and [errs]. *)
Fixpoint collectMessages (conditions : list Condition) (warnings errs : string)
  : string * string :=
  match conditions with
  | [] => (warnings, errs)
  | condition :: rest =>
      if String.eqb (cType condition) ReadyCondition then
        collectMessages rest warnings errs
      else
        let warnings :=
          if String.eqb (cStatus condition) ConditionUnknown
          then warnings +:+ cMessage condition +:+ ". " else warnings in
        let errs :=
          if String.eqb (cStatus condition) ConditionFalse
          then errs +:+ cMessage condition +:+ ". " else errs in
        collectMessages rest warnings errs
  end.

(** The aggregate condition [updateStatus] builds from the others. *)
Definition readyCondition (conditions : list Condition) : Condition :=
  let '(warnings, errs) := collectMessages conditions EmptyString EmptyString in
  let condition :=
    {| cType := ReadyCondition; cStatus := ConditionTrue; cReason := SucceededReason;
       cMessage := "ManagedCluster is ready" |} in
  let condition :=
    if negb (String.eqb warnings EmptyString)
    then {| cType := ReadyCondition; cStatus := ConditionUnknown;
            cReason := ProgressingReason; cMessage := warnings |}
    else condition in
  if negb (String.eqb errs EmptyString)
  then {| cType := ReadyCondition; cStatus := ConditionFalse;
          cReason := FailedReason; cMessage := errs |}
  else condition.

Definition updateStatus (managedCluster : ManagedCluster)
  : Prog (ManagedCluster * option error) :=
  let managedCluster :=
    withObservedGeneration managedCluster (Generation (mc_meta managedCluster)) in
  let condition := readyCondition (mcst_Conditions (mc_Status managedCluster)) in
  let managedCluster := setCondition managedCluster condition in
  updated <- call (StatusUpdateManagedCluster managedCluster) ;;
  match updated with
  | Some err =>
      Ret (managedCluster,
           Some (Errorf_w ("failed to update status for managedCluster "
                           +:+ Namespace (mc_meta managedCluster) +:+ "/"
                           +:+ Name (mc_meta managedCluster) +:+ ": " +:+ Error err) err))
  | None => Ret (managedCluster, None)
  end.

Definition getSource (ref : option CrossNamespaceSourceReference) : Prog (Result HelmChart) :=
  match ref with
  | None => Ret (Fail (Errorf "helm chart source is not provided"))
  | Some ref => call (GetHelmChart (ref_Namespace ref) (ref_Name ref))
  end.

Definition validateReleaseWithValues (managedCluster : ManagedCluster) (hcChart : Chart)
  : Prog (option error) :=
  vals <- call (HelmValues (mcs_Config (mc_Spec managedCluster))) ;;
  match vals with
  | Fail err => Ret (Some err)
  | Ok vals =>
      call (InstallRun (Name (mc_meta managedCluster)) (Namespace (mc_meta managedCluster))
              hcChart vals)
  end.

(** [getServiceTemplateRepoURL]: ServiceTemplate, then HelmChart, then
    HelmRepository. *)
Definition getServiceTemplateRepoURL (tmpl : ServiceTemplate) : Prog (Result string) :=
  let tmplRef := NamespacedName_String (Namespace (kt_meta tmpl)) (Name (kt_meta tmpl)) in
  match tstc_ChartRef (kt_Status tmpl) with
  | None =>
      Ret (Fail (Errorf ("status for ServiceTemplate (" +:+ tmplRef
                         +:+ ") has not been updated yet")))
  | Some chartRef =>
      chart <- call (GetHelmChart (ref_Namespace chartRef)
                       (hs_ChartName (tsc_Helm (kt_Spec tmpl)))) ;;
      match chart with
      | Fail _ => Ret (Fail (Errorf ("failed to get HelmChart (" +:+ tmplRef +:+ ")")))
      | Ok chart =>
          repo <- call (GetHelmRepository (Namespace (hc_meta chart))
                          (src_Name (hcs_SourceRef (hc_Spec chart)))) ;;
          match repo with
          | Fail _ =>
              Ret (Fail (Errorf ("failed to get HelmRepository (" +:+ tmplRef +:+ ")")))
          | Ok repo => Ret (Ok (hrepo_URL repo))
          end
      end
  end.

(** The loop of [updateServices]: the entries built so far, or the error
    the function returns at once. *)
Fixpoint collectServices (mc : ManagedCluster) (services : list ManagedClusterServiceSpec)
    (opts : list HelmChartOpts) : Prog (Result (list HelmChartOpts)) :=
  match services with
  | [] => Ret (Ok opts)
  | svc :: rest =>
      if negb (svc_Install svc) then collectServices mc rest opts
      else
        got <- call (GetServiceTemplate (Namespace (mc_meta mc)) (svc_Template svc)) ;;
        match got with
        | Fail _ =>
            Ret (Fail (Errorf ("failed to get Template ("
                               +:+ NamespacedName_String (Namespace (mc_meta mc))
                                     (svc_Template svc) +:+ ")")))
        | Ok tmpl =>
            url <- getServiceTemplateRepoURL tmpl ;;
            match url with
            | Fail err =>
                Ret (Fail (Errorf_w ("could not get repository url: " +:+ Error err) err))
            | Ok url =>
                collectServices mc rest
                  (opts ++
                   [ {| hco_RepositoryURL := url;
                        hco_RepositoryName := hs_ChartName (tsc_Helm (kt_Spec tmpl));
                        hco_ChartName := hs_ChartName (tsc_Helm (kt_Spec tmpl));
                        hco_ChartVersion := hs_ChartVersion (tsc_Helm (kt_Spec tmpl));
                        hco_ReleaseName := svc_ReleaseName svc;
                        hco_Values := svc_Values svc;
                        hco_ReleaseNamespace :=
                          if negb (String.eqb (svc_ReleaseNamespace svc) EmptyString)
                          then svc_ReleaseNamespace svc else svc_ReleaseName svc;
                        hco_CreateNamespace := svc_CreateNamespace svc;
                        hco_PlainHTTP := PlainHTTP (svc_RegistryConfig svc);
                        hco_Insecure := Insecure (svc_RegistryConfig svc) |} ])
            end
        end
  end.

Definition updateServices (mc : ManagedCluster) : Prog (ctrl_Result * option error) :=
  collected <- collectServices mc (mcs_Services (mc_Spec mc)) [] ;;
  match collected with
  | Fail err => Ret (noRequeue, Some err)
  | Ok opts =>
      reconciled <- call (ReconcileClusterProfile (Namespace (mc_meta mc)) (Name (mc_meta mc))
                            (<[FluxHelmChartNamespaceKey := Namespace (mc_meta mc)]>
                               (<[FluxHelmChartNameKey := Name (mc_meta mc)]> ∅))
                            {| rcp_OwnerReference := Some (ownerReference mc);
                               rcp_HelmChartOpts := opts |}) ;;
      match reconciled with
      | Fail err =>
          Ret (noRequeue,
               Some (Errorf_w ("failed to create ClusterProfile: " +:+ Error err) err))
      | Ok _ => Ret (requeueAfter DefaultRequeueInterval, None)
      end
  end.

(** The body of [Update] below the deferred [updateStatus] call: the
    object as the body leaves it, and the values it returns. *)
Definition Update_body (managedCluster : ManagedCluster)
  : Prog (ManagedCluster * ctrl_Result * option error) :=
  got <- call (GetClusterTemplate (SystemNamespace r)
                 (mcs_Template (mc_Spec managedCluster))) ;;
  match got with
  | Fail err =>
      let errMsg :=
        if IsNotFound err then "provided template is not found"
        else "failed to get provided template: " +:+ Error err in
      Ret (setCondition managedCluster
             {| cType := TemplateReadyCondition; cStatus := ConditionFalse;
                cReason := FailedReason; cMessage := errMsg |},
           noRequeue, Some err)
  | Ok template =>
      if negb (tstc_Valid (kt_Status template)) then
        let errMsg := "provided template is not marked as valid" in
        Ret (setCondition managedCluster
               {| cType := TemplateReadyCondition; cStatus := ConditionFalse;
                  cReason := FailedReason; cMessage := errMsg |},
             noRequeue, Some (errors_New errMsg))
      else
        let managedCluster :=
          setCondition managedCluster
            {| cType := TemplateReadyCondition; cStatus := ConditionTrue;
               cReason := SucceededReason; cMessage := "Template is valid" |} in
        source <- getSource (tstc_ChartRef (kt_Status template)) ;;
        match source with
        | Fail err =>
            Ret (setCondition managedCluster
                   {| cType := HelmChartReadyCondition; cStatus := ConditionFalse;
                      cReason := FailedReason;
                      cMessage := "failed to get helm chart source: " +:+ Error err |},
                 noRequeue, Some err)
        | Ok source =>
            downloaded <- call (DownloadChartFromArtifact (hc_Artifact source)) ;;
            match downloaded with
            | Fail err =>
                Ret (setCondition managedCluster
                       {| cType := HelmChartReadyCondition; cStatus := ConditionFalse;
                          cReason := FailedReason;
                          cMessage := "failed to download helm chart: " +:+ Error err |},
                     noRequeue, Some err)
            | Ok hcChart =>
                initialised <- call (ActionConfigInit (Namespace (mc_meta managedCluster))) ;;
                match initialised with
                | Some err => Ret (managedCluster, noRequeue, Some err)
                | None =>
                    validated <- validateReleaseWithValues managedCluster hcChart ;;
                    match validated with
                    | Some err =>
                        Ret (setCondition managedCluster
                               {| cType := HelmChartReadyCondition;
                                  cStatus := ConditionFalse; cReason := FailedReason;
                                  cMessage :=
                                    "failed to validate template with provided configuration: "
                                    +:+ Error err |},
                             noRequeue, Some err)
                    | None =>
                        let managedCluster :=
                          setCondition managedCluster
                            {| cType := HelmChartReadyCondition; cStatus := ConditionTrue;
                               cReason := SucceededReason;
                               cMessage := "Helm chart is valid" |} in
                        if mcs_DryRun (mc_Spec managedCluster) then
                          Ret (managedCluster, noRequeue, None)
                        else
                          released <- call (ReconcileHelmRelease
                                              (Name (mc_meta managedCluster))
                                              (Namespace (mc_meta managedCluster))
                                              {| rho_Values := mcs_Config (mc_Spec managedCluster);
                                                 rho_OwnerReference :=
                                                   Some (ownerReference managedCluster);
                                                 rho_ChartRef := tstc_ChartRef (kt_Status template);
                                                 rho_DependsOn := [];
                                                 rho_TargetNamespace := EmptyString;
                                                 rho_CreateNamespace := false |}) ;;
                          match released with
                          | Fail err =>
                              Ret (setCondition managedCluster
                                     {| cType := HelmReleaseReadyCondition;
                                        cStatus := ConditionFalse; cReason := FailedReason;
                                        cMessage := Error err |},
                                   noRequeue, Some err)
                          | Ok hr =>
                              let managedCluster :=
                                match fluxconditions_Get hr fluxmeta_ReadyCondition with
                                | Some hrReadyCondition =>
                                    setCondition managedCluster
                                      {| cType := HelmReleaseReadyCondition;
                                         cStatus := cStatus hrReadyCondition;
                                         cReason := cReason hrReadyCondition;
                                         cMessage := cMessage hrReadyCondition |}
                                | None => managedCluster
                                end in
                              copied <- onPanic (setStatusFromClusterStatus managedCluster)
                                          (updateStatus managedCluster) ;;
                              let '(managedCluster, requeue, err) := copied in
                              match err with
                              | Some err =>
                                  if requeue
                                  then Ret (managedCluster,
                                            requeueAfter DefaultRequeueInterval, Some err)
                                  else Ret (managedCluster, noRequeue, Some err)
                              | None =>
                                  if requeue then
                                    Ret (managedCluster,
                                         requeueAfter DefaultRequeueInterval, None)
                                  else if negb (fluxconditions_IsReady hr) then
                                    Ret (managedCluster,
                                         requeueAfter DefaultRequeueInterval, None)
                                  else
                                    services <- updateServices managedCluster ;;
                                    Ret (managedCluster, services.1, services.2)
                              end
                          end
                    end
                end
            end
        end
  end.

Definition Update (managedCluster : ManagedCluster)
  : Prog (ManagedCluster * ctrl_Result * option error) :=
  let '(meta, finalizersUpdated) :=
    AddFinalizer (mc_meta managedCluster) ManagedClusterFinalizer in
  let managedCluster := withMeta managedCluster meta in
  if finalizersUpdated then
    updated <- call (UpdateManagedCluster managedCluster) ;;
    match updated with
    | Some err =>
        Ret (managedCluster, noRequeue,
             Some (Errorf_w ("failed to update managedCluster "
                             +:+ Namespace (mc_meta managedCluster) +:+ "/"
                             +:+ Name (mc_meta managedCluster) +:+ ": " +:+ Error err) err))
    | None => Ret (managedCluster, noRequeue, None)
    end
  else
    let managedCluster :=
      if Nat.eqb (length (mcst_Conditions (mc_Status managedCluster))) 0
      then withConditions managedCluster (InitConditions managedCluster)
      else managedCluster in
    returned <- Update_body managedCluster ;;
    let '(managedCluster, result, err) := returned in
    status <- updateStatus managedCluster ;;
    Ret (status.1, result, errors_Join err status.2).

Definition getProviders (templateName : string) : Prog (Result (list string)) :=
  got <- call (GetClusterTemplate (SystemNamespace r) templateName) ;;
  match got with
  | Fail err => Ret (Fail err)
  | Ok template => Ret (Ok (InfrastructureProviders (tstc_Providers (kt_Status template))))
  end.

Definition getCluster (namespace name : string) (gvk : GroupVersionKind)
  : Prog (Result PartialObjectMetadata) :=
  listed <- call (ListMetadata gvk namespace {[ FluxHelmChartNameKey := name ]} 0) ;;
  match listed with
  | Fail err => Ret (Fail err)
  | Ok [] => Ret (Fail (Errorf (Kind gvk +:+ " with name " +:+ name +:+ " was not found")))
  | Ok (first :: _) => Ret (Ok first)
  end.

(** [RemoveFinalizer] compacts the finalizer slice in place, and the copy
    [originalCluster := *cluster] shares that slice: after the call the
    copy shows the kept finalizers followed by the old tail. *)
Definition originalAfterRemove (cluster : PartialObjectMetadata) (finalizer : string)
  : PartialObjectMetadata :=
  let kept := Finalizers (RemoveFinalizer (pom_meta cluster) finalizer).1 in
  {| pom_gvk := pom_gvk cluster;
     pom_meta := withFinalizers (pom_meta cluster)
                   (kept ++ drop (length kept) (Finalizers (pom_meta cluster))) |}.

Definition removeClusterFinalizer (cluster : PartialObjectMetadata) : Prog (option error) :=
  let originalCluster := originalAfterRemove cluster BlockingFinalizer in
  let '(meta, finalizersUpdated) := RemoveFinalizer (pom_meta cluster) BlockingFinalizer in
  let cluster := {| pom_gvk := pom_gvk cluster; pom_meta := meta |} in
  if finalizersUpdated then
    patched <- call (PatchMetadata cluster originalCluster) ;;
    match patched with
    | Some err =>
        Ret (Some (Errorf_w ("failed to patch cluster " +:+ Namespace (pom_meta cluster)
                             +:+ "/" +:+ Name (pom_meta cluster) +:+ ": " +:+ Error err) err))
    | None => Ret None
    end
  else Ret None.

Definition machinesAvailable (namespace clusterName : string) (gvk : GroupVersionKind)
  : Prog (Result bool) :=
  listed <- call (ListMetadata gvk namespace {[ ClusterNameLabelKey := clusterName ]} 1) ;;
  match listed with
  | Fail err => Ret (Fail err)
  | Ok items => Ret (Ok (negb (Nat.eqb (length items) 0)))
  end.

Definition providerGVKs : gmap string providerSchema :=
  <["aws" := {| machine := gvkMachine; cluster := gvkAWSCluster |}]>
    (<["azure" := {| machine := gvkMachine; cluster := gvkAzureCluster |}]> ∅).

(** The loop of [releaseCluster] over the providers of the template. *)
Fixpoint releaseProviders (namespace name : string) (providers : list string)
  : Prog (option error) :=
  match providers with
  | [] => Ret None
  | provider :: rest =>
      match providerGVKs !! provider with
      | None => releaseProviders namespace name rest
      | Some gvk =>
          found <- getCluster namespace name (cluster gvk) ;;
          match found with
          | Fail err => Ret (Some err)
          | Ok cluster =>
              available <- machinesAvailable namespace (Name (pom_meta cluster))
                             (machine gvk) ;;
              match available with
              | Fail err => Ret (Some err)
              | Ok found =>
                  if negb found then removeClusterFinalizer cluster
                  else releaseProviders namespace name rest
              end
          end
      end
  end.

Definition releaseCluster (namespace name templateName : string) : Prog (option error) :=
  providers <- getProviders templateName ;;
  match providers with
  | Fail err => Ret (Some err)
  | Ok providers => releaseProviders namespace name providers
  end.

Definition Delete (managedCluster : ManagedCluster)
  : Prog (ManagedCluster * ctrl_Result * option error) :=
  got <- call (GetHelmRelease (Namespace (mc_meta managedCluster))
                 (Name (mc_meta managedCluster))) ;;
  match got with
  | Fail err =>
      if IsNotFound err then
        let '(meta, finalizersUpdated) :=
          RemoveFinalizer (mc_meta managedCluster) ManagedClusterFinalizer in
        let managedCluster := withMeta managedCluster meta in
        if finalizersUpdated then
          updated <- call (UpdateManagedCluster managedCluster) ;;
          match updated with
          | Some err =>
              Ret (managedCluster, noRequeue,
                   Some (Errorf_w ("failed to update managedCluster "
                                   +:+ Namespace (mc_meta managedCluster) +:+ "/"
                                   +:+ Name (mc_meta managedCluster) +:+ ": "
                                   +:+ Error err) err))
          | None => Ret (managedCluster, noRequeue, None)
          end
        else Ret (managedCluster, noRequeue, None)
      else Ret (managedCluster, noRequeue, Some err)
  | Ok _ =>
      profile <- call (DeleteClusterProfile (Namespace (mc_meta managedCluster))
                         (Name (mc_meta managedCluster))) ;;
      match profile with
      | Some err => Ret (managedCluster, noRequeue, Some err)
      | None =>
          deleted <- call (DeleteHelmRelease (Name (mc_meta managedCluster))
                             (Namespace (mc_meta managedCluster))) ;;
          match deleted with
          | Some err => Ret (managedCluster, noRequeue, Some err)
          | None =>
              released <- releaseCluster (Namespace (mc_meta managedCluster))
                            (Name (mc_meta managedCluster))
                            (mcs_Template (mc_Spec managedCluster)) ;;
              match released with
              | Some err => Ret (managedCluster, noRequeue, Some err)
              | None => Ret (managedCluster, requeueAfter DefaultRequeueInterval, None)
              end
          end
      end
  end.
End Controller.

End ManagedClusterController.

(** ** internal/controller/managedcluster_controller.go, first revision

    The first revision of the file reconciles the services inside [Update].
    [validateReleaseWithValues], [updateStatus], [getSource] and
    [setStatusFromClusterStatus] read the same in both revisions and are
    taken from the module above.  The [fmt.Printf] lines are left out. *)

Module ManagedClusterController1.

Import ManagedClusterController.

Section Controller.
Context {api : API}.
Variable r : ManagedClusterReconciler.

(** The loop over [Spec.Services] in [Update]. *)
Fixpoint collectServices (services : list ManagedClusterServiceSpec)
    (opts : list HelmChartOpts) : Prog (list HelmChartOpts) :=
  match services with
  | [] => Ret opts
  | svc :: rest =>
      if negb (svc_Install svc) then collectServices rest opts
      else
        got <- call (GetServiceTemplate (SystemNamespace r) (svc_Template svc)) ;;
        match got with
        | Fail _ => collectServices rest opts
        | Ok tmpl =>
            let opts :=
              opts ++
              [ {| hco_RepositoryURL := "oci://hmc-local-registry:5000/charts";
                   hco_RepositoryName := hs_ChartName (tsc_Helm (kt_Spec tmpl));
                   hco_ChartName := hs_ChartName (tsc_Helm (kt_Spec tmpl));
                   hco_ChartVersion := hs_ChartVersion (tsc_Helm (kt_Spec tmpl));
                   hco_ReleaseName := hs_ChartName (tsc_Helm (kt_Spec tmpl));
                   hco_Values := None;
                   hco_ReleaseNamespace := hs_ChartName (tsc_Helm (kt_Spec tmpl));
                   hco_CreateNamespace := true;
                   hco_PlainHTTP := false;
                   hco_Insecure := false |} ] in
            (* the arguments of [fmt.Printf] read [svc.Config.Raw] and
               [svc.Values.Raw]: a nil pointer there panics *)
            match svc_Config svc, svc_Values svc with
            | Some _, Some _ => collectServices rest opts
            | _, _ => Panic
            end
        end
  end.

Definition Update_body (managedCluster : ManagedCluster)
  : Prog (ManagedCluster * ctrl_Result * option error) :=
  got <- call (GetClusterTemplate (SystemNamespace r)
                 (mcs_Template (mc_Spec managedCluster))) ;;
  match got with
  | Fail err =>
      let errMsg :=
        if IsNotFound err then "provided template is not found"
        else "failed to get provided template: " +:+ Error err in
      Ret (setCondition managedCluster
             {| cType := TemplateReadyCondition; cStatus := ConditionFalse;
                cReason := FailedReason; cMessage := errMsg |},
           noRequeue, Some err)
  | Ok template =>
      if negb (tstc_Valid (kt_Status template)) then
        let errMsg := "provided template is not marked as valid" in
        Ret (setCondition managedCluster
               {| cType := TemplateReadyCondition; cStatus := ConditionFalse;
                  cReason := FailedReason; cMessage := errMsg |},
             noRequeue, Some (errors_New errMsg))
      else
        let managedCluster :=
          setCondition managedCluster
            {| cType := TemplateReadyCondition; cStatus := ConditionTrue;
               cReason := SucceededReason; cMessage := "Template is valid" |} in
        source <- getSource (tstc_ChartRef (kt_Status template)) ;;
        match source with
        | Fail err =>
            Ret (setCondition managedCluster
                   {| cType := HelmChartReadyCondition; cStatus := ConditionFalse;
                      cReason := FailedReason;
                      cMessage := "failed to get helm chart source: " +:+ Error err |},
                 noRequeue, Some err)
        | Ok source =>
            downloaded <- call (DownloadChartFromArtifact (hc_Artifact source)) ;;
            match downloaded with
            | Fail err =>
                Ret (setCondition managedCluster
                       {| cType := HelmChartReadyCondition; cStatus := ConditionFalse;
                          cReason := FailedReason;
                          cMessage := "failed to download helm chart: " +:+ Error err |},
                     noRequeue, Some err)
            | Ok hcChart =>
                initialised <- call (ActionConfigInit (Namespace (mc_meta managedCluster))) ;;
                match initialised with
                | Some err => Ret (managedCluster, noRequeue, Some err)
                | None =>
                    validated <- validateReleaseWithValues managedCluster hcChart ;;
                    match validated with
                    | Some err =>
                        Ret (setCondition managedCluster
                               {| cType := HelmChartReadyCondition;
                                  cStatus := ConditionFalse; cReason := FailedReason;
                                  cMessage :=
                                    "failed to validate template with provided configuration: "
                                    +:+ Error err |},
                             noRequeue, Some err)
                    | None =>
                        let managedCluster :=
                          setCondition managedCluster
                            {| cType := HelmChartReadyCondition; cStatus := ConditionTrue;
                               cReason := SucceededReason;
                               cMessage := "Helm chart is valid" |} in
                        if negb (mcs_DryRun (mc_Spec managedCluster)) then
                          released <- call (ReconcileHelmRelease
                                              (Name (mc_meta managedCluster))
                                              (Namespace (mc_meta managedCluster))
                                              {| rho_Values := mcs_Config (mc_Spec managedCluster);
                                                 rho_OwnerReference :=
                                                   Some (ownerReference managedCluster);
                                                 rho_ChartRef := tstc_ChartRef (kt_Status template);
                                                 rho_DependsOn := [];
                                                 rho_TargetNamespace := EmptyString;
                                                 rho_CreateNamespace := false |}) ;;
                          match released with
                          | Fail err =>
                              Ret (setCondition managedCluster
                                     {| cType := HelmReleaseReadyCondition;
                                        cStatus := ConditionFalse; cReason := FailedReason;
                                        cMessage := Error err |},
                                   noRequeue, Some err)
                          | Ok hr =>
                              let managedCluster :=
                                match fluxconditions_Get hr fluxmeta_ReadyCondition with
                                | Some hrReadyCondition =>
                                    setCondition managedCluster
                                      {| cType := HelmReleaseReadyCondition;
                                         cStatus := cStatus hrReadyCondition;
                                         cReason := cReason hrReadyCondition;
                                         cMessage := cMessage hrReadyCondition |}
                                | None => managedCluster
                                end in
                              copied <- onPanic (setStatusFromClusterStatus managedCluster)
                                          (updateStatus managedCluster) ;;
                              let '(managedCluster, requeue, err) := copied in
                              match err with
                              | Some err =>
                                  if requeue
                                  then Ret (managedCluster, requeueAfter (10 * Second), Some err)
                                  else Ret (managedCluster, noRequeue, Some err)
                              | None =>
                                  if requeue then
                                    Ret (managedCluster, requeueAfter (10 * Second), None)
                                  else if negb (fluxconditions_IsReady hr) then
                                    Ret (managedCluster, requeueAfter (10 * Second), None)
                                  else
                                    opts <- onPanic
                                              (collectServices
                                                 (mcs_Services (mc_Spec managedCluster)) [])
                                              (updateStatus managedCluster) ;;
                                    reconciled <- call (ReconcileClusterProfile1
                                                          (Name (mc_meta managedCluster))
                                                          (Namespace (mc_meta managedCluster))
                                                          {| rcp_OwnerReference :=
                                                               Some (ownerReference managedCluster);
                                                             rcp_HelmChartOpts := opts |}) ;;
                                    match reconciled with
                                    | Fail err =>
                                        Ret (managedCluster, noRequeue,
                                             Some (Errorf_w ("failed to create cluster profile: "
                                                             +:+ Error err) err))
                                    | Ok _ => Ret (managedCluster, noRequeue, None)
                                    end
                              end
                          end
                        else Ret (managedCluster, noRequeue, None)
                    end
                end
            end
        end
  end.

Definition Update (managedCluster : ManagedCluster)
  : Prog (ManagedCluster * ctrl_Result * option error) :=
  let '(meta, finalizersUpdated) :=
    AddFinalizer (mc_meta managedCluster) ManagedClusterFinalizer in
  let managedCluster := withMeta managedCluster meta in
  if finalizersUpdated then
    updated <- call (UpdateManagedCluster managedCluster) ;;
    match updated with
    | Some err =>
        Ret (managedCluster, noRequeue,
             Some (Errorf_w ("failed to update managedCluster "
                             +:+ Namespace (mc_meta managedCluster) +:+ "/"
                             +:+ Name (mc_meta managedCluster) +:+ ": " +:+ Error err) err))
    | None => Ret (managedCluster, noRequeue, None)
    end
  else
    let managedCluster :=
      if Nat.eqb (length (mcst_Conditions (mc_Status managedCluster))) 0
      then withConditions managedCluster (InitConditions managedCluster)
      else managedCluster in
    returned <- Update_body managedCluster ;;
    let '(managedCluster, result, err) := returned in
    status <- updateStatus managedCluster ;;
    Ret (status.1, result, errors_Join err status.2).
End Controller.

End ManagedClusterController1.

(** [strings.Split (s, ",")] *)
Fixpoint splitComma (s : string) : list string :=
  match s with
  | EmptyString => [EmptyString]
  | String c rest =>
      if Ascii.eqb c ","%char then EmptyString :: splitComma rest
      else match splitComma rest with
           | [] => [String c EmptyString]
           | first :: others => String c first :: others
           end
  end.

(** A lookup in a Go [map[string]string]: the empty string for a missing key. *)
Definition annotation (m : gmap string string) (key : string) : string :=
  default EmptyString (m !! key).

(** ** The Template controller of part_001 (one [Template] kind with a type) *)

Module TemplateController1.

Definition defaultRepoName : string := "hmc-templates".

Definition withStatus (t : Template) (s : TemplateStatus) : Template :=
  {| t_meta := t_meta t; t_Spec := t_Spec t; t_Status := s |}.

Section Controller.
Context {api : API}.

Definition errNoProviderType : error :=
  Errorf ("template type is not supported: " +:+ ChartAnnotationType
          +:+ " chart annotation must be one of [" +:+ TemplateTypeDeployment +:+ "/"
          +:+ TemplateTypeProvider +:+ "/" +:+ TemplateTypeCore +:+ "]").

Definition providersFrom (declared : list string) (current : list string)
    (annotated : string) : list string :=
  if negb (Nat.eqb (length declared) 0) then declared
  else if negb (String.eqb annotated EmptyString) then splitComma annotated
  else current.

(** [parseChartMetadata]: the template after the call and the error. *)
Definition parseChartMetadata (template : Template) (chart : Chart)
  : Template * option error :=
  match ch_Metadata chart with
  | None => (template, Some (Errorf "chart metadata is empty"))
  | Some metadata =>
      let templateType := ts_Type (t_Spec template) in
      let checked : Result string :=
        if String.eqb templateType EmptyString then
          let templateType := annotation (md_Annotations metadata) ChartAnnotationType in
          if String.eqb templateType TemplateTypeDeployment
             || String.eqb templateType TemplateTypeProvider
             || String.eqb templateType TemplateTypeCore
          then Ok templateType
          else Fail errNoProviderType
        else Ok templateType in
      match checked with
      | Fail err => (template, Some err)
      | Ok templateType =>
          let status := t_Status template in
          let spec := t_Spec template in
          (withStatus template
             {| tst_Valid := tst_Valid status;
                tst_ValidationError := tst_ValidationError status;
                tst_Description := tst_Description status;
                tst_Config := tst_Config status;
                tst_ChartRef := tst_ChartRef status;
                tst_Type := templateType;
                tst_Providers :=
                  {| InfrastructureProviders :=
                       providersFrom (InfrastructureProviders (ts_Providers spec))
                         (InfrastructureProviders (tst_Providers status))
                         (annotation (md_Annotations metadata) ChartAnnotationInfraProviders);
                     BootstrapProviders :=
                       providersFrom (BootstrapProviders (ts_Providers spec))
                         (BootstrapProviders (tst_Providers status))
                         (annotation (md_Annotations metadata)
                            ChartAnnotationBootstrapProviders);
                     ControlPlaneProviders :=
                       providersFrom (ControlPlaneProviders (ts_Providers spec))
                         (ControlPlaneProviders (tst_Providers status))
                         (annotation (md_Annotations metadata)
                            ChartAnnotationControlPlaneProviders) |};
                tst_ObservedGeneration := tst_ObservedGeneration status |},
           None)
      end
  end.

Definition updateStatus (template : Template) (validationError : string)
  : Prog (Template * option error) :=
  let status := t_Status template in
  let template :=
    withStatus template
      {| tst_Valid := String.eqb validationError EmptyString;
         tst_ValidationError := validationError;
         tst_Description := tst_Description status;
         tst_Config := tst_Config status;
         tst_ChartRef := tst_ChartRef status;
         tst_Type := tst_Type status;
         tst_Providers := tst_Providers status;
         tst_ObservedGeneration := Generation (t_meta template) |} in
  updated <- call (StatusUpdateTemplate template) ;;
  match updated with
  | Some err =>
      Ret (template,
           Some (Errorf_w ("failed to update status for template "
                           +:+ Namespace (t_meta template) +:+ "/" +:+ Name (t_meta template)
                           +:+ ": " +:+ Error err) err))
  | None => Ret (template, None)
  end.

(** [reconcileHelmChart]: nil without error when the spec has a chart
    reference, else the chart that [ctrl.CreateOrUpdate] leaves. *)
Definition reconcileHelmChart (template : Template) : Prog (Result (option HelmChart)) :=
  match hs_ChartRef (ts_Helm (t_Spec template)) with
  | Some _ => Ret (Ok None)
  | None =>
      made <- call (CreateOrUpdateHelmChart
                {| hc_meta :=
                     {| Name := Name (t_meta template);
                        Namespace := Namespace (t_meta template);
                        UID := EmptyString; Generation := 0;
                        Labels := {[ HMCManagedLabelKey := HMCManagedLabelValue ]};
                        Finalizers := []; DeletionTimestamp := None |};
                   hc_OwnerReferences :=
                     [ {| or_APIVersion := GroupVersion_String; or_Kind := TemplateKind_;
                          or_Name := Name (t_meta template);
                          or_UID := UID (t_meta template) |} ];
                   hc_Spec :=
                     {| hcs_Chart := hs_ChartName (ts_Helm (t_Spec template));
                        hcs_Version := hs_ChartVersion (ts_Helm (t_Spec template));
                        hcs_SourceRef := {| src_Kind := HelmRepositoryKind;
                                            src_Name := defaultRepoName |};
                        hcs_Interval := DefaultReconcileInterval |};
                   hc_Artifact := None |}) ;;
      match made with
      | Fail err => Ret (Fail err)
      | Ok helmChart => Ret (Ok (Some helmChart))
      end
  end.

Definition getHelmChartFromChartRef (chartRef : CrossNamespaceSourceReference)
  : Prog (Result (option HelmChart)) :=
  if negb (String.eqb (ref_Kind chartRef) HelmChartKind) then
    Ret (Fail (Errorf ("invalid chartRef.Kind: " +:+ ref_Kind chartRef
                       +:+ ". Only HelmChart kind is supported")))
  else
    got <- call (GetHelmChart (ref_Namespace chartRef) (ref_Name chartRef)) ;;
    match got with
    | Fail err => Ret (Fail err)
    | Ok helmChart => Ret (Ok (Some helmChart))
    end.

Definition withChartRef (template : Template) (hcChart : HelmChart) : Template :=
  let status := t_Status template in
  withStatus template
    {| tst_Valid := tst_Valid status;
       tst_ValidationError := tst_ValidationError status;
       tst_Description := tst_Description status;
       tst_Config := tst_Config status;
       tst_ChartRef := Some {| ref_Kind := HelmChartKind; ref_Name := Name (hc_meta hcChart);
                               ref_Namespace := Namespace (hc_meta hcChart) |};
       tst_Type := tst_Type status;
       tst_Providers := tst_Providers status;
       tst_ObservedGeneration := tst_ObservedGeneration status |}.

Definition withDescription (template : Template) (d : string) : Template :=
  let status := t_Status template in
  withStatus template
    {| tst_Valid := tst_Valid status;
       tst_ValidationError := tst_ValidationError status;
       tst_Description := d;
       tst_Config := tst_Config status;
       tst_ChartRef := tst_ChartRef status;
       tst_Type := tst_Type status;
       tst_Providers := tst_Providers status;
       tst_ObservedGeneration := tst_ObservedGeneration status |}.

Definition withConfig (template : Template) (c : JSON) : Template :=
  let status := t_Status template in
  withStatus template
    {| tst_Valid := tst_Valid status;
       tst_ValidationError := tst_ValidationError status;
       tst_Description := tst_Description status;
       tst_Config := Some c;
       tst_ChartRef := tst_ChartRef status;
       tst_Type := tst_Type status;
       tst_Providers := tst_Providers status;
       tst_ObservedGeneration := tst_ObservedGeneration status |}.

(** The part of [Reconcile] from the artifact check on. *)
Definition validate (template : Template) (hcChart : HelmChart)
  : Prog (ctrl_Result * option error) :=
  let template := withChartRef template hcChart in
  ready <- call (ArtifactReady hcChart) ;;
  let '(reportStatus, err) := ready in
  match err with
  | Some err =>
      if reportStatus then
        _ <- updateStatus template (Error err) ;; Ret (noRequeue, Some err)
      else Ret (noRequeue, Some err)
  | None =>
      downloaded <- call (DownloadChartFromArtifact (hc_Artifact hcChart)) ;;
      match downloaded with
      | Fail err =>
          let err := Errorf ("failed to download chart: " +:+ Error err) in
          _ <- updateStatus template (Error err) ;; Ret (noRequeue, Some err)
      | Ok helmChart =>
          let '(template, parsed) := parseChartMetadata template helmChart in
          match parsed with
          | Some err =>
              _ <- updateStatus template (Error err) ;; Ret (noRequeue, Some err)
          | None =>
              valid <- call (ChartValidate helmChart) ;;
              match valid with
              | Some err =>
                  _ <- updateStatus template (Error err) ;; Ret (noRequeue, Some err)
              | None =>
                  match ch_Metadata helmChart with
                  | None => Panic
                  | Some metadata =>
                      let template := withDescription template (md_Description metadata) in
                      rawValues <- call (JSONMarshal (ch_Values helmChart)) ;;
                      match rawValues with
                      | Fail err =>
                          let err :=
                            Errorf ("failed to parse Helm chart values: " +:+ Error err) in
                          _ <- updateStatus template (Error err) ;; Ret (noRequeue, Some err)
                      | Ok rawValues =>
                          let template := withConfig template {| Raw := rawValues |} in
                          status <- updateStatus template EmptyString ;;
                          Ret (noRequeue, status.2)
                      end
                  end
              end
          end
      end
  end.

(** The part of [Reconcile] that finds the HelmChart of the template. *)
Definition helmChartOf (template : Template) : Prog (Result (option HelmChart)) :=
  match hs_ChartRef (ts_Helm (t_Spec template)) with
  | Some chartRef => getHelmChartFromChartRef chartRef
  | None =>
      if String.eqb (hs_ChartName (ts_Helm (t_Spec template))) EmptyString
      then Ret (Fail (Errorf "neither chartName nor chartRef is set"))
      else reconcileHelmChart template
  end.

Definition Reconcile (namespace name : string) : Prog (ctrl_Result * option error) :=
  got <- call (GetTemplate namespace name) ;;
  match got with
  | Fail err =>
      if IsNotFound err then Ret (noRequeue, None) else Ret (noRequeue, Some err)
  | Ok template =>
      hcChart <- helmChartOf template ;;
      match hcChart with
      | Fail err => Ret (noRequeue, Some err)
      | Ok None => Ret (noRequeue, Some (Errorf "HelmChart is nil"))
      | Ok (Some hcChart) => validate template hcChart
      end
  end.
End Controller.

End TemplateController1.

(** ** internal/controller/template_controller.go (three template kinds) *)

Module TemplateController.

Definition defaultRepoName : string := "hmc-templates".

Record TemplateReconciler := { SystemNamespace : string }.

Definition withStatus (t : KindTemplate) (s : TemplateStatusCommon) : KindTemplate :=
  {| kt_Kind := kt_Kind t; kt_meta := kt_meta t; kt_Spec := kt_Spec t; kt_Status := s |}.

Definition kindName (k : TemplateKind) : string :=
  match k with
  | ClusterTemplateKind => "ClusterTemplate"
  | ServiceTemplateKind => "ServiceTemplate"
  | ProviderTemplateKind => "ProviderTemplate"
  end.

Section Controller.
Context {api : API}.
Variable r : TemplateReconciler.

Definition templateManagedByHMC (template : KindTemplate) : bool :=
  String.eqb (annotation (Labels (kt_meta template)) HMCManagedLabelKey) HMCManagedLabelValue.

Definition providersFrom (declared : list string) (current : list string)
    (annotated : string) : list string :=
  if negb (Nat.eqb (length declared) 0) then declared
  else if negb (String.eqb annotated EmptyString) then splitComma annotated
  else current.

(** [parseChartMetadata]: there is no template type in this revision. *)
Definition parseChartMetadata (template : KindTemplate) (inChart : Chart)
  : KindTemplate * option error :=
  match ch_Metadata inChart with
  | None => (template, Some (Errorf "chart metadata is empty"))
  | Some metadata =>
      let spec := kt_Spec template in
      let status := kt_Status template in
      (withStatus template
         {| tstc_Valid := tstc_Valid status;
            tstc_ValidationError := tstc_ValidationError status;
            tstc_Description := tstc_Description status;
            tstc_Config := tstc_Config status;
            tstc_ChartRef := tstc_ChartRef status;
            tstc_Providers :=
              {| InfrastructureProviders :=
                   providersFrom (InfrastructureProviders (tsc_Providers spec))
                     (InfrastructureProviders (tstc_Providers status))
                     (annotation (md_Annotations metadata) ChartAnnotationInfraProviders);
                 BootstrapProviders :=
                   providersFrom (BootstrapProviders (tsc_Providers spec))
                     (BootstrapProviders (tstc_Providers status))
                     (annotation (md_Annotations metadata) ChartAnnotationBootstrapProviders);
                 ControlPlaneProviders :=
                   providersFrom (ControlPlaneProviders (tsc_Providers spec))
                     (ControlPlaneProviders (tstc_Providers status))
                     (annotation (md_Annotations metadata)
                        ChartAnnotationControlPlaneProviders) |};
            tstc_ObservedGeneration := tstc_ObservedGeneration status |},
       None)
  end.

Definition updateStatus (template : KindTemplate) (validationError : string)
  : Prog (KindTemplate * option error) :=
  let status := kt_Status template in
  let template :=
    withStatus template
      {| tstc_Valid := String.eqb validationError EmptyString;
         tstc_ValidationError := validationError;
         tstc_Description := tstc_Description status;
         tstc_Config := tstc_Config status;
         tstc_ChartRef := tstc_ChartRef status;
         tstc_Providers := tstc_Providers status;
         tstc_ObservedGeneration := Generation (kt_meta template) |} in
  updated <- call (StatusUpdateKindTemplate template) ;;
  match updated with
  | Some err =>
      Ret (template,
           Some (Errorf_w ("failed to update status for template "
                           +:+ Namespace (kt_meta template) +:+ "/"
                           +:+ Name (kt_meta template) +:+ ": " +:+ Error err) err))
  | None => Ret (template, None)
  end.

Definition reconcileHelmChart (template : KindTemplate) : Prog (Result HelmChart) :=
  let namespace :=
    if String.eqb (Namespace (kt_meta template)) EmptyString then SystemNamespace r
    else Namespace (kt_meta template) in
  call (CreateOrUpdateHelmChart
          {| hc_meta :=
               {| Name := Name (kt_meta template); Namespace := namespace;
                  UID := EmptyString; Generation := 0;
                  Labels := {[ HMCManagedLabelKey := HMCManagedLabelValue ]};
                  Finalizers := []; DeletionTimestamp := None |};
             hc_OwnerReferences :=
               [ {| or_APIVersion := GroupVersion_String;
                    or_Kind := kindName (kt_Kind template);
                    or_Name := Name (kt_meta template);
                    or_UID := UID (kt_meta template) |} ];
             hc_Spec :=
               {| hcs_Chart := hs_ChartName (tsc_Helm (kt_Spec template));
                  hcs_Version := hs_ChartVersion (tsc_Helm (kt_Spec template));
                  hcs_SourceRef := {| src_Kind := HelmRepositoryKind;
                                      src_Name := defaultRepoName |};
                  hcs_Interval := DefaultReconcileInterval |};
             hc_Artifact := None |}).

Definition getHelmChartFromChartRef (chartRef : CrossNamespaceSourceReference)
  : Prog (Result HelmChart) :=
  if negb (String.eqb (ref_Kind chartRef) HelmChartKind) then
    Ret (Fail (Errorf ("invalid chartRef.Kind: " +:+ ref_Kind chartRef
                       +:+ ". Only HelmChart kind is supported")))
  else call (GetHelmChart (ref_Namespace chartRef) (ref_Name chartRef)).

Definition withChartRef (template : KindTemplate) (hcChart : HelmChart) : KindTemplate :=
  let status := kt_Status template in
  withStatus template
    {| tstc_Valid := tstc_Valid status;
       tstc_ValidationError := tstc_ValidationError status;
       tstc_Description := tstc_Description status;
       tstc_Config := tstc_Config status;
       tstc_ChartRef := Some {| ref_Kind := HelmChartKind; ref_Name := Name (hc_meta hcChart);
                                ref_Namespace := Namespace (hc_meta hcChart) |};
       tstc_Providers := tstc_Providers status;
       tstc_ObservedGeneration := tstc_ObservedGeneration status |}.

Definition withDescription (template : KindTemplate) (d : string) : KindTemplate :=
  let status := kt_Status template in
  withStatus template
    {| tstc_Valid := tstc_Valid status;
       tstc_ValidationError := tstc_ValidationError status;
       tstc_Description := d;
       tstc_Config := tstc_Config status;
       tstc_ChartRef := tstc_ChartRef status;
       tstc_Providers := tstc_Providers status;
       tstc_ObservedGeneration := tstc_ObservedGeneration status |}.

Definition withConfig (template : KindTemplate) (c : JSON) : KindTemplate :=
  let status := kt_Status template in
  withStatus template
    {| tstc_Valid := tstc_Valid status;
       tstc_ValidationError := tstc_ValidationError status;
       tstc_Description := tstc_Description status;
       tstc_Config := Some c;
       tstc_ChartRef := tstc_ChartRef status;
       tstc_Providers := tstc_Providers status;
       tstc_ObservedGeneration := tstc_ObservedGeneration status |}.

(** [ReconcileTemplate].  Both ways of finding the chart hand back a chart
    or an error, so the test [hcChart == nil] never fires and is left out. *)
Definition ReconcileTemplate (template : KindTemplate) : Prog (ctrl_Result * option error) :=
  let spec := kt_Spec template in
  hcChart <- match hs_ChartRef (tsc_Helm spec) with
             | Some chartRef => getHelmChartFromChartRef chartRef
             | None =>
                 if String.eqb (hs_ChartName (tsc_Helm spec)) EmptyString
                 then Ret (Fail (Errorf "neither chartName nor chartRef is set"))
                 else
                   repository <-
                     (if String.eqb (Namespace (kt_meta template)) (SystemNamespace r)
                         || negb (templateManagedByHMC template)
                      then
                        let namespace :=
                          if String.eqb (Namespace (kt_meta template)) EmptyString
                          then SystemNamespace r else Namespace (kt_meta template) in
                        call (ReconcileHelmRepository defaultRepoName namespace)
                      else Ret None) ;;
                   match repository with
                   | Some err => Ret (Fail err)
                   | None => reconcileHelmChart template
                   end
             end ;;
  match hcChart with
  | Fail err => Ret (noRequeue, Some err)
  | Ok hcChart =>
      let template := withChartRef template hcChart in
      ready <- call (ArtifactReady hcChart) ;;
      let '(reportStatus, err) := ready in
      match err with
      | Some err =>
          if reportStatus then
            _ <- updateStatus template (Error err) ;; Ret (noRequeue, Some err)
          else Ret (noRequeue, Some err)
      | None =>
          downloaded <- call (DownloadChartFromArtifact (hc_Artifact hcChart)) ;;
          match downloaded with
          | Fail err =>
              let err := Errorf ("failed to download chart: " +:+ Error err) in
              _ <- updateStatus template (Error err) ;; Ret (noRequeue, Some err)
          | Ok helmChart =>
              let '(template, parsed) := parseChartMetadata template helmChart in
              match parsed with
              | Some err =>
                  _ <- updateStatus template (Error err) ;; Ret (noRequeue, Some err)
              | None =>
                  valid <- call (ChartValidate helmChart) ;;
                  match valid with
                  | Some err =>
                      _ <- updateStatus template (Error err) ;; Ret (noRequeue, Some err)
                  | None =>
                      match ch_Metadata helmChart with
                      | None => Panic
                      | Some metadata =>
                          let template := withDescription template (md_Description metadata) in
                          rawValues <- call (JSONMarshal (ch_Values helmChart)) ;;
                          match rawValues with
                          | Fail err =>
                              let err :=
                                Errorf ("failed to parse Helm chart values: " +:+ Error err) in
                              _ <- updateStatus template (Error err) ;;
                              Ret (noRequeue, Some err)
                          | Ok rawValues =>
                              let template := withConfig template {| Raw := rawValues |} in
                              status <- updateStatus template EmptyString ;;
                              Ret (noRequeue, status.2)
                          end
                      end
                  end
              end
          end
      end
  end.
End Controller.

End TemplateController.

(** ** test/e2e/clusterdeployment/providervalidator.go

    The validator of the end-to-end tests.  The [Template] constants of the
    package and the validation functions are declared in files that are not
    among the sources: the constants are parameters, pairwise distinct as
    the cases of one Go [switch] are, and a validation function is a name
    that the environment [run] answers for.  What [Validate] prints is left
    out. *)

Module ProviderValidator.

Class Templates := {
  TemplateAWSStandaloneCP : string;
  TemplateAWSHostedCP : string;
  TemplateAWSEKS : string;
  TemplateAzureStandaloneCP : string;
  TemplateAzureHostedCP : string;
  TemplateVSphereStandaloneCP : string;
  TemplateAdoptedCluster : string;
  templates_distinct :
    NoDup [TemplateAWSStandaloneCP; TemplateAWSHostedCP; TemplateAWSEKS;
           TemplateAzureStandaloneCP; TemplateAzureHostedCP;
           TemplateVSphereStandaloneCP; TemplateAdoptedCluster]
}.

Definition ValidationActionDeploy : string := "deploy".
Definition ValidationActionDelete : string := "delete".

Inductive resourceValidationFunc : Type :=
| validateCluster
| validateMachines
| validateK0sControlPlanes
| validateCSIDriver
| validateCCM
| validateAWSManagedControlPlanes
| validateSveltosCluster
| validateClusterDeleted
| validateMachineDeploymentsDeleted
| validateAWSManagedControlPlanesDeleted
| validateK0sControlPlanesDeleted.

Record ProviderValidator := {
  template : string;
  clusterName : string;
  resourcesToValidate : gmap string resourceValidationFunc;
  resourceOrder : list string;
}.

Section Validator.
Context {templates : Templates}.

Definition NewProviderValidator (template clusterName action : string) : ProviderValidator :=
  let '(resourcesToValidate, resourceOrder) :=
    if String.eqb action ValidationActionDeploy then
      let resourcesToValidate : gmap string resourceValidationFunc :=
        <["clusters" := validateCluster]>
          (<["machines" := validateMachines]>
             (<["control-planes" := validateK0sControlPlanes]>
                (<["csi-driver" := validateCSIDriver]> ∅))) in
      let resourceOrder := ["clusters"; "machines"; "control-planes"; "csi-driver"] in
      if String.eqb template TemplateAWSStandaloneCP
         || String.eqb template TemplateAWSHostedCP then
        (<["ccm" := validateCCM]> resourcesToValidate, resourceOrder ++ ["ccm"])
      else if String.eqb template TemplateAWSEKS then
        (<["clusters" := validateCluster]>
           (<["machines" := validateMachines]>
              (<["aws-managed-control-planes" := validateAWSManagedControlPlanes]>
                 (<["csi-driver" := validateCSIDriver]>
                    (<["ccm" := validateCCM]> ∅)))),
         ["clusters"; "machines"; "aws-managed-control-planes"; "csi-driver"; "ccm"])
      else if String.eqb template TemplateAzureStandaloneCP
              || String.eqb template TemplateAzureHostedCP
              || String.eqb template TemplateVSphereStandaloneCP then
        (delete "csi-driver" resourcesToValidate, resourceOrder)
      else if String.eqb template TemplateAdoptedCluster then
        (<["sveltoscluster" := validateSveltosCluster]> ∅, resourceOrder)
      else (resourcesToValidate, resourceOrder)
    else
      let resourcesToValidate : gmap string resourceValidationFunc :=
        <["clusters" := validateClusterDeleted]>
          (<["machinedeployments" := validateMachineDeploymentsDeleted]> ∅) in
      let resourceOrder := ["clusters"; "machinedeployments"] in
      if String.eqb template TemplateAWSEKS then
        (<["aws-managed-control-planes" := validateAWSManagedControlPlanesDeleted]>
           resourcesToValidate,
         resourceOrder ++ ["aws-managed-control-planes"])
      else
        (<["control-planes" := validateK0sControlPlanesDeleted]> resourcesToValidate,
         resourceOrder ++ ["control-planes"]) in
  {| template := template; clusterName := clusterName;
     resourcesToValidate := resourcesToValidate; resourceOrder := resourceOrder |}.
End Validator.

Section Validate.
Context {W : Type}.

(** What a validation function does in a state of the cluster under test:
    its error, and the state after it. *)
Variable run : resourceValidationFunc -> string -> W -> option error * W.

(** What one call of [Validate] leaves: the map of the validator, the error
    it returns, the names of the resources whose validation function was
    called, in order, and the state. *)
Record Validated := {
  remaining : gmap string resourceValidationFunc;
  returned : option error;
  called : list string;
  world : W;
}.

(** The loop of [Validate] over [resourceOrder]. *)
Fixpoint validateEach (clusterName : string) (order : list string)
    (resources : gmap string resourceValidationFunc) (w : W) : Validated :=
  match order with
  | [] => {| remaining := resources; returned := None; called := []; world := w |}
  | name :: rest =>
      match resources !! name with
      | None => validateEach clusterName rest resources w
      | Some validator =>
          match run validator clusterName w with
          | (Some err, w') =>
              {| remaining := resources; returned := Some err; called := [name];
                 world := w' |}
          | (None, w') =>
              let after := validateEach clusterName rest (delete name resources) w' in
              {| remaining := remaining after; returned := returned after;
                 called := name :: called after; world := world after |}
          end
      end
  end.

Definition Validate (p : ProviderValidator) (w : W) : Validated :=
  validateEach (clusterName p) (resourceOrder p) (resourcesToValidate p) w.

(** The validator as [Validate] leaves it for the next call. *)
Definition validatorAfter (p : ProviderValidator) (v : Validated) : ProviderValidator :=
  {| template := template p; clusterName := clusterName p;
     resourcesToValidate := remaining v; resourceOrder := resourceOrder p |}.
End Validate.

End ProviderValidator.

(** ** Concrete settings for the examples *)

(** An instance of the api parameters.  [InitConditions] starts the
    template and chart conditions as Unknown, and the release condition
    too unless the cluster is a dry run. *)
#[export] Instance exampleAPI : API := {|
  ManagedClusterFinalizer := "hmc.mirantis.com/managed-cluster";
  BlockingFinalizer := "hmc.mirantis.com/cleanup";
  ManagedClusterKind := "ManagedCluster";
  TemplateKind_ := "Template";
  GroupVersion_String := "hmc.mirantis.com/v1alpha1";
  HMCManagedLabelKey := "hmc.mirantis.com/managed";
  HMCManagedLabelValue := "true";
  FluxHelmChartNameKey := "helm.toolkit.fluxcd.io/name";
  FluxHelmChartNamespaceKey := "helm.toolkit.fluxcd.io/namespace";
  ClusterNameLabelKey := "cluster.x-k8s.io/cluster-name";
  ProviderSveltosName := "projectsveltos";
  ProviderSveltosTargetNamespace := "projectsveltos";
  ProviderSveltosCreateNamespace := true;
  TemplateReadyCondition := "TemplateReady";
  HelmChartReadyCondition := "HelmChartReady";
  HelmReleaseReadyCondition := "HelmReleaseReady";
  ReadyCondition := "Ready";
  FailedReason := "Failed";
  SucceededReason := "Succeeded";
  ProgressingReason := "Progressing";
  ChartAnnotationType := "hmc.mirantis.com/type";
  ChartAnnotationInfraProviders := "hmc.mirantis.com/infrastructure-providers";
  ChartAnnotationBootstrapProviders := "hmc.mirantis.com/bootstrap-providers";
  ChartAnnotationControlPlaneProviders := "hmc.mirantis.com/control-plane-providers";
  TemplateTypeDeployment := "deployment";
  TemplateTypeProvider := "provider";
  TemplateTypeCore := "core";
  DefaultReconcileInterval := 600 * Second;
  InitConditions := fun mc =>
    [ {| cType := "TemplateReady"; cStatus := ConditionUnknown; cReason := "Progressing";
         cMessage := "Template is not yet ready" |};
      {| cType := "HelmChartReady"; cStatus := ConditionUnknown; cReason := "Progressing";
         cMessage := "HelmChart is not yet ready" |} ]
    ++ (if mcs_DryRun (mc_Spec mc) then []
        else [ {| cType := "HelmReleaseReady"; cStatus := ConditionUnknown;
                  cReason := "Progressing"; cMessage := "HelmRelease is not yet ready" |} ]);
  condition_types_distinct := ltac:(by apply (bool_decide_unpack _))
|}.

Definition exampleMeta (namespace name : string) (finalizers : list string) : ObjectMeta :=
  {| Name := name; Namespace := namespace; UID := "uid-" +:+ name; Generation := 1;
     Labels := ∅; Finalizers := finalizers; DeletionTimestamp := None |}.

Definition exampleChartRef (namespace name : string) : CrossNamespaceSourceReference :=
  {| ref_Kind := HelmChartKind; ref_Name := name; ref_Namespace := namespace |}.

Definition exampleHelmSpec (name : string) : HelmSpec :=
  {| hs_ChartName := name; hs_ChartVersion := "0.0.1"; hs_ChartRef := None |}.

Definition exampleTemplate (namespace name : string) (valid : bool) (validationError : string)
  : Template :=
  {| t_meta := exampleMeta namespace name [];
     t_Spec := {| ts_Type := EmptyString; ts_Helm := exampleHelmSpec name;
                  ts_Providers := emptyProviders |};
     t_Status := {| tst_Valid := valid; tst_ValidationError := validationError;
                    tst_Description := EmptyString; tst_Config := None;
                    tst_ChartRef := Some (exampleChartRef namespace name);
                    tst_Type := "provider"; tst_Providers := emptyProviders;
                    tst_ObservedGeneration := 1 |} |}.

Definition exampleKindTemplate (kind : TemplateKind) (namespace name : string)
    (valid : bool) (infra : list string) : KindTemplate :=
  {| kt_Kind := kind; kt_meta := exampleMeta namespace name [];
     kt_Spec := {| tsc_Helm := exampleHelmSpec name; tsc_Providers := emptyProviders |};
     kt_Status := {| tstc_Valid := valid; tstc_ValidationError := EmptyString;
                     tstc_Description := EmptyString; tstc_Config := None;
                     tstc_ChartRef := Some (exampleChartRef namespace name);
                     tstc_Providers :=
                       {| InfrastructureProviders := infra; BootstrapProviders := [];
                          ControlPlaneProviders := [] |};
                     tstc_ObservedGeneration := 1 |} |}.

Definition exampleHelmChart (namespace name : string) : HelmChart :=
  {| hc_meta := exampleMeta namespace name [];
     hc_OwnerReferences := [];
     hc_Spec := {| hcs_Chart := name; hcs_Version := "0.0.1";
                   hcs_SourceRef := {| src_Kind := HelmRepositoryKind;
                                       src_Name := "hmc-templates" |};
                   hcs_Interval := 600 * Second |};
     hc_Artifact := Some {| art_URL := "http://source-controller/" +:+ name +:+ ".tgz" |} |}.

Definition exampleChart (chartType : string) : Chart :=
  {| ch_Metadata := Some {| md_Description := "an example chart";
                            md_Annotations := {[ "hmc.mirantis.com/type" := chartType ]} |};
     ch_Values := ∅ |}.

Definition readyCondition : Condition :=
  {| cType := "Ready"; cStatus := ConditionTrue; cReason := "Succeeded";
     cMessage := "ready" |}.

Definition exampleHelmRelease (namespace name : string) : HelmRelease :=
  {| hr_meta := exampleMeta namespace name []; hr_Suspend := false;
     hr_Conditions := [readyCondition] |}.

(** Every operation succeeds: every object that is asked for exists, valid
    and ready, and no infrastructure or machine object is listed. *)
Definition nominal (o : Op) : resp o :=
  match o return resp o with
  | GetTemplate namespace name => Ok (exampleTemplate namespace name true EmptyString)
  | GetClusterTemplate namespace name =>
      Ok (exampleKindTemplate ClusterTemplateKind namespace name true ["aws"])
  | GetServiceTemplate namespace name =>
      Ok (exampleKindTemplate ServiceTemplateKind namespace name true [])
  | GetHelmChart namespace name => Ok (exampleHelmChart namespace name)
  | GetHelmRepository namespace name =>
      Ok {| hrepo_meta := exampleMeta namespace name [];
            hrepo_URL := "oci://registry.example/charts" |}
  | GetHelmRelease namespace name => Ok (exampleHelmRelease namespace name)
  | UpdateManagement _ => None
  | UpdateManagedCluster _ => None
  | UpdateHelmRelease _ => None
  | StatusUpdateManagement _ => None
  | StatusUpdateManagedCluster _ => None
  | StatusUpdateTemplate _ => None
  | StatusUpdateKindTemplate _ => None
  | ListMetadata _ _ _ _ => Ok []
  | PatchMetadata _ _ => None
  | CreateOrUpdateHelmChart desired =>
      Ok (exampleHelmChart (Namespace (hc_meta desired)) (Name (hc_meta desired)))
  | DynamicListClusters _ _ =>
      Ok [ {| uc_statusConditions := NestedFound [UCond readyCondition] |} ]
  | ReconcileHelmRelease2 name namespace _ => Ok (exampleHelmRelease namespace name)
  | ReconcileHelmRelease name namespace _ => Ok (exampleHelmRelease namespace name)
  | DeleteHelmRelease _ _ => None
  | ReconcileHelmRepository _ _ => None
  | ArtifactReady _ => (false, None)
  | DownloadChartFromArtifact _ => Ok (exampleChart "deployment")
  | ActionConfigInit _ => None
  | InstallRun _ _ _ _ => None
  | ChartValidate _ => None
  | ReconcileClusterProfile namespace name _ _ => Ok name
  | ReconcileClusterProfile1 name namespace _ => Ok name
  | DeleteClusterProfile _ _ => None
  | EnsureDeleteAllOf _ _ => None
  | VerifyAPI _ => None
  | JSONUnmarshal _ => Ok ∅
  | JSONMarshal _ => Ok "{}"
  | HelmValues _ => Ok ∅
  end.

(** An environment without state that answers from a fixed table. *)
Definition answering (table : forall o : Op, resp o) : @Env unit :=
  fun o w => (table o, w).

Definition notFound (what : string) : error := ErrStatus true (what +:+ " not found").

(** *** Management *)

Definition systemNamespace : string := "hmc-system".

Definition managementReconciler : ManagementController.ManagementReconciler :=
  {| ManagementController.SystemNamespace := systemNamespace |}.

Definition emptyManagementStatus : ManagementStatus :=
  {| mst_ObservedGeneration := 0; mst_AvailableProviders := emptyProviders;
     mst_Components := ∅ |}.

(** A Management as a user creates it: no finalizer, no core, no providers. *)
Definition freshManagement : Management :=
  {| m_meta := exampleMeta EmptyString ManagementName [];
     m_Spec := {| ms_Core := None; ms_Providers := [] |};
     m_Status := emptyManagementStatus |}.

(** The same object one pass later: the finalizer is there, the core is not. *)
Definition finalizedManagement : Management :=
  {| m_meta := exampleMeta EmptyString ManagementName [ManagementFinalizer];
     m_Spec := {| ms_Core := None; ms_Providers := [] |};
     m_Status := emptyManagementStatus |}.

(** A Management with the default core and the provider p1. *)
Definition managementWithP1 : Management :=
  {| m_meta := exampleMeta EmptyString ManagementName [ManagementFinalizer];
     m_Spec := {| ms_Core := Some DefaultCoreConfiguration;
                  ms_Providers := [ {| comp_Template := "p1"; comp_Config := None |} ] |};
     m_Status := emptyManagementStatus |}.


(** *** ManagedCluster *)

Definition clusterReconciler : ManagedClusterController.ManagedClusterReconciler :=
  {| ManagedClusterController.SystemNamespace := systemNamespace |}.

Definition exampleCluster (finalizers : list string) (dryRun : bool)
    (services : list ManagedClusterServiceSpec) : ManagedCluster :=
  {| mc_meta := exampleMeta "default" "dev" finalizers;
     mc_Spec := {| mcs_Template := "aws-standalone"; mcs_Config := None;
                   mcs_DryRun := dryRun; mcs_Services := services |};
     mc_Status := {| mcst_ObservedGeneration := 0; mcst_Conditions := [] |} |}.

Definition exampleService (template : string) : ManagedClusterServiceSpec :=
  {| svc_Template := template; svc_Install := true; svc_ReleaseName := template;
     svc_ReleaseNamespace := EmptyString; svc_Config := None; svc_Values := None;
     svc_CreateNamespace := true;
     svc_RegistryConfig := {| PlainHTTP := false; Insecure := false |} |}.

(** The cluster template is there but not valid. *)
Definition clusterTemplateInvalid (o : Op) : resp o :=
  match o return resp o with
  | GetClusterTemplate namespace name =>
      Ok (exampleKindTemplate ClusterTemplateKind namespace name false ["aws"])
  | o => nominal o
  end.

(** The service template called missing does not exist. *)
Definition serviceTemplateMissing (o : Op) : resp o :=
  match o return resp o with
  | GetServiceTemplate namespace name =>
      if String.eqb name "missing" then Fail (notFound "servicetemplate")
      else nominal (GetServiceTemplate namespace name)
  | o => nominal o
  end.

(** The template names the providers aws and azure; an AWSCluster and an
    AzureCluster carry the release label and the blocking finalizer, and no
    machine is left. *)
Definition infraCluster (gvk : GroupVersionKind) : PartialObjectMetadata :=
  {| pom_gvk := gvk; pom_meta := exampleMeta "default" "dev" ["hmc.mirantis.com/cleanup"] |}.

Definition twoProvidersNoMachines (o : Op) : resp o :=
  match o return resp o with
  | GetClusterTemplate namespace name =>
      Ok (exampleKindTemplate ClusterTemplateKind namespace name true ["aws"; "azure"])
  | ListMetadata gvk namespace selector limit =>
      if String.eqb (Kind gvk) "machine" then Ok [] else Ok [infraCluster gvk]
  | o => nominal o
  end.

(** The template names a provider outside the table. *)
Definition otherProvider (o : Op) : resp o :=
  match o return resp o with
  | GetClusterTemplate namespace name =>
      Ok (exampleKindTemplate ClusterTemplateKind namespace name true ["vsphere"])
  | o => nominal o
  end.

(** *** Templates *)

(** The chart carries a type annotation outside the three kinds. *)
Definition chartOfUnknownType (o : Op) : resp o :=
  match o return resp o with
  | DownloadChartFromArtifact _ => Ok (exampleChart "addon")
  | o => nominal o
  end.

Definition templateReconciler : TemplateController.TemplateReconciler :=
  {| TemplateController.SystemNamespace := systemNamespace |}.

(** ** Notions used in the statements *)









Definition p1Component : ManagementController.component :=
  {| ManagementController.Component_ := {| comp_Template := "p1"; comp_Config := None |};
     ManagementController.dependsOn :=
       [ {| nor_Name := DefaultCoreCAPITemplate; nor_Namespace := EmptyString |} ];
     ManagementController.targetNamespace := EmptyString;
     ManagementController.createNamespace := false |}.

(** The aggregate condition as the specification words it: among the
    conditions other than Ready, the messages of those with a given status,
    each followed by a full stop and a space, and whether there is one. *)
Definition counts {api : API} (status : string) (c : Condition) : bool :=
  negb (String.eqb (cType c) ReadyCondition) && String.eqb (cStatus c) status.

Fixpoint messagesWith {api : API} (status : string) (conditions : list Condition) : string :=
  match conditions with
  | [] => EmptyString
  | c :: rest =>
      if counts status c then cMessage c +:+ ". " +:+ messagesWith status rest
      else messagesWith status rest
  end.

Definition anyWith {api : API} (status : string) (conditions : list Condition) : bool :=
  existsb (counts status) conditions.

(** The names of the provider table of [releaseCluster]. *)
Definition inProviderTable (provider : string) : bool :=
  String.eqb provider "aws" || String.eqb provider "azure".

(** A cluster on the providers aws and azure that is being deleted: the
    AWSCluster is there and a machine is left; no AzureCluster exists. *)
Definition awsBusyAzureAbsent (o : Op) : resp o :=
  match o return resp o with
  | GetClusterTemplate namespace name =>
      Ok (exampleKindTemplate ClusterTemplateKind namespace name true ["aws"; "azure"])
  | ListMetadata gvk namespace selector limit =>
      if String.eqb (Kind gvk) "machine"
      then Ok [ {| pom_gvk := gvk; pom_meta := exampleMeta "default" "dev-md-0" [] |} ]
      else if String.eqb (Kind gvk) "awscluster" then Ok [infraCluster gvk]
      else Ok []
  | o => nominal o
  end.

(** One AWSCluster with the blocking finalizer, and no machine. *)
Definition awsIdle (o : Op) : resp o :=
  match o return resp o with
  | ListMetadata gvk namespace selector limit =>
      if String.eqb (Kind gvk) "machine" then Ok [] else Ok [infraCluster gvk]
  | o => nominal o
  end.

Definition deletedCluster : ManagedCluster :=
  exampleCluster ["hmc.mirantis.com/managed-cluster"] false [].

(** Every operation of a pass succeeds, but for the final write of the
    status of the ManagedCluster, which may fail. *)
Definition isStatusUpdateManagedCluster (o : Op) : bool :=
  match o with
  | StatusUpdateManagedCluster _ => true
  | _ => false
  end.

Definition onlyStatusUpdateMayFail (events : list Event) : bool :=
  forallb (fun ev => negb ev.2 || isStatusUpdateManagedCluster ev.1) events.

(** The conditions a pass of [Update] starts from: those of the object, or
    those of [InitConditions] when it has none. *)
Definition startingConditions {api : API} (mc : ManagedCluster) : list Condition :=
  if Nat.eqb (length (mcst_Conditions (mc_Status mc))) 0
  then InitConditions mc
  else mcst_Conditions (mc_Status mc).

(** A dry-run cluster that carries its finalizer already, and a cluster
    that does not. *)
Definition dryRunCluster : ManagedCluster :=
  exampleCluster ["hmc.mirantis.com/managed-cluster"] true [].

Definition freshDryRunCluster : ManagedCluster := exampleCluster [] true [].

Definition freshCluster : ManagedCluster := exampleCluster [] false [].

Definition finalizedCluster : ManagedCluster :=
  exampleCluster ["hmc.mirantis.com/managed-cluster"] false [].

(** The conditions [Update] sets at the template and chart steps. *)
Definition notValid {api : API} : Condition :=
  {| cType := TemplateReadyCondition; cStatus := ConditionFalse; cReason := FailedReason;
     cMessage := "provided template is not marked as valid" |}.

Definition templateValid {api : API} : Condition :=
  {| cType := TemplateReadyCondition; cStatus := ConditionTrue; cReason := SucceededReason;
     cMessage := "Template is valid" |}.

Definition chartValid {api : API} : Condition :=
  {| cType := HelmChartReadyCondition; cStatus := ConditionTrue; cReason := SucceededReason;
     cMessage := "Helm chart is valid" |}.

(** What a pass over a dry-run cluster does, for either revision of
    [Update]: see the theorem that uses it. *)
Definition dryRunPass {api : API} {W : Type} (env : @Env W) (systemNamespace : string)
    (update : ManagedCluster -> Prog (ManagedCluster * ctrl_Result * option error)) : Prop :=
  forall (mc : ManagedCluster) (template : ClusterTemplate)
         (ref : CrossNamespaceSourceReference) (w : W),
    ContainsFinalizer (mc_meta mc) ManagedClusterFinalizer = true ->
    mcs_DryRun (mc_Spec mc) = true ->
    (env (GetClusterTemplate systemNamespace (mcs_Template (mc_Spec mc))) w).1 = Ok template ->
    tstc_Valid (kt_Status template) = true ->
    tstc_ChartRef (kt_Status template) = Some ref ->
    onlyStatusUpdateMayFail (trace env (update mc) w) = true ->
    exists mc' e source chart vals ready1 ready2,
      outcome env (update mc) w = Done (mc', noRequeue, e)
      /\ ops env (update mc) w =
           [GetClusterTemplate systemNamespace (mcs_Template (mc_Spec mc));
            GetHelmChart (ref_Namespace ref) (ref_Name ref);
            DownloadChartFromArtifact (hc_Artifact source);
            ActionConfigInit (Namespace (mc_meta mc));
            HelmValues (mcs_Config (mc_Spec mc));
            InstallRun (Name (mc_meta mc)) (Namespace (mc_meta mc)) chart vals;
            StatusUpdateManagedCluster mc']
      /\ FindStatusCondition (mcst_Conditions (mc_Status mc')) TemplateReadyCondition
           = Some ready1
      /\ cStatus ready1 = ConditionTrue
      /\ FindStatusCondition (mcst_Conditions (mc_Status mc')) HelmChartReadyCondition
           = Some ready2
      /\ cStatus ready2 = ConditionTrue
      /\ FindStatusCondition (mcst_Conditions (mc_Status mc')) HelmReleaseReadyCondition
           = FindStatusCondition (startingConditions mc) HelmReleaseReadyCondition.

(** A service cannot be resolved, whatever the state of the environment:
    its ServiceTemplate cannot be fetched, or the lookup of the repository
    URL through its chart and repository returns an error. *)
Definition serviceUnresolvable {W : Type} (env : @Env W) (namespace : string)
    (svc : ManagedClusterServiceSpec) : Prop :=
  forall w : W,
    match env (GetServiceTemplate namespace (svc_Template svc)) w with
    | (Fail _, _) => True
    | (Ok tmpl, w1) =>
        exists err,
          outcome env (ManagedClusterController.getServiceTemplateRepoURL tmpl) w1
            = Done (Fail err)
    end.

(** A service can be resolved, whatever the state of the environment: its
    ServiceTemplate is fetched and the lookup of the repository URL through
    its chart and repository returns a URL. *)
Definition serviceResolvable {W : Type} (env : @Env W) (namespace : string)
    (svc : ManagedClusterServiceSpec) : Prop :=
  forall w : W,
    match env (GetServiceTemplate namespace (svc_Template svc)) w with
    | (Fail _, _) => False
    | (Ok tmpl, w1) =>
        exists url,
          outcome env (ManagedClusterController.getServiceTemplateRepoURL tmpl) w1
            = Done (Ok url)
    end.

Definition isReconcileClusterProfile (o : Op) : bool :=
  match o with
  | ReconcileClusterProfile _ _ _ _ | ReconcileClusterProfile1 _ _ _ => true
  | _ => false
  end.

Definition isServiceOp (o : Op) : bool :=
  match o with
  | GetServiceTemplate _ _ => true
  | o => isReconcileClusterProfile o
  end.

(** A cluster with three services, the second of which names the template
    that does not exist. *)
Definition clusterWithServices : ManagedCluster :=
  exampleCluster ["hmc.mirantis.com/managed-cluster"] false
    [exampleService "ingress"; exampleService "missing"; exampleService "kyverno"].

(** A service with its configuration and values given. *)
Definition configuredService (template : string) : ManagedClusterServiceSpec :=
  {| svc_Template := template; svc_Install := true; svc_ReleaseName := template;
     svc_ReleaseNamespace := EmptyString; svc_Config := Some {| Raw := "{}" |};
     svc_Values := Some {| Raw := "{}" |}; svc_CreateNamespace := true;
     svc_RegistryConfig := {| PlainHTTP := false; Insecure := false |} |}.

(** The same three services, each with configuration and values. *)
Definition clusterWithConfiguredServices : ManagedCluster :=
  exampleCluster ["hmc.mirantis.com/managed-cluster"] false
    [configuredService "ingress"; configuredService "missing"; configuredService "kyverno"].

(** The chart annotation names one of the three kinds of template. *)
Definition recognisedType {api : API} (templateType : string) : bool :=
  String.eqb templateType TemplateTypeDeployment
  || String.eqb templateType TemplateTypeProvider
  || String.eqb templateType TemplateTypeCore.

(** *** The validator of the end-to-end tests *)

#[export] Instance exampleTemplates : ProviderValidator.Templates := {|
  ProviderValidator.TemplateAWSStandaloneCP := "aws-standalone-cp";
  ProviderValidator.TemplateAWSHostedCP := "aws-hosted-cp";
  ProviderValidator.TemplateAWSEKS := "aws-eks";
  ProviderValidator.TemplateAzureStandaloneCP := "azure-standalone-cp";
  ProviderValidator.TemplateAzureHostedCP := "azure-hosted-cp";
  ProviderValidator.TemplateVSphereStandaloneCP := "vsphere-standalone-cp";
  ProviderValidator.TemplateAdoptedCluster := "adopted-cluster";
  ProviderValidator.templates_distinct := ltac:(by apply (bool_decide_unpack _))
|}.

(** A cluster under test whose state counts the calls made so far: the
    machines are not ready before the third call, everything else is. *)
Definition machinesReadyAtThird (validator : ProviderValidator.resourceValidationFunc)
    (clusterName : string) (calls : nat) : option error * nat :=
  match validator with
  | ProviderValidator.validateMachines =>
      if Nat.ltb calls 2 then (Some (ErrNew "machines are not ready"), S calls)
      else (None, S calls)
  | _ => (None, S calls)
  end.

(** The names whose validation succeeded in a call of [Validate]: all the
    names called, but for the last one when the call returned an error. *)
Definition passed {W : Type} (v : @ProviderValidator.Validated W) : list string :=
  match ProviderValidator.returned v with
  | None => ProviderValidator.called v
  | Some _ => removelast (ProviderValidator.called v)
  end.

(** *** More notions for the Management controller *)

Definition succeeded : ComponentStatus := {| cs_Success := true; cs_Error := EmptyString |}.

(** [config[key]] when it is an object, and the empty map otherwise. *)
Definition subObject (config : gmap string JValue) (key : string) : gmap string JValue :=
  match config !! key with
  | Some (JObject m) => m
  | _ => ∅
  end.

Definition isConfigOp (o : Op) : bool :=
  match o with
  | JSONUnmarshal _ | VerifyAPI _ => true
  | _ => false
  end.

(** A Management whose HMC component carries a configuration. *)
Definition managementWithConfig : Management :=
  {| m_meta := exampleMeta EmptyString ManagementName [ManagementFinalizer];
     m_Spec := {| ms_Core :=
                    Some {| HMC := {| comp_Template := DefaultCoreHMCTemplate;
                                      comp_Config := Some {| Raw := "{...}" |} |};
                            CAPI := CAPI DefaultCoreConfiguration |};
                  ms_Providers := [ {| comp_Template := "p1"; comp_Config := None |} ] |};
     m_Status := emptyManagementStatus |}.

(** The configuration decodes to an object that switches the cluster API
    operator off and sets two more values. *)
Definition operatorDisabled : gmap string JValue :=
  <["cluster-api-operator" := JObject (<["enabled" := JBool false]> ∅)]>
    (<["admissionWebhook" := JObject (<["port" := JNumber "9443"]> ∅)]>
       (<["replicas" := JNumber "1"]> ∅)).

Definition configDisablesOperator (o : Op) : resp o :=
  match o return resp o with
  | JSONUnmarshal _ => Ok operatorDisabled
  | o => nominal o
  end.

(** The configuration decodes to an object whose admissionWebhook is not
    an object. *)
Definition webhookNotAnObject (o : Op) : resp o :=
  match o return resp o with
  | JSONUnmarshal _ => Ok (<["admissionWebhook" := JBool true]> ∅)
  | o => nominal o
  end.

(** The cert-manager API is not installed. *)
Definition certManagerMissing (o : Op) : resp o :=
  match o return resp o with
  | VerifyAPI _ => Some (ErrNew "no matches for kind Certificate")
  | o => nominal o
  end.

(** The configuration [enableAdditionalComponents] starts from: what the
    configuration of the HMC component decodes to, or the empty map. *)
Definition decodedConfig {W : Type} (env : @Env W) (core : Core) (w : W)
  : Result (gmap string JValue) :=
  match comp_Config (HMC core) with
  | Some cfg => (env (JSONUnmarshal (Raw cfg)) w).1
  | None => Ok ∅
  end.

Definition isObjectOrNull (v : option JValue) : bool :=
  match v with
  | None | Some JNull | Some (JObject _) => true
  | Some _ => false
  end.

(** The configuration [enableAdditionalComponents] hands to [json.Marshal]. *)
Definition mergedConfig (config : gmap string JValue) : gmap string JValue :=
  let admissionWebhookValues :=
    <["enabled" := JBool true]> (subObject config "admissionWebhook") in
  let capiOperatorValues :=
    match subObject config "cluster-api-operator" !! "enabled" with
    | Some (JBool false) => subObject config "cluster-api-operator"
    | _ => <["enabled" := JBool true]> (subObject config "cluster-api-operator")
    end in
  <["cluster-api-operator" := JObject capiOperatorValues]>
    (<["admissionWebhook" := JObject admissionWebhookValues]> config).

Definition isComponentOp (o : Op) : bool :=
  match o with
  | GetTemplate _ _ | ReconcileHelmRelease2 _ _ _ => true
  | _ => false
  end.

(** Every template declares the infrastructure provider aws. *)
Definition templatesDeclareAWS (o : Op) : resp o :=
  match o return resp o with
  | GetTemplate namespace name =>
      Ok {| t_meta := exampleMeta namespace name [];
            t_Spec := t_Spec (exampleTemplate namespace name true EmptyString);
            t_Status :=
              {| tst_Valid := true; tst_ValidationError := EmptyString;
                 tst_Description := EmptyString; tst_Config := None;
                 tst_ChartRef := Some (exampleChartRef namespace name);
                 tst_Type := "provider";
                 tst_Providers := {| InfrastructureProviders := ["aws"];
                                     BootstrapProviders := [];
                                     ControlPlaneProviders := [] |};
                 tst_ObservedGeneration := 1 |} |}
  | o => nominal o
  end.

(** *** More notions for the ManagedCluster controller *)

Definition isPatch (o : Op) : bool :=
  match o with
  | PatchMetadata _ _ => true
  | _ => false
  end.

(** The HelmRelease of the cluster is gone. *)
Definition releaseGone (o : Op) : resp o :=
  match o return resp o with
  | GetHelmRelease _ _ => Fail (notFound "helmrelease")
  | o => nominal o
  end.

(** What a service asks for, and what an entry of the ClusterProfile says:
    the release name, the values, the release namespace (the release name
    when the service names none), and the three switches. *)
Definition requestedRelease (svc : ManagedClusterServiceSpec)
  : string * option JSON * string * bool * bool * bool :=
  (svc_ReleaseName svc, svc_Values svc,
   if String.eqb (svc_ReleaseNamespace svc) EmptyString then svc_ReleaseName svc
   else svc_ReleaseNamespace svc,
   svc_CreateNamespace svc, PlainHTTP (svc_RegistryConfig svc),
   Insecure (svc_RegistryConfig svc)).

Definition profiledRelease (o : HelmChartOpts)
  : string * option JSON * string * bool * bool * bool :=
  (hco_ReleaseName o, hco_Values o, hco_ReleaseNamespace o, hco_CreateNamespace o,
   hco_PlainHTTP o, hco_Insecure o).

(** A cluster with two services to install and one that is switched off. *)
Definition clusterWithASkippedService : ManagedCluster :=
  exampleCluster ["hmc.mirantis.com/managed-cluster"] false
    [exampleService "ingress";
     {| svc_Template := "dex"; svc_Install := false; svc_ReleaseName := "dex";
        svc_ReleaseNamespace := EmptyString; svc_Config := None; svc_Values := None;
        svc_CreateNamespace := true;
        svc_RegistryConfig := {| PlainHTTP := false; Insecure := false |} |};
     {| svc_Template := "kyverno"; svc_Install := true; svc_ReleaseName := "kyverno";
        svc_ReleaseNamespace := "policies"; svc_Config := None;
        svc_Values := Some {| Raw := "{}" |};
        svc_CreateNamespace := false;
        svc_RegistryConfig := {| PlainHTTP := true; Insecure := false |} |}].

Definition isGetServiceTemplate (o : Op) : bool :=
  match o with
  | GetServiceTemplate _ _ => true
  | _ => false
  end.

(** The operations of [Update] before the status of the CAPI cluster is
    copied, and those of the loop over the services. *)
Definition isBodyOp (o : Op) : bool :=
  match o with
  | GetClusterTemplate _ _ | GetHelmChart _ _ | DownloadChartFromArtifact _
  | ActionConfigInit _ | HelmValues _ | InstallRun _ _ _ _
  | ReconcileHelmRelease _ _ _ | DynamicListClusters _ _ => true
  | _ => false
  end.

Definition isResolveOp (o : Op) : bool :=
  match o with
  | GetServiceTemplate _ _ | GetHelmChart _ _ | GetHelmRepository _ _ => true
  | _ => false
  end.



(** The release of the provider p1 cannot be reconciled. *)
Definition p1ReleaseFails (o : Op) : resp o :=
  match o return resp o with
  | ReconcileHelmRelease2 name _ _ =>
      if String.eqb name "p1" then Fail (ErrNew "chart not ready")
      else Ok (exampleHelmRelease systemNamespace name)
  | o => templatesDeclareAWS o
  end.

(** The state of the environment after the operations [os], issued one
    after the other from [w]. *)
Fixpoint stateAfter {W : Type} (env : @Env W) (os : list Op) (w : W) : W :=
  match os with
  | [] => w
  | o :: rest => stateAfter env rest (env o w).2
  end.



(** * Theorems *)

(** ** Running a sequence *)

Section RunFacts.
Context {W : Type} (env : @Env W).

Lemma outcome_bind {A B} (p : Prog A) (f : A -> Prog B) (w : W) :
  outcome env (bind p f) w =
  match outcome env p w with
  | Done a => outcome env (f a) (final env p w)
  | Panicked => Panicked
  end.
Proof. revert w; induction p as [a| |o k IH]; intros w; simpl; auto. Qed.

Lemma trace_bind {A B} (p : Prog A) (f : A -> Prog B) (w : W) :
  trace env (bind p f) w =
  trace env p w ++
  match outcome env p w with
  | Done a => trace env (f a) (final env p w)
  | Panicked => []
  end.
Proof.
  revert w; induction p as [a| |o k IH]; intros w; simpl; auto.
  by rewrite IH.
Qed.

Lemma final_bind {A B} (p : Prog A) (f : A -> Prog B) (w : W) :
  final env (bind p f) w =
  match outcome env p w with
  | Done a => final env (f a) (final env p w)
  | Panicked => final env p w
  end.
Proof. revert w; induction p as [a| |o k IH]; intros w; simpl; auto. Qed.

Lemma outcome_call {B} (o : Op) (f : resp o -> Prog B) (w : W) :
  outcome env (bind (call o) f) w = outcome env (f (env o w).1) (env o w).2.
Proof. reflexivity. Qed.

Lemma trace_call {B} (o : Op) (f : resp o -> Prog B) (w : W) :
  trace env (bind (call o) f) w =
  (o, failed o (env o w).1) :: trace env (f (env o w).1) (env o w).2.
Proof. reflexivity. Qed.

Lemma final_call {B} (o : Op) (f : resp o -> Prog B) (w : W) :
  final env (bind (call o) f) w = final env (f (env o w).1) (env o w).2.
Proof. reflexivity. Qed.

End RunFacts.

(** One operation of a run. *)
Ltac run_call :=
  repeat match goal with
    | |- context [outcome ?e (bind (call ?o) ?f) ?w] =>
        change (outcome e (bind (call o) f) w) with (outcome e (f (e o w).1) (e o w).2)
    | |- context [trace ?e (bind (call ?o) ?f) ?w] =>
        change (trace e (bind (call o) f) w)
          with ((o, failed o (e o w).1) :: trace e (f (e o w).1) (e o w).2)
    | |- context [final ?e (bind (call ?o) ?f) ?w] =>
        change (final e (bind (call o) f) w) with (final e (f (e o w).1) (e o w).2)
    end.

(** ** Strings *)

Lemma append_empty_inv (a b : string) : a +:+ b = EmptyString -> a = EmptyString /\ b = EmptyString.
Proof. destruct a; simpl; [auto | discriminate]. Qed.


(** ** Management: defaults of the core components *)

Section ManagementFacts.
Import ManagementController.
Context {api : API} {W : Type} (env : @Env W) (r : ManagementReconciler).

Lemma SetDefaults_unchanged (spec : ManagementSpec) :
  ms_Core spec <> None -> SetDefaults spec = (spec, false).
Proof. unfold SetDefaults. by destruct (ms_Core spec). Qed.

Lemma SetDefaults_core (spec : ManagementSpec) :
  ms_Core (SetDefaults spec).1 =
  Some (default DefaultCoreConfiguration (ms_Core spec)).
Proof. unfold SetDefaults. by destruct (ms_Core spec) eqn:E. Qed.

Lemma subConfig_outcome {A} (config : gmap string JValue) (key : string)
    (k : gmap string JValue -> Prog A) (w : W) (a : A) :
  outcome env (bind (subConfig config key) k) w = Done a ->
  exists m, outcome env (k m) w = Done a.
Proof.
  unfold subConfig.
  destruct (config !! key) as [[]|]; simpl; try discriminate; eauto.
Qed.

Lemma enableAdditionalComponents_core (mgmt mgmt' : Management) (e : option error) (w : W) :
  outcome env (enableAdditionalComponents r mgmt) w = Done (mgmt', e) ->
  ms_Core (m_Spec mgmt') <> None /\ m_meta mgmt' = m_meta mgmt.
Proof.
  unfold enableAdditionalComponents.
  destruct (ms_Core (m_Spec mgmt)) as [core|] eqn:Hcore; [|discriminate].
  rewrite outcome_bind.
  set (parse := match comp_Config (HMC core) with
                | Some cfg => call (JSONUnmarshal (Raw cfg))
                | None => Ret (Ok ∅)
                end).
  assert (Hparse : exists x, outcome env parse w = Done x).
  { subst parse. destruct (comp_Config (HMC core)); simpl; eauto. }
  destruct Hparse as [parsed ->].
  destruct parsed as [err|config]; simpl.
  { intros [= <- <-]. by rewrite Hcore. }
  intros H. apply subConfig_outcome in H as [m1 H].
  apply subConfig_outcome in H as [m2 H].
  revert H. simpl.
  destruct (env (VerifyAPI _) _) as [[err|] w1]; simpl.
  { intros [= <- <-]. by rewrite Hcore. }
  destruct (env (JSONMarshal _) _) as [[err|updated] w2]; simpl;
    intros [= <- <-]; simpl; [by rewrite Hcore | done].
Qed.

Lemma Update_component_done (c : component) (st : LoopState) (w : W) :
  exists st', outcome env (Update_component r c st) w = Done st'.
Proof.
  unfold Update_component; simpl.
  destruct (env (GetTemplate _ _) _) as [[err|template] w1]; simpl; eauto.
  destruct (tst_Valid (t_Status template)); simpl; eauto.
  destruct (env (ReconcileHelmRelease2 _ _ _) _) as [[err|hr] w2]; simpl; eauto.
  destruct st as [[errs providers] components]; simpl; eauto.
Qed.

Lemma Update_components_done (cs : list component) (st : LoopState) (w : W) :
  exists st', outcome env (Update_components r cs st) w = Done st'.
Proof.
  revert st w; induction cs as [|c cs IH]; intros st w; [simpl; eauto|].
  change (Update_components r (c :: cs) st)
    with (bind (Update_component r c st) (Update_components r cs)).
  rewrite outcome_bind.
  destruct (Update_component_done c st w) as [st' ->]. apply IH.
Qed.

Lemma Update_keeps_core (m m' : Management) (res : ctrl_Result) (e : option error) (w : W) :
  ms_Core (m_Spec m) <> None ->
  outcome env (Update r m) w = Done (m', res, e) ->
  ms_Core (m_Spec m') <> None.
Proof.
  intros Hcore. unfold Update.
  destruct (AddFinalizer (m_meta m) ManagementFinalizer) as [meta [|]]; simpl.
  { destruct (env (UpdateManagement _) _) as [[err|] w1]; simpl; intros [= <- _ _]; done. }
  rewrite (SetDefaults_unchanged _ Hcore). simpl.
  rewrite outcome_bind.
  destruct (outcome env (enableAdditionalComponents r _) w) as [[m1 err]|] eqn:Hen;
    [|discriminate].
  apply enableAdditionalComponents_core in Hen as [Hcore1 _].
  destruct err as [err|]; simpl; [intros [= <- _ _]; done|].
  rewrite outcome_bind.
  match goal with
  | |- context [outcome env (Update_components r ?cs ?st) ?s] =>
      destruct (Update_components_done cs st s) as [[[errs providers] components] ->]
  end.
  simpl.
  intros [= <- _ _]. done.
Qed.

(** C9, amended: for a Management that already carries its finalizer and
    has no core, the pass sets the core to the default configuration (HMC
    on the template hmc, CAPI on the template cluster-api), writes the
    object once with Update and returns what that write returns.
    [SetDefaults] leaves a spec with a core as it is, and [Update] never
    turns a core into nil. *)
Theorem core_defaulted_once_finalized (m : Management) (w : W) :
  ContainsFinalizer (m_meta m) ManagementFinalizer = true ->
  ms_Core (m_Spec m) = None ->
  let m' := {| m_meta := m_meta m;
               m_Spec := {| ms_Core := Some DefaultCoreConfiguration;
                            ms_Providers := ms_Providers (m_Spec m) |};
               m_Status := m_Status m |} in
  comp_Template (HMC DefaultCoreConfiguration) = "hmc"
  /\ comp_Template (CAPI DefaultCoreConfiguration) = "cluster-api"
  /\ outcome env (Update r m) w = Done (m', noRequeue, (env (UpdateManagement m') w).1)
  /\ trace env (Update r m) w =
       [(UpdateManagement m', isErr (env (UpdateManagement m') w).1)]
  /\ (forall spec, ms_Core spec <> None -> SetDefaults spec = (spec, false))
  /\ (forall m0 w0 m1 res e,
        ms_Core (m_Spec m0) <> None ->
        outcome env (Update r m0) w0 = Done (m1, res, e) ->
        ms_Core (m_Spec m1) <> None).
Proof.
  intros Hfin Hcore m'. repeat split; auto.
  - unfold Update, AddFinalizer. rewrite Hfin. unfold SetDefaults. simpl.
    rewrite Hcore. reflexivity.
  - unfold Update, AddFinalizer. rewrite Hfin. unfold SetDefaults. simpl.
    rewrite Hcore. reflexivity.
  - apply SetDefaults_unchanged.
  - intros m0 w0 m1 res e. apply Update_keeps_core.
Qed.

End ManagementFacts.

(** A Management without finalizer and without core: the pass adds the
    finalizer, writes the object and returns; the core is still nil. *)
Lemma first_pass_leaves_core_nil :
  ms_Core (m_Spec freshManagement) = None
  /\ outcome (answering nominal) (ManagementController.Update managementReconciler freshManagement) tt =
       Done (finalizedManagement, noRequeue, None)
  /\ ops (answering nominal) (ManagementController.Update managementReconciler freshManagement) tt =
       [UpdateManagement finalizedManagement]
  /\ ms_Core (m_Spec finalizedManagement) = None.
Proof. repeat split. Qed.

Lemma core_defaulted_witness :
  ContainsFinalizer (m_meta finalizedManagement) ManagementFinalizer = true
  /\ ms_Core (m_Spec finalizedManagement) = None
  /\ exists m',
        outcome (answering nominal) (ManagementController.Update managementReconciler finalizedManagement) tt =
          Done (m', noRequeue, None)
        /\ ms_Core (m_Spec m') = Some DefaultCoreConfiguration.
Proof.
  split; [reflexivity|]. split; [reflexivity|].
  eexists. split.
  - exact (proj1 (proj2 (proj2
      (core_defaulted_once_finalized (answering nominal) managementReconciler
         finalizedManagement tt eq_refl eq_refl)))).
  - reflexivity.
Defined.

(** ** Management: failures of single components *)

Section InstallerFacts.
Import ManagementController.
Context {api : API} {W : Type} (env : @Env W) (r : ManagementReconciler).


Lemma withMeta_same (m : Management) : withMeta m (m_meta m) = m.
Proof. by destruct m. Qed.

Lemma withSpec_same (m : Management) : withSpec m (m_Spec m) = m.
Proof. by destruct m. Qed.





End InstallerFacts.


(** ** Finalizers *)

Lemma RemoveFinalizer_updated (m : ObjectMeta) (finalizer : string) :
  (RemoveFinalizer m finalizer).2 = ContainsFinalizer m finalizer.
Proof.
  unfold ContainsFinalizer, RemoveFinalizer. simpl.
  induction (Finalizers m) as [|x l IH]; simpl; [done|].
  rewrite (String.eqb_sym finalizer x).
  destruct (String.eqb x finalizer) eqn:E; simpl; [|exact IH].
  pose proof (List.filter_length_le (fun x => negb (String.eqb x finalizer)) l) as Hle.
  destruct (length (List.filter (fun x => negb (String.eqb x finalizer)) l)) as [|n];
    [done|].
  apply negb_true_iff, Nat.eqb_neq. lia.
Qed.

(** ** Management: teardown *)

Section TeardownFacts.
Import ManagementController.
Context {api : API} {W : Type} (env : @Env W) (r : ManagementReconciler).


Lemma Delete_without_core (m : Management) (w : W) :
  ms_Core (m_Spec m) = None ->
  outcome env (Delete r m) w = Panicked /\ trace env (Delete r m) w = [].
Proof. intros Hcore. unfold Delete. by rewrite Hcore. Qed.
End TeardownFacts.



(** ** Conditions *)

Section ConditionFacts.

Lemma Find_Set_same (conditions : list Condition) (new : Condition) :
  exists c,
    FindStatusCondition (SetStatusCondition conditions new) (cType new) = Some c
    /\ cType c = cType new /\ cStatus c = cStatus new
    /\ cReason c = cReason new /\ cMessage c = cMessage new.
Proof.
  unfold FindStatusCondition.
  induction conditions as [|c rest IH]; simpl.
  - rewrite String.eqb_refl. by exists new.
  - destruct (String.eqb (cType c) (cType new)) eqn:E; simpl.
    + rewrite E. eexists. split; [reflexivity|]. simpl.
      by apply String.eqb_eq in E.
    + rewrite E. exact IH.
Qed.

Lemma Find_Set_other (conditions : list Condition) (new : Condition) (t : string) :
  t <> cType new ->
  FindStatusCondition (SetStatusCondition conditions new) t = FindStatusCondition conditions t.
Proof.
  intros Hne. unfold FindStatusCondition.
  induction conditions as [|c rest IH]; simpl.
  - destruct (String.eqb (cType new) t) eqn:E; [|done].
    apply String.eqb_eq in E. congruence.
  - destruct (String.eqb (cType c) (cType new)) eqn:E; simpl.
    + apply String.eqb_eq in E.
      destruct (String.eqb (cType c) t) eqn:E'; [|done].
      apply String.eqb_eq in E'. congruence.
    + by rewrite IH.
Qed.

Lemma setCondition_same (mc : ManagedCluster) (new : Condition) :
  exists c,
    FindStatusCondition (mcst_Conditions (mc_Status (setCondition mc new))) (cType new) = Some c
    /\ cStatus c = cStatus new /\ cReason c = cReason new /\ cMessage c = cMessage new.
Proof.
  destruct (Find_Set_same (mcst_Conditions (mc_Status mc)) new) as (c & H & _ & H').
  by exists c.
Qed.

Lemma setCondition_other (mc : ManagedCluster) (new : Condition) (t : string) :
  t <> cType new ->
  FindStatusCondition (mcst_Conditions (mc_Status (setCondition mc new))) t =
  FindStatusCondition (mcst_Conditions (mc_Status mc)) t.
Proof. apply Find_Set_other. Qed.
End ConditionFacts.

(** ** ManagedCluster: the aggregate Ready condition *)

Section StatusFacts.
Import ManagedClusterController.
Context {api : API} {W : Type} (env : @Env W).

Lemma append_assoc (a b c : string) : (a +:+ b) +:+ c = a +:+ (b +:+ c).
Proof.
  induction a as [|x a IH]; [reflexivity|].
  change (String x ((a +:+ b) +:+ c) = String x (a +:+ (b +:+ c))). by rewrite IH.
Qed.

Lemma append_nil_l (s : string) : EmptyString +:+ s = s.
Proof. reflexivity. Qed.

Lemma append_nil_r (s : string) : s +:+ EmptyString = s.
Proof.
  induction s as [|x s IH]; [reflexivity|].
  change (String x (s +:+ EmptyString) = String x s). by rewrite IH.
Qed.

Lemma collectMessages_spec (conditions : list Condition) (warnings errs : string) :
  collectMessages conditions warnings errs =
  (warnings +:+ messagesWith ConditionUnknown conditions,
   errs +:+ messagesWith ConditionFalse conditions).
Proof.
  revert warnings errs; induction conditions as [|c rest IH]; intros warnings errs; simpl.
  { by rewrite !append_nil_r. }
  unfold counts.
  destruct (String.eqb (cType c) ReadyCondition); simpl; [apply IH|].
  rewrite IH.
  destruct (String.eqb (cStatus c) ConditionUnknown),
           (String.eqb (cStatus c) ConditionFalse); simpl;
    by rewrite ?append_assoc.
Qed.

Lemma messagesWith_empty (status : string) (conditions : list Condition) :
  String.eqb (messagesWith status conditions) EmptyString = negb (anyWith status conditions).
Proof.
  unfold anyWith. induction conditions as [|c rest IH]; simpl; [done|].
  destruct (counts status c); simpl; [|exact IH].
  destruct (cMessage c); reflexivity.
Qed.

(** C7: [updateStatus] computes Ready from the conditions of the other
    types and sets it after them, leaving them as they are, and writes the
    status once.  Ready is False with the messages of the False conditions
    when there is one; else Unknown with the messages of the Unknown
    conditions when there is one; else True. *)
Theorem ready_aggregates_the_others (mc : ManagedCluster) (w : W) :
  let conditions := mcst_Conditions (mc_Status mc) in
  exists mc' e ready,
    outcome env (updateStatus mc) w = Done (mc', e)
    /\ trace env (updateStatus mc) w = [(StatusUpdateManagedCluster mc', isErr e)]
    /\ FindStatusCondition (mcst_Conditions (mc_Status mc')) ReadyCondition = Some ready
    /\ (forall t, t <> ReadyCondition ->
          FindStatusCondition (mcst_Conditions (mc_Status mc')) t =
          FindStatusCondition conditions t)
    /\ (anyWith ConditionFalse conditions = true ->
          cStatus ready = ConditionFalse
          /\ cMessage ready = messagesWith ConditionFalse conditions)
    /\ (anyWith ConditionFalse conditions = false ->
        anyWith ConditionUnknown conditions = true ->
          cStatus ready = ConditionUnknown
          /\ cMessage ready = messagesWith ConditionUnknown conditions)
    /\ (anyWith ConditionFalse conditions = false ->
        anyWith ConditionUnknown conditions = false ->
          cStatus ready = ConditionTrue).
Proof.
  intros conditions. unfold updateStatus. simpl.
  set (ready := readyCondition conditions).
  set (mc1 := withObservedGeneration mc (Generation (mc_meta mc))).
  assert (Htype : cType ready = ReadyCondition).
  { subst ready. unfold readyCondition.
    destruct (collectMessages conditions EmptyString EmptyString) as [warnings errs].
    by destruct (negb (String.eqb warnings EmptyString)),
                (negb (String.eqb errs EmptyString)). }
  destruct (setCondition_same mc1 ready) as (c & Hfind & Hstatus & _ & Hmessage).
  rewrite Htype in Hfind.
  assert (Hothers : forall t, t <> ReadyCondition ->
            FindStatusCondition (mcst_Conditions (mc_Status (setCondition mc1 ready))) t =
            FindStatusCondition conditions t).
  { intros t Ht. rewrite setCondition_other; [done | by rewrite Htype]. }
  assert (Hready :
    (anyWith ConditionFalse conditions = true ->
       cStatus ready = ConditionFalse
       /\ cMessage ready = messagesWith ConditionFalse conditions)
    /\ (anyWith ConditionFalse conditions = false ->
        anyWith ConditionUnknown conditions = true ->
          cStatus ready = ConditionUnknown
          /\ cMessage ready = messagesWith ConditionUnknown conditions)
    /\ (anyWith ConditionFalse conditions = false ->
        anyWith ConditionUnknown conditions = false ->
          cStatus ready = ConditionTrue)).
  { subst ready. unfold readyCondition. rewrite collectMessages_spec, !append_nil_l.
    rewrite !messagesWith_empty.
    destruct (anyWith ConditionFalse conditions), (anyWith ConditionUnknown conditions);
      simpl; repeat split; intros; try discriminate; reflexivity. }
  rewrite <- Hstatus, <- Hmessage in Hready.
  destruct (env (StatusUpdateManagedCluster _) w) as [[err|] w1]; simpl;
    eexists _, _, c; (split; [reflexivity|]); (split; [reflexivity|]);
    (split; [exact Hfind|]); (split; [exact Hothers|]); exact Hready.
Qed.
End StatusFacts.

(** ** ManagedCluster: the provider release gate *)

Section ReleaseFacts.
Import ManagedClusterController.
Context {api : API} {W : Type} (env : @Env W) (r : ManagedClusterReconciler).

Lemma providerGVKs_lookup (provider : string) :
  inProviderTable provider = false -> providerGVKs !! provider = None.
Proof.
  unfold inProviderTable, providerGVKs. intros H.
  apply orb_false_iff in H as [Haws Hazure].
  apply String.eqb_neq in Haws, Hazure.
  by rewrite !lookup_insert_ne, lookup_empty.
Qed.

Lemma releaseProviders_skip (namespace name provider : string) (rest : list string) :
  inProviderTable provider = false ->
  releaseProviders namespace name (provider :: rest) = releaseProviders namespace name rest.
Proof. intros H. simpl. by rewrite (providerGVKs_lookup _ H). Qed.

(** C10, amended: a provider name outside the table is skipped, the loop
    for it is the loop for the remaining names; and when no name of the
    template's list is aws or azure, [releaseCluster] returns nil having
    issued one operation, the read of the ClusterTemplate that yields the
    list: no object is listed and none is patched. *)
Theorem providers_outside_the_table_are_skipped
    (namespace name templateName : string) (template : ClusterTemplate) (w : W) :
  (env (GetClusterTemplate (SystemNamespace r) templateName) w).1 = Ok template ->
  (forall provider rest,
     provider <> "aws" -> provider <> "azure" ->
     releaseProviders namespace name (provider :: rest) = releaseProviders namespace name rest)
  /\ (forallb (fun provider => negb (inProviderTable provider))
        (InfrastructureProviders (tstc_Providers (kt_Status template))) = true ->
      outcome env (releaseCluster r namespace name templateName) w = Done None
      /\ trace env (releaseCluster r namespace name templateName) w =
           [(GetClusterTemplate (SystemNamespace r) templateName, false)]).
Proof.
  intros Hget. split.
  - intros provider rest Haws Hazure. apply releaseProviders_skip.
    unfold inProviderTable. apply orb_false_iff. by split; apply String.eqb_neq.
  - intros Hall. unfold releaseCluster, getProviders. simpl.
    destruct (env (GetClusterTemplate _ _) w) as [got w1]. simpl in Hget. subst got. simpl.
    set (providers := InfrastructureProviders (tstc_Providers (kt_Status template))) in *.
    clearbody providers.
    assert (Hloop : releaseProviders namespace name providers = Ret None).
    { induction providers as [|provider rest IH]; [reflexivity|].
      simpl in Hall. apply andb_true_iff in Hall as [Hp Hrest].
      apply negb_true_iff in Hp.
      rewrite (releaseProviders_skip _ _ _ _ Hp). by apply IH. }
    by rewrite Hloop.
Qed.

Lemma RemoveFinalizer_gone (m : ObjectMeta) (finalizer : string) :
  ContainsFinalizer (RemoveFinalizer m finalizer).1 finalizer = false.
Proof.
  unfold ContainsFinalizer, RemoveFinalizer. simpl.
  induction (Finalizers m) as [|x l IH]; simpl; [done|].
  destruct (String.eqb x finalizer) eqn:E; simpl; [exact IH|].
  rewrite String.eqb_sym, E. exact IH.
Qed.

Lemma getCluster_found (namespace name : string) (gvk : GroupVersionKind)
    (found : PartialObjectMetadata) (others : list PartialObjectMetadata) (w : W) :
  let lookup := ListMetadata gvk namespace {[ FluxHelmChartNameKey := name ]} 0 in
  (env lookup w).1 = Ok (found :: others) ->
  outcome env (getCluster namespace name gvk) w = Done (Ok found)
  /\ trace env (getCluster namespace name gvk) w = [(lookup, false)]
  /\ final env (getCluster namespace name gvk) w = (env lookup w).2.
Proof.
  intros lookup H. unfold getCluster. simpl. fold lookup.
  destruct (env lookup w) as [got w1]. simpl in H. by subst got.
Qed.

Lemma machinesAvailable_listed (namespace clusterName : string) (gvk : GroupVersionKind)
    (machines : list PartialObjectMetadata) (w : W) :
  let check := ListMetadata gvk namespace {[ ClusterNameLabelKey := clusterName ]} 1 in
  (env check w).1 = Ok machines ->
  outcome env (machinesAvailable namespace clusterName gvk) w =
    Done (Ok (negb (Nat.eqb (length machines) 0)))
  /\ trace env (machinesAvailable namespace clusterName gvk) w = [(check, false)]
  /\ final env (machinesAvailable namespace clusterName gvk) w = (env check w).2.
Proof.
  intros check H. unfold machinesAvailable. simpl. fold check.
  destruct (env check w) as [got w1]. simpl in H. by subst got.
Qed.

Lemma removeClusterFinalizer_spec (found : PartialObjectMetadata) (w : W) :
  let released :=
    {| pom_gvk := pom_gvk found;
       pom_meta := (RemoveFinalizer (pom_meta found) BlockingFinalizer).1 |} in
  let patch := PatchMetadata released (originalAfterRemove found BlockingFinalizer) in
  (ContainsFinalizer (pom_meta found) BlockingFinalizer = true ->
     trace env (removeClusterFinalizer found) w = [(patch, isErr (env patch w).1)]
     /\ exists e, outcome env (removeClusterFinalizer found) w = Done e
                  /\ isErr e = isErr (env patch w).1)
  /\ (ContainsFinalizer (pom_meta found) BlockingFinalizer = false ->
      outcome env (removeClusterFinalizer found) w = Done None
      /\ trace env (removeClusterFinalizer found) w = []).
Proof.
  intros released patch. subst patch released. unfold removeClusterFinalizer.
  pose proof (RemoveFinalizer_updated (pom_meta found) BlockingFinalizer) as Hupdated.
  destruct (RemoveFinalizer (pom_meta found) BlockingFinalizer) as [meta updated] eqn:Hremove.
  simpl in Hupdated. subst updated.
  split; intros ->; simpl; [|done].
  destruct (env (PatchMetadata _ _) w) as [[err|] w1]; simpl; eauto.
Qed.

(** [releaseCluster] returns: none of its steps panics. *)
Lemma releaseProviders_returns (namespace name : string) (providers : list string) :
  forall w, exists e, outcome env (releaseProviders namespace name providers) w = Done e.
Proof.
  induction providers as [|provider rest IH]; intros w; [by exists None|].
  cbn [releaseProviders]. destruct (providerGVKs !! provider) as [gvk|]; [|apply IH].
  unfold getCluster, machinesAvailable, call. cbn [bind outcome].
  destruct (env (ListMetadata (cluster gvk) _ _ _) w) as [[err|[|found others]] w1];
    cbn [fst snd bind outcome]; [by eexists..|].
  destruct (env (ListMetadata (machine gvk) _ _ _) w1) as [[err|items] w2];
    cbn [fst snd bind outcome]; [by eexists|].
  destruct (negb (negb (Nat.eqb (length items) 0))); [|apply IH].
  destruct (removeClusterFinalizer_spec found w2) as [Hhas Hnot].
  destruct (ContainsFinalizer (pom_meta found) BlockingFinalizer).
  - destruct (Hhas eq_refl) as (_ & e & He & _). by exists e.
  - destruct (Hnot eq_refl) as [He _]. by exists None.
Qed.

Lemma releaseCluster_returns (namespace name templateName : string) (w : W) :
  exists e, outcome env (releaseCluster r namespace name templateName) w = Done e.
Proof.
  unfold releaseCluster, getProviders, call. cbn [bind outcome].
  destruct (env (GetClusterTemplate _ _) w) as [[err|template] w1];
    cbn [fst snd bind outcome]; [by eexists|].
  apply releaseProviders_returns.
Qed.

(** C2, amended: where the loop of [releaseCluster] is at a provider of the
    table whose infra cluster object is found by the release-name label:
    if no machine with the cluster-name label is listed and the object
    carries the blocking finalizer, the finalizer is taken off with one
    patch of the object against the copy made before, and a failure of that
    patch is returned as an error; if a machine is listed, nothing is
    patched for this provider and the loop goes on with the next one.  And
    once the release of the cluster has been found and the ClusterProfile
    and the HelmRelease deleted without error, [Delete] runs
    [releaseCluster], which returns, and answers with the timed requeue
    exactly when [releaseCluster] returned no error, and with that error and
    no requeue interval otherwise. *)
Theorem release_gate (namespace name provider : string) (rest : list string)
    (gvk : providerSchema) (found : PartialObjectMetadata)
    (others machines : list PartialObjectMetadata) (w : W) :
  providerGVKs !! provider = Some gvk ->
  let lookup := ListMetadata (cluster gvk) namespace {[ FluxHelmChartNameKey := name ]} 0 in
  let check := ListMetadata (machine gvk) namespace
                 {[ ClusterNameLabelKey := Name (pom_meta found) ]} 1 in
  (env lookup w).1 = Ok (found :: others) ->
  (env check (env lookup w).2).1 = Ok machines ->
  let w2 := (env check (env lookup w).2).2 in
  let released :=
    {| pom_gvk := pom_gvk found;
       pom_meta := (RemoveFinalizer (pom_meta found) BlockingFinalizer).1 |} in
  let patch := PatchMetadata released (originalAfterRemove found BlockingFinalizer) in
  let pass := releaseProviders namespace name (provider :: rest) in
  ContainsFinalizer (pom_meta released) BlockingFinalizer = false
  /\ (machines = [] -> ContainsFinalizer (pom_meta found) BlockingFinalizer = true ->
       In (patch, isErr (env patch w2).1) (trace env pass w)
       /\ (isErr (env patch w2).1 = true -> exists e, outcome env pass w = Done (Some e)))
  /\ (machines <> [] ->
       outcome env pass w = outcome env (releaseProviders namespace name rest) w2
       /\ trace env pass w =
            [(lookup, false); (check, false)]
            ++ trace env (releaseProviders namespace name rest) w2)
  /\ (forall mc w0 mc' res e,
        isFail (env (GetHelmRelease (Namespace (mc_meta mc)) (Name (mc_meta mc))) w0).1 = false ->
        outcome env (Delete r mc) w0 = Done (mc', res, e) ->
        mc' = mc
        /\ (e = None -> res = requeueAfter DefaultRequeueInterval)
        /\ (e <> None -> res = noRequeue))
  /\ (forall mc w0,
        let get := GetHelmRelease (Namespace (mc_meta mc)) (Name (mc_meta mc)) in
        let profile := DeleteClusterProfile (Namespace (mc_meta mc)) (Name (mc_meta mc)) in
        let release := DeleteHelmRelease (Name (mc_meta mc)) (Namespace (mc_meta mc)) in
        let w3 := (env get w0).2 in
        let w4 := (env profile w3).2 in
        let w5 := (env release w4).2 in
        let gate := releaseCluster r (Namespace (mc_meta mc)) (Name (mc_meta mc))
                      (mcs_Template (mc_Spec mc)) in
        isFail (env get w0).1 = false ->
        (env profile w3).1 = None ->
        (env release w4).1 = None ->
        trace env (Delete r mc) w0 =
          [(get, false); (profile, false); (release, false)] ++ trace env gate w5
        /\ exists released,
             outcome env gate w5 = Done released
             /\ outcome env (Delete r mc) w0 =
                  Done (mc,
                        match released with
                        | None => requeueAfter DefaultRequeueInterval
                        | Some _ => noRequeue
                        end,
                        released)).
Proof.
  intros Hgvk lookup check Hfound Hmachines w2 released patch pass.
  split; [apply RemoveFinalizer_gone|].
  assert (Hpass : pass =
            bind (getCluster namespace name (cluster gvk))
              (fun found =>
                 match found with
                 | Fail err => Ret (Some err)
                 | Ok cluster =>
                     bind (machinesAvailable namespace (Name (pom_meta cluster)) (machine gvk))
                       (fun available =>
                          match available with
                          | Fail err => Ret (Some err)
                          | Ok found =>
                              if negb found then removeClusterFinalizer cluster
                              else releaseProviders namespace name rest
                          end)
                 end)).
  { subst pass. simpl. by rewrite Hgvk. }
  rewrite Hpass. clear Hpass.
  destruct (getCluster_found namespace name (cluster gvk) found others w Hfound)
    as (Ho1 & Ht1 & Hf1).
  fold lookup in Ht1, Hf1.
  assert (Hmachines' : (env check (final env (getCluster namespace name (cluster gvk)) w)).1
                       = Ok machines) by (by rewrite Hf1).
  destruct (machinesAvailable_listed namespace (Name (pom_meta found)) (machine gvk)
              machines _ Hmachines') as (Ho2 & Ht2 & Hf2).
  fold check in Ht2, Hf2.
  rewrite !outcome_bind, !trace_bind, Ho1, Ht1. cbn [fst snd].
  rewrite !outcome_bind, !trace_bind, Ho2, Ht2, Hf2, Hf1. cbn [fst snd].
  fold w2.
  destruct (removeClusterFinalizer_spec found w2) as [Hhas Hnot].
  fold released in Hhas. fold patch in Hhas.
  split; [|split; [|split]].
  - intros -> Hcontains. simpl. destruct (Hhas Hcontains) as [Htrace (e & Hout & He)].
    rewrite Htrace, Hout. split; [simpl; auto|].
    intros Hfailed. destruct e as [e|]; [by exists e|].
    assert (Hno : false = true) by (etrans; [exact He|exact Hfailed]). discriminate.
  - intros Hsome. destruct machines as [|m1 ms]; [done|]. by simpl.
  - intros mc w0 mc' res e Hrelease. unfold Delete.
    rewrite outcome_call.
    destruct (env (GetHelmRelease _ _) w0) as [[err|hr] w3]; [discriminate|].
    cbn [fst snd]. rewrite outcome_call.
    destruct (env (DeleteClusterProfile _ _) _) as [[err|] w4]; cbn [fst snd].
    { intros [= <- <- <-]. by repeat split. }
    rewrite outcome_call.
    destruct (env (DeleteHelmRelease _ _) _) as [[err|] w5]; cbn [fst snd].
    { intros [= <- <- <-]. by repeat split. }
    rewrite outcome_bind.
    match goal with
    | |- context [outcome env (releaseCluster ?a ?b ?c ?d) ?s] =>
        destruct (outcome env (releaseCluster a b c d) s) as [[err|]|]
    end; cbn [fst snd]; [| |discriminate]; intros [= <- <- <-]; by repeat split.
  - intros mc w0. unfold Delete. rewrite trace_call, outcome_call.
    destruct (env (GetHelmRelease _ _) w0) as [[err|hr] w3]; [discriminate|].
    cbn [fst snd]. intros _. rewrite trace_call, outcome_call.
    destruct (env (DeleteClusterProfile _ _) w3) as [[err|] w4]; [discriminate|].
    cbn [fst snd]. intros _. rewrite trace_call, outcome_call.
    destruct (env (DeleteHelmRelease _ _) w4) as [[err|] w5]; [discriminate|].
    cbn [fst snd]. intros _. rewrite trace_bind, outcome_bind.
    destruct (releaseCluster_returns (Namespace (mc_meta mc)) (Name (mc_meta mc))
                (mcs_Template (mc_Spec mc)) w5) as [gone Hgone].
    rewrite Hgone. split.
    + destruct gone; cbn [trace]; by rewrite app_nil_r.
    + exists gone. split; [done|]. by destruct gone.
Qed.
End ReleaseFacts.

(** The template names aws and azure.  The AWSCluster is found and a
    machine is left, so its finalizer stays; the lookup of the AzureCluster
    then fails, and the deletion pass returns that error without a timed
    requeue. *)
Lemma busy_provider_then_missing_provider :
  (answering awsBusyAzureAbsent
     (ListMetadata ManagedClusterController.gvkAWSCluster "default"
        {[ FluxHelmChartNameKey := "dev" ]} 0) tt).1 =
    Ok [infraCluster ManagedClusterController.gvkAWSCluster]
  /\ (exists machine,
        (answering awsBusyAzureAbsent
           (ListMetadata ManagedClusterController.gvkMachine "default"
              {[ ClusterNameLabelKey := "dev" ]} 1) tt).1 = Ok [machine])
  /\ outcome (answering awsBusyAzureAbsent)
       (ManagedClusterController.Delete clusterReconciler deletedCluster) tt =
       Done (deletedCluster, noRequeue,
             Some (ErrNew "azurecluster with name dev was not found"))
  /\ RequeueAfter noRequeue = 0
  /\ List.filter (fun o => match o with PatchMetadata _ _ => true | _ => false end)
       (ops (answering awsBusyAzureAbsent)
          (ManagedClusterController.Delete clusterReconciler deletedCluster) tt) = [].
Proof.
  split; [reflexivity|]. split; [eexists; reflexivity|].
  split; [reflexivity|]. split; reflexivity.
Qed.

(** The template names aws and azure, both infra objects carry the
    blocking finalizer and no machine is left: the AWSCluster is patched
    and the pass returns; the AzureCluster is not looked up. *)
Lemma release_stops_at_the_first_idle_provider :
  List.map (fun o => match o with
                     | ListMetadata gvk _ _ _ => Kind gvk
                     | PatchMetadata obj _ => "patch " +:+ Kind (pom_gvk obj)
                     | _ => EmptyString
                     end)
    (ops (answering twoProvidersNoMachines)
       (ManagedClusterController.releaseCluster clusterReconciler "default" "dev"
          "aws-standalone") tt) =
  [EmptyString; "awscluster"; "machine"; "patch awscluster"].
Proof. reflexivity. Qed.

Lemma release_gate_witness :
  ManagedClusterController.providerGVKs !! "aws" =
    Some {| ManagedClusterController.machine := ManagedClusterController.gvkMachine;
            ManagedClusterController.cluster := ManagedClusterController.gvkAWSCluster |}
  /\ ContainsFinalizer (pom_meta (infraCluster ManagedClusterController.gvkAWSCluster))
       BlockingFinalizer = true
  /\ In (PatchMetadata
           {| pom_gvk := ManagedClusterController.gvkAWSCluster;
              pom_meta := exampleMeta "default" "dev" [] |}
           (ManagedClusterController.originalAfterRemove
              (infraCluster ManagedClusterController.gvkAWSCluster) BlockingFinalizer),
         false)
       (trace (answering awsIdle)
          (ManagedClusterController.releaseProviders "default" "dev" ["aws"]) tt).
Proof.
  split; [reflexivity|]. split; [reflexivity|].
  exact (proj1 (proj1 (proj2
    (release_gate (answering awsIdle) clusterReconciler "default" "dev" "aws" []
       {| ManagedClusterController.machine := ManagedClusterController.gvkMachine;
          ManagedClusterController.cluster := ManagedClusterController.gvkAWSCluster |}
       (infraCluster ManagedClusterController.gvkAWSCluster) [] [] tt
       eq_refl eq_refl eq_refl)) eq_refl eq_refl)).
Defined.

(** No provider of the template is in the table, and [releaseCluster]
    still reads one object, the ClusterTemplate. *)
Lemma releaseCluster_reads_the_template :
  (exists template,
     (answering otherProvider (GetClusterTemplate systemNamespace "aws-standalone") tt).1 =
       Ok template
     /\ InfrastructureProviders (tstc_Providers (kt_Status template)) = ["vsphere"])
  /\ outcome (answering otherProvider)
       (ManagedClusterController.releaseCluster clusterReconciler "default" "dev"
          "aws-standalone") tt = Done None
  /\ ops (answering otherProvider)
       (ManagedClusterController.releaseCluster clusterReconciler "default" "dev"
          "aws-standalone") tt =
     [GetClusterTemplate systemNamespace "aws-standalone"].
Proof. split; [eexists; split; reflexivity|]. split; reflexivity. Qed.

Lemma providers_outside_the_table_witness :
  (answering otherProvider (GetClusterTemplate systemNamespace "aws-standalone") tt).1 =
    Ok (exampleKindTemplate ClusterTemplateKind systemNamespace "aws-standalone" true ["vsphere"])
  /\ outcome (answering otherProvider)
       (ManagedClusterController.releaseCluster clusterReconciler "default" "dev"
          "aws-standalone") tt = Done None
  /\ trace (answering otherProvider)
       (ManagedClusterController.releaseCluster clusterReconciler "default" "dev"
          "aws-standalone") tt =
     [(GetClusterTemplate systemNamespace "aws-standalone", false)].
Proof.
  split; [reflexivity|].
  exact (proj2
    (providers_outside_the_table_are_skipped (answering otherProvider) clusterReconciler
       "default" "dev" "aws-standalone"
       (exampleKindTemplate ClusterTemplateKind systemNamespace "aws-standalone" true
          ["vsphere"]) tt eq_refl) eq_refl).
Defined.

(** ** ManagedCluster: the template and chart steps of a pass *)

Section UpdateFacts.
Import ManagedClusterController.
Context {api : API} {W : Type} (env : @Env W) (r : ManagedClusterReconciler).

Lemma condition_types :
  TemplateReadyCondition <> ReadyCondition
  /\ HelmChartReadyCondition <> ReadyCondition
  /\ HelmReleaseReadyCondition <> ReadyCondition
  /\ TemplateReadyCondition <> HelmChartReadyCondition
  /\ HelmReleaseReadyCondition <> TemplateReadyCondition
  /\ HelmReleaseReadyCondition <> HelmChartReadyCondition.
Proof.
  pose proof condition_types_distinct as H.
  apply NoDup_cons in H as [H1 H]. apply NoDup_cons in H as [H2 H].
  apply NoDup_cons in H as [H3 _].
  repeat split; intros E;
    [apply H1|apply H2|apply H3|apply H1|apply H1|apply H2];
    rewrite ?E, <- ?E; repeat constructor.
Qed.

Lemma updateStatus_run (mc : ManagedCluster) (w : W) :
  exists mc' e,
    outcome env (updateStatus mc) w = Done (mc', e)
    /\ trace env (updateStatus mc) w = [(StatusUpdateManagedCluster mc', isErr e)]
    /\ (forall t, t <> ReadyCondition ->
          FindStatusCondition (mcst_Conditions (mc_Status mc')) t =
          FindStatusCondition (mcst_Conditions (mc_Status mc)) t).
Proof.
  unfold updateStatus.
  set (ready := readyCondition (mcst_Conditions (mc_Status _))).
  set (mc1 := withObservedGeneration mc (Generation (mc_meta mc))).
  assert (Htype : cType ready = ReadyCondition).
  { subst ready. unfold readyCondition.
    destruct (collectMessages _ EmptyString EmptyString) as [warnings errs].
    by destruct (negb (String.eqb warnings EmptyString)),
                (negb (String.eqb errs EmptyString)). }
  assert (Hothers : forall t, t <> ReadyCondition ->
            FindStatusCondition (mcst_Conditions (mc_Status (setCondition mc1 ready))) t =
            FindStatusCondition (mcst_Conditions (mc_Status mc)) t).
  { intros t Ht. rewrite setCondition_other; [done | by rewrite Htype]. }
  rewrite outcome_call, trace_call.
  destruct (env (StatusUpdateManagedCluster _) w) as [[err|] w1]; cbn [fst snd];
    eexists _, _; (split; [reflexivity|]); (split; [reflexivity|]); exact Hothers.
Qed.

Lemma Update_body_invalid (mc : ManagedCluster) (template : ClusterTemplate) (w : W) :
  (env (GetClusterTemplate (SystemNamespace r) (mcs_Template (mc_Spec mc))) w).1 = Ok template ->
  tstc_Valid (kt_Status template) = false ->
  outcome env (Update_body r mc) w =
    Done (setCondition mc notValid, noRequeue,
          Some (errors_New "provided template is not marked as valid"))
  /\ trace env (Update_body r mc) w =
       [(GetClusterTemplate (SystemNamespace r) (mcs_Template (mc_Spec mc)), false)]
  /\ final env (Update_body r mc) w =
       (env (GetClusterTemplate (SystemNamespace r) (mcs_Template (mc_Spec mc))) w).2.
Proof.
  intros Hget Hvalid. unfold Update_body.
  rewrite outcome_call, trace_call, final_call.
  destruct (env (GetClusterTemplate _ _) w) as [got w1]. cbn [fst snd] in Hget |- *.
  subst got. by rewrite Hvalid.
Qed.

(** C5, amended: for a ManagedCluster that already carries its finalizer
    and whose ClusterTemplate is there with valid=false, the pass reads the
    template, sets TemplateReady to False with the reason Failed and the
    message that the template is not marked as valid, writes the status and
    returns an error that joins that message; it issues no other operation,
    so no HelmRelease is reconciled. *)
Theorem invalid_template_stops_the_pass (mc : ManagedCluster) (template : ClusterTemplate)
    (w : W) :
  ContainsFinalizer (mc_meta mc) ManagedClusterFinalizer = true ->
  (env (GetClusterTemplate (SystemNamespace r) (mcs_Template (mc_Spec mc))) w).1 = Ok template ->
  tstc_Valid (kt_Status template) = false ->
  exists mc' e c written,
    outcome env (Update r mc) w = Done (mc', noRequeue, Some e)
    /\ In (ErrNew "provided template is not marked as valid") (joined e)
    /\ FindStatusCondition (mcst_Conditions (mc_Status mc')) TemplateReadyCondition = Some c
    /\ cStatus c = ConditionFalse
    /\ cReason c = FailedReason
    /\ cMessage c = "provided template is not marked as valid"
    /\ trace env (Update r mc) w =
         [(GetClusterTemplate (SystemNamespace r) (mcs_Template (mc_Spec mc)), false);
          (StatusUpdateManagedCluster mc', written)].
Proof.
  intros Hfin Hget Hvalid. unfold Update, AddFinalizer. rewrite Hfin.
  set (mc0 := if Nat.eqb _ 0 then _ else _).
  assert (Htemplate : mcs_Template (mc_Spec mc0) = mcs_Template (mc_Spec mc)).
  { subst mc0. by destruct (Nat.eqb _ 0), mc. }
  rewrite <- Htemplate in Hget |- *.
  destruct (Update_body_invalid mc0 template w Hget Hvalid) as (Hout & Htrace & Hfinal).
  rewrite outcome_bind, trace_bind, Hout, Htrace, Hfinal. cbn [fst snd].
  rewrite outcome_bind, trace_bind.
  destruct (updateStatus_run (setCondition mc0 notValid)
              (env (GetClusterTemplate (SystemNamespace r) (mcs_Template (mc_Spec mc0))) w).2)
    as (mc' & e & -> & -> & Hothers).
  destruct (setCondition_same mc0 notValid) as (c & Hfind & Hstatus & Hreason & Hmessage).
  destruct condition_types as (Htr & _).
  exists mc', (match errors_Join (Some (errors_New (cMessage notValid))) e with
               | Some x => x | None => ErrNew EmptyString end), c, (isErr e).
  cbn [fst snd outcome trace app].
  split. { by destruct e. }
  split. { destruct e; simpl; auto. }
  split. { rewrite Hothers by done. exact Hfind. }
  by repeat split.
Qed.

Lemma onlyStatusUpdateMayFail_app (a b : list Event) :
  onlyStatusUpdateMayFail (a ++ b) = true ->
  onlyStatusUpdateMayFail a = true /\ onlyStatusUpdateMayFail b = true.
Proof.
  unfold onlyStatusUpdateMayFail. rewrite forallb_app. apply andb_true_iff.
Qed.

Lemma Update_body_dryRun (mc : ManagedCluster) (template : ClusterTemplate)
    (ref : CrossNamespaceSourceReference) (w : W) :
  (env (GetClusterTemplate (SystemNamespace r) (mcs_Template (mc_Spec mc))) w).1 = Ok template ->
  tstc_Valid (kt_Status template) = true ->
  tstc_ChartRef (kt_Status template) = Some ref ->
  mcs_DryRun (mc_Spec mc) = true ->
  onlyStatusUpdateMayFail (trace env (Update_body r mc) w) = true ->
  exists source chart vals,
    outcome env (Update_body r mc) w =
      Done (setCondition (setCondition mc templateValid) chartValid, noRequeue, None)
    /\ trace env (Update_body r mc) w =
         [(GetClusterTemplate (SystemNamespace r) (mcs_Template (mc_Spec mc)), false);
          (GetHelmChart (ref_Namespace ref) (ref_Name ref), false);
          (DownloadChartFromArtifact (hc_Artifact source), false);
          (ActionConfigInit (Namespace (mc_meta mc)), false);
          (HelmValues (mcs_Config (mc_Spec mc)), false);
          (InstallRun (Name (mc_meta mc)) (Namespace (mc_meta mc)) chart vals, false)].
Proof.
  intros Hget Hvalid Href Hdry. unfold Update_body, getSource, validateReleaseWithValues.
  run_call.
  destruct (env (GetClusterTemplate _ _) w) as [got w1]. cbn [fst snd] in Hget |- *.
  subst got. rewrite Hvalid, Href. cbn [negb isFail failed].
  run_call.
  destruct (env (GetHelmChart _ _) w1) as [[err|source] w2]; cbn [fst snd isFail failed];
    [intros [=]|].
  run_call.
  destruct (env (DownloadChartFromArtifact _) w2) as [[err|chart] w3];
    cbn [fst snd isFail failed]; [intros [=]|].
  run_call.
  destruct (env (ActionConfigInit _) w3) as [[err|] w4]; cbn [fst snd isErr failed];
    [intros [=]|].
  rewrite outcome_bind, trace_bind. run_call.
  destruct (env (HelmValues _) w4) as [[err|vals] w5]; cbn [fst snd isFail failed];
    [intros [=]|].
  unfold call. cbn [outcome trace final].
  match goal with
  | |- context [env ?o w5] => destruct (env o w5) as [[err|] w6]
  end; cbn [fst snd isErr failed outcome trace final app]; [intros [=]|].
  intros _. cbn [mc_Spec setCondition withConditions]. rewrite Hdry.
  by exists source, chart, vals.
Qed.

Lemma Update_body1_dryRun (mc : ManagedCluster) (template : ClusterTemplate)
    (ref : CrossNamespaceSourceReference) (w : W) :
  (env (GetClusterTemplate (SystemNamespace r) (mcs_Template (mc_Spec mc))) w).1 = Ok template ->
  tstc_Valid (kt_Status template) = true ->
  tstc_ChartRef (kt_Status template) = Some ref ->
  mcs_DryRun (mc_Spec mc) = true ->
  onlyStatusUpdateMayFail (trace env (ManagedClusterController1.Update_body r mc) w) = true ->
  exists source chart vals,
    outcome env (ManagedClusterController1.Update_body r mc) w =
      Done (setCondition (setCondition mc templateValid) chartValid, noRequeue, None)
    /\ trace env (ManagedClusterController1.Update_body r mc) w =
         [(GetClusterTemplate (SystemNamespace r) (mcs_Template (mc_Spec mc)), false);
          (GetHelmChart (ref_Namespace ref) (ref_Name ref), false);
          (DownloadChartFromArtifact (hc_Artifact source), false);
          (ActionConfigInit (Namespace (mc_meta mc)), false);
          (HelmValues (mcs_Config (mc_Spec mc)), false);
          (InstallRun (Name (mc_meta mc)) (Namespace (mc_meta mc)) chart vals, false)].
Proof.
  intros Hget Hvalid Href Hdry. unfold ManagedClusterController1.Update_body, getSource, validateReleaseWithValues.
  run_call.
  destruct (env (GetClusterTemplate _ _) w) as [got w1]. cbn [fst snd] in Hget |- *.
  subst got. rewrite Hvalid, Href. cbn [negb isFail failed].
  run_call.
  destruct (env (GetHelmChart _ _) w1) as [[err|source] w2]; cbn [fst snd isFail failed];
    [intros [=]|].
  run_call.
  destruct (env (DownloadChartFromArtifact _) w2) as [[err|chart] w3];
    cbn [fst snd isFail failed]; [intros [=]|].
  run_call.
  destruct (env (ActionConfigInit _) w3) as [[err|] w4]; cbn [fst snd isErr failed];
    [intros [=]|].
  rewrite outcome_bind, trace_bind. run_call.
  destruct (env (HelmValues _) w4) as [[err|vals] w5]; cbn [fst snd isFail failed];
    [intros [=]|].
  unfold call. cbn [outcome trace final].
  match goal with
  | |- context [env ?o w5] => destruct (env o w5) as [[err|] w6]
  end; cbn [fst snd isErr failed outcome trace final app]; [intros [=]|].
  intros _. cbn [mc_Spec setCondition withConditions]. rewrite Hdry.
  by exists source, chart, vals.
Qed.

Lemma dryRunPass_second : dryRunPass env (SystemNamespace r) (Update r).
Proof.
  intros mc template ref w Hfin Hdry Hget Hvalid Href.
  unfold Update, AddFinalizer, ops. rewrite Hfin.
  set (mc0 := if Nat.eqb _ 0 then _ else _).
  assert (Hsame : mc_meta mc0 = mc_meta mc /\ mc_Spec mc0 = mc_Spec mc
                  /\ mcst_Conditions (mc_Status mc0) = startingConditions mc).
  { subst mc0. unfold startingConditions. by destruct (Nat.eqb _ 0), mc. }
  destruct Hsame as (Hmeta & Hspec & Hstart).
  rewrite <- Hstart, <- Hmeta, <- Hspec. rewrite <- Hspec in Hget, Hdry.
  rewrite outcome_bind, trace_bind.
  intros Hok. apply onlyStatusUpdateMayFail_app in Hok as [Hok _].
  destruct (Update_body_dryRun mc0 template ref w Hget Hvalid Href Hdry Hok)
    as (source & chart & vals & -> & ->).
  cbn [fst snd]. rewrite outcome_bind, trace_bind.
  match goal with
  | |- context [outcome env (updateStatus ?x) ?s] =>
      destruct (updateStatus_run x s) as (mc' & e & -> & -> & Hothers)
  end.
  destruct condition_types as (Htr & Hcr & Hrr & Htc & Hrt & Hrc).
  destruct (setCondition_same (setCondition mc0 templateValid) chartValid)
    as (c2 & Hfind2 & Hstatus2 & _).
  destruct (setCondition_same mc0 templateValid) as (c1 & Hfind1 & Hstatus1 & _).
  exists mc', (errors_Join None e), source, chart, vals, c1, c2.
  split; [reflexivity|]. split; [reflexivity|].
  split. { rewrite Hothers by done. rewrite setCondition_other by done. exact Hfind1. }
  split; [exact Hstatus1|].
  split. { rewrite Hothers by done. exact Hfind2. }
  split; [exact Hstatus2|].
  rewrite Hothers by done. by rewrite !setCondition_other.
Qed.

Lemma dryRunPass_first :
  dryRunPass env (SystemNamespace r) (ManagedClusterController1.Update r).
Proof.
  intros mc template ref w Hfin Hdry Hget Hvalid Href.
  unfold ManagedClusterController1.Update, AddFinalizer, ops. rewrite Hfin.
  set (mc0 := if Nat.eqb _ 0 then _ else _).
  assert (Hsame : mc_meta mc0 = mc_meta mc /\ mc_Spec mc0 = mc_Spec mc
                  /\ mcst_Conditions (mc_Status mc0) = startingConditions mc).
  { subst mc0. unfold startingConditions. by destruct (Nat.eqb _ 0), mc. }
  destruct Hsame as (Hmeta & Hspec & Hstart).
  rewrite <- Hstart, <- Hmeta, <- Hspec. rewrite <- Hspec in Hget, Hdry.
  rewrite outcome_bind, trace_bind.
  intros Hok. apply onlyStatusUpdateMayFail_app in Hok as [Hok _].
  destruct (Update_body1_dryRun mc0 template ref w Hget Hvalid Href Hdry Hok)
    as (source & chart & vals & -> & ->).
  cbn [fst snd]. rewrite outcome_bind, trace_bind.
  match goal with
  | |- context [outcome env (updateStatus ?x) ?s] =>
      destruct (updateStatus_run x s) as (mc' & e & -> & -> & Hothers)
  end.
  destruct condition_types as (Htr & Hcr & Hrr & Htc & Hrt & Hrc).
  destruct (setCondition_same (setCondition mc0 templateValid) chartValid)
    as (c2 & Hfind2 & Hstatus2 & _).
  destruct (setCondition_same mc0 templateValid) as (c1 & Hfind1 & Hstatus1 & _).
  exists mc', (errors_Join None e), source, chart, vals, c1, c2.
  split; [reflexivity|]. split; [reflexivity|].
  split. { rewrite Hothers by done. rewrite setCondition_other by done. exact Hfind1. }
  split; [exact Hstatus1|].
  split. { rewrite Hothers by done. exact Hfind2. }
  split; [exact Hstatus2|].
  rewrite Hothers by done. by rewrite !setCondition_other.
Qed.

(** C3, amended: in both revisions of [Update], for a dry-run
    ManagedCluster that already carries its finalizer, whose template is
    valid and names a chart, and for which no call of the pass fails (the
    final write of the status apart), the pass reads the template and the
    chart, downloads it, initialises the Helm configuration, runs the
    client-only dry-run install, writes the status, and issues nothing
    else: no HelmRelease and no ClusterProfile is reconciled.
    TemplateReady and HelmChartReady end True, and HelmReleaseReady is what
    it was when the pass began (after [InitConditions] for an object
    without conditions): the pass does not set it. *)
Theorem dry_run_creates_nothing :
  dryRunPass env (SystemNamespace r) (Update r)
  /\ dryRunPass env (SystemNamespace r) (ManagedClusterController1.Update r).
Proof. split; [apply dryRunPass_second | apply dryRunPass_first]. Qed.
End UpdateFacts.

(** A ManagedCluster without its finalizer whose template is not valid:
    the pass writes the finalizer and returns no error; TemplateReady is
    not set and the template is not read. *)
Lemma fresh_cluster_only_gets_its_finalizer :
  ContainsFinalizer (mc_meta freshCluster) ManagedClusterFinalizer = false
  /\ (exists template,
        (answering clusterTemplateInvalid
           (GetClusterTemplate systemNamespace (mcs_Template (mc_Spec freshCluster))) tt).1
          = Ok template
        /\ tstc_Valid (kt_Status template) = false)
  /\ exists mc',
       outcome (answering clusterTemplateInvalid)
         (ManagedClusterController.Update clusterReconciler freshCluster) tt
         = Done (mc', noRequeue, None)
       /\ ops (answering clusterTemplateInvalid)
            (ManagedClusterController.Update clusterReconciler freshCluster) tt
          = [UpdateManagedCluster mc']
       /\ FindStatusCondition (mcst_Conditions (mc_Status mc')) TemplateReadyCondition = None.
Proof.
  split; [reflexivity|]. split; [eexists; split; reflexivity|].
  eexists. split; [reflexivity|]. split; reflexivity.
Qed.

Lemma stopped_pass_witness :
  ContainsFinalizer (mc_meta finalizedCluster) ManagedClusterFinalizer = true
  /\ tstc_Valid (kt_Status (exampleKindTemplate ClusterTemplateKind systemNamespace
                              "aws-standalone" false ["aws"])) = false
  /\ exists mc' e c written,
       outcome (answering clusterTemplateInvalid)
         (ManagedClusterController.Update clusterReconciler finalizedCluster) tt
         = Done (mc', noRequeue, Some e)
       /\ In (ErrNew "provided template is not marked as valid") (joined e)
       /\ FindStatusCondition (mcst_Conditions (mc_Status mc')) TemplateReadyCondition = Some c
       /\ cStatus c = ConditionFalse
       /\ cReason c = FailedReason
       /\ cMessage c = "provided template is not marked as valid"
       /\ trace (answering clusterTemplateInvalid)
            (ManagedClusterController.Update clusterReconciler finalizedCluster) tt =
          [(GetClusterTemplate systemNamespace "aws-standalone", false);
           (StatusUpdateManagedCluster mc', written)].
Proof.
  split; [reflexivity|]. split; [reflexivity|].
  exact (invalid_template_stops_the_pass (answering clusterTemplateInvalid) clusterReconciler
           finalizedCluster
           (exampleKindTemplate ClusterTemplateKind systemNamespace "aws-standalone" false
              ["aws"])
           tt eq_refl eq_refl eq_refl).
Defined.

(** A dry-run ManagedCluster without its finalizer, in a setting where
    every operation succeeds: in either revision the pass writes the
    finalizer and returns; it neither reads the template nor runs the
    dry-run install, and TemplateReady and HelmChartReady are not set. *)
Lemma fresh_dry_run_cluster_only_gets_its_finalizer :
  mcs_DryRun (mc_Spec freshDryRunCluster) = true
  /\ (exists mc',
        outcome (answering nominal)
          (ManagedClusterController.Update clusterReconciler freshDryRunCluster) tt
          = Done (mc', noRequeue, None)
        /\ trace (answering nominal)
             (ManagedClusterController.Update clusterReconciler freshDryRunCluster) tt
           = [(UpdateManagedCluster mc', false)]
        /\ FindStatusCondition (mcst_Conditions (mc_Status mc')) TemplateReadyCondition = None
        /\ FindStatusCondition (mcst_Conditions (mc_Status mc')) HelmChartReadyCondition = None)
  /\ (exists mc',
        outcome (answering nominal)
          (ManagedClusterController1.Update clusterReconciler freshDryRunCluster) tt
          = Done (mc', noRequeue, None)
        /\ trace (answering nominal)
             (ManagedClusterController1.Update clusterReconciler freshDryRunCluster) tt
           = [(UpdateManagedCluster mc', false)]
        /\ FindStatusCondition (mcst_Conditions (mc_Status mc')) TemplateReadyCondition = None
        /\ FindStatusCondition (mcst_Conditions (mc_Status mc')) HelmChartReadyCondition = None).
Proof.
  split; [reflexivity|].
  split; (eexists; split; [reflexivity|]; split; [reflexivity|]; split; reflexivity).
Qed.

Lemma dry_run_witness :
  ContainsFinalizer (mc_meta dryRunCluster) ManagedClusterFinalizer = true
  /\ mcs_DryRun (mc_Spec dryRunCluster) = true
  /\ onlyStatusUpdateMayFail
       (trace (answering nominal)
          (ManagedClusterController.Update clusterReconciler dryRunCluster) tt) = true
  /\ exists mc' e source chart vals ready1 ready2,
       outcome (answering nominal)
         (ManagedClusterController.Update clusterReconciler dryRunCluster) tt
         = Done (mc', noRequeue, e)
       /\ ops (answering nominal)
            (ManagedClusterController.Update clusterReconciler dryRunCluster) tt =
          [GetClusterTemplate systemNamespace "aws-standalone";
           GetHelmChart systemNamespace "aws-standalone";
           DownloadChartFromArtifact (hc_Artifact source);
           ActionConfigInit "default";
           HelmValues None;
           InstallRun "dev" "default" chart vals;
           StatusUpdateManagedCluster mc']
       /\ FindStatusCondition (mcst_Conditions (mc_Status mc')) TemplateReadyCondition
            = Some ready1
       /\ cStatus ready1 = ConditionTrue
       /\ FindStatusCondition (mcst_Conditions (mc_Status mc')) HelmChartReadyCondition
            = Some ready2
       /\ cStatus ready2 = ConditionTrue
       /\ FindStatusCondition (mcst_Conditions (mc_Status mc')) HelmReleaseReadyCondition
            = None.
Proof.
  split; [reflexivity|]. split; [reflexivity|]. split; [reflexivity|].
  exact (proj1 (dry_run_creates_nothing (answering nominal) clusterReconciler)
           dryRunCluster
           (exampleKindTemplate ClusterTemplateKind systemNamespace "aws-standalone" true
              ["aws"])
           (exampleChartRef systemNamespace "aws-standalone")
           tt eq_refl eq_refl eq_refl eq_refl eq_refl eq_refl).
Defined.

(** ** The services of a ManagedCluster *)

Section ServicesFacts.
Import ManagedClusterController.
Context {api : API} {W : Type} (env : @Env W).

Lemma getServiceTemplateRepoURL_ops (tmpl : ServiceTemplate) (w : W) :
  forallb (fun ev => negb (isReconcileClusterProfile ev.1))
    (trace env (getServiceTemplateRepoURL tmpl) w) = true.
Proof.
  unfold getServiceTemplateRepoURL.
  destruct (tstc_ChartRef (kt_Status tmpl)) as [chartRef|]; [|reflexivity].
  run_call. destruct (env (GetHelmChart _ _) w) as [[err|chart] w1]; [reflexivity|].
  cbn [fst snd]. run_call.
  by destruct (env (GetHelmRepository _ _) w1) as [[err|repo] w2].
Qed.

Lemma getServiceTemplateRepoURL_returns (tmpl : ServiceTemplate) (w : W) :
  exists res, outcome env (getServiceTemplateRepoURL tmpl) w = Done res.
Proof.
  unfold getServiceTemplateRepoURL.
  destruct (tstc_ChartRef (kt_Status tmpl)) as [chartRef|]; [|by eexists].
  run_call. destruct (env (GetHelmChart _ _) w) as [[err|chart] w1]; [by eexists|].
  cbn [fst snd]. run_call.
  destruct (env (GetHelmRepository _ _) w1) as [[err|repo] w2]; by eexists.
Qed.

(** The loop reads templates, charts and repositories only. *)
Lemma collectServices_ops (mc : ManagedCluster) (services : list ManagedClusterServiceSpec) :
  forall (opts : list HelmChartOpts) (w : W),
    forallb (fun ev => negb (isReconcileClusterProfile ev.1))
      (trace env (collectServices mc services opts) w) = true.
Proof.
  induction services as [|svc rest IH]; intros opts w; [reflexivity|].
  cbn [collectServices]. destruct (svc_Install svc); cbn [negb]; [|apply IH].
  run_call. destruct (env (GetServiceTemplate _ _) w) as [[err|tmpl] w1]; [reflexivity|].
  cbn [fst snd forallb isReconcileClusterProfile negb andb].
  rewrite trace_bind, forallb_app, getServiceTemplateRepoURL_ops. cbn [andb].
  destruct (outcome env (getServiceTemplateRepoURL tmpl) w1) as [[err|url]|];
    [reflexivity|apply IH|reflexivity].
Qed.

(** The loop stops at a service that cannot be resolved: it returns an
    error, and what it does is what it does on the list cut after that
    service. *)
Lemma collectServices_aborts (mc : ManagedCluster) (svc : ManagedClusterServiceSpec)
    (post : list ManagedClusterServiceSpec) :
  svc_Install svc = true ->
  serviceUnresolvable env (Namespace (mc_meta mc)) svc ->
  forall (pre : list ManagedClusterServiceSpec) (opts : list HelmChartOpts) (w : W),
    (exists e, outcome env (collectServices mc (pre ++ svc :: post) opts) w = Done (Fail e))
    /\ trace env (collectServices mc (pre ++ svc :: post) opts) w
       = trace env (collectServices mc (pre ++ [svc]) opts) w
    /\ final env (collectServices mc (pre ++ svc :: post) opts) w
       = final env (collectServices mc (pre ++ [svc]) opts) w.
Proof.
  intros Hinstall Hbad pre.
  induction pre as [|svc0 pre IH]; intros opts w.
  - cbn [app collectServices]. rewrite Hinstall. cbn [negb]. run_call.
    specialize (Hbad w).
    destruct (env (GetServiceTemplate _ _) w) as [[err|tmpl] w1]; cbn [fst snd].
    + split; [by eexists|]. by split.
    + destruct Hbad as [err Herr].
      rewrite !outcome_bind, !trace_bind, !final_bind, Herr.
      split; [by eexists|]. by split.
  - cbn [app collectServices]. destruct (svc_Install svc0); cbn [negb]; [|apply IH].
    run_call.
    destruct (env (GetServiceTemplate _ _) w) as [[err|tmpl] w1]; cbn [fst snd].
    + split; [by eexists|]. by split.
    + rewrite !outcome_bind, !trace_bind, !final_bind.
      destruct (getServiceTemplateRepoURL_returns tmpl w1) as [[err|url] ->].
      * split; [by eexists|]. by split.
      * cbv beta match.
        match goal with
        | |- context [collectServices mc (pre ++ svc :: post) ?o] =>
            destruct (IH o (final env (getServiceTemplateRepoURL tmpl) w1))
              as ([e He] & Htrace & Hfinal)
        end.
        split; [exists e; exact He|]. split; [|exact Hfinal].
        f_equal. f_equal. exact Htrace.
Qed.

(** C4, amended: in the services pass of the second revision
    ([updateServices]), when a service with install=true cannot be
    resolved (its ServiceTemplate cannot be fetched, or the lookup of the
    repository URL through the chart and the repository fails), the pass
    returns an error and no requeue, it never reconciles the
    ClusterProfile, and the operations it issues are those of the loop over
    the services up to that one: nothing is done for the services after
    it. *)
Theorem unresolvable_service_aborts (mc : ManagedCluster)
    (pre post : list ManagedClusterServiceSpec) (svc : ManagedClusterServiceSpec) (w : W) :
  mcs_Services (mc_Spec mc) = pre ++ svc :: post ->
  svc_Install svc = true ->
  serviceUnresolvable env (Namespace (mc_meta mc)) svc ->
  exists e,
    outcome env (updateServices mc) w = Done (noRequeue, Some e)
    /\ forallb (fun ev => negb (isReconcileClusterProfile ev.1))
         (trace env (updateServices mc) w) = true
    /\ trace env (updateServices mc) w = trace env (collectServices mc (pre ++ [svc]) []) w.
Proof.
  intros Hservices Hinstall Hbad. unfold updateServices. rewrite Hservices.
  destruct (collectServices_aborts mc svc post Hinstall Hbad pre [] w)
    as ([e He] & Htrace & _).
  exists e. rewrite outcome_bind, trace_bind, He. cbn [outcome trace].
  rewrite app_nil_r. split; [reflexivity|]. split; [apply collectServices_ops|exact Htrace].
Qed.
End ServicesFacts.

(** Three services, the second of which cannot be resolved: the pass of
    the second revision stops there. *)
Lemma unresolvable_service_witness :
  mcs_Services (mc_Spec clusterWithServices)
    = [exampleService "ingress"] ++ exampleService "missing" :: [exampleService "kyverno"]
  /\ svc_Install (exampleService "missing") = true
  /\ serviceUnresolvable (answering serviceTemplateMissing) "default" (exampleService "missing")
  /\ exists e,
       outcome (answering serviceTemplateMissing)
         (ManagedClusterController.updateServices clusterWithServices) tt
         = Done (noRequeue, Some e)
       /\ forallb (fun ev => negb (isReconcileClusterProfile ev.1))
            (trace (answering serviceTemplateMissing)
               (ManagedClusterController.updateServices clusterWithServices) tt) = true
       /\ trace (answering serviceTemplateMissing)
            (ManagedClusterController.updateServices clusterWithServices) tt
          = trace (answering serviceTemplateMissing)
              (ManagedClusterController.collectServices clusterWithServices
                 ([exampleService "ingress"] ++ [exampleService "missing"]) []) tt.
Proof.
  assert (Hbad : serviceUnresolvable (answering serviceTemplateMissing) "default"
                   (exampleService "missing")).
  { intros w. vm_compute. exact I. }
  split; [reflexivity|]. split; [reflexivity|]. split; [exact Hbad|].
  exact (unresolvable_service_aborts (answering serviceTemplateMissing) clusterWithServices
           [exampleService "ingress"] [exampleService "kyverno"] (exampleService "missing") tt
           eq_refl eq_refl Hbad).
Defined.

(** The same services, with their configuration and values given, in the
    first revision of [Update]: the failed lookup of the second service is
    skipped, the template of the third is still read, the ClusterProfile is
    reconciled with the two services that resolved, and the pass returns no
    error. *)
Lemma first_revision_skips_the_unresolvable_service :
  svc_Install (configuredService "missing") = true
  /\ (answering serviceTemplateMissing (GetServiceTemplate systemNamespace "missing") tt).1
       = Fail (notFound "servicetemplate")
  /\ exists mc' opts,
       outcome (answering serviceTemplateMissing)
         (ManagedClusterController1.Update clusterReconciler clusterWithConfiguredServices) tt
         = Done (mc', noRequeue, None)
       /\ List.filter (fun ev => isServiceOp ev.1)
            (trace (answering serviceTemplateMissing)
               (ManagedClusterController1.Update clusterReconciler
                  clusterWithConfiguredServices) tt)
          = [(GetServiceTemplate systemNamespace "ingress", false);
             (GetServiceTemplate systemNamespace "missing", true);
             (GetServiceTemplate systemNamespace "kyverno", false);
             (ReconcileClusterProfile1 "dev" "default" opts, false)]
       /\ List.map hco_ChartName (rcp_HelmChartOpts opts) = ["ingress"; "kyverno"].
Proof.
  split; [reflexivity|]. split; [reflexivity|].
  eexists. eexists. split; [reflexivity|]. split; [vm_compute; reflexivity|reflexivity].
Qed.

(** Without configuration or values the first revision does not get that
    far: the print after the first resolved service dereferences a nil
    pointer, and the pass panics with the status written on the way out. *)
Lemma first_revision_panics_on_a_service_without_values :
  outcome (answering serviceTemplateMissing)
    (ManagedClusterController1.Update clusterReconciler clusterWithServices) tt = Panicked
  /\ List.filter (fun ev => isServiceOp ev.1)
       (trace (answering serviceTemplateMissing)
          (ManagedClusterController1.Update clusterReconciler clusterWithServices) tt)
     = [(GetServiceTemplate systemNamespace "ingress", false)].
Proof. split; [reflexivity | vm_compute; reflexivity]. Qed.

(** ** Templates: the type of a chart *)

Section TemplateFacts.
Import TemplateController1.
Context {api : API} {W : Type} (env : @Env W).

Lemma parseChartMetadata_rejects (template : Template) (chart : Chart)
    (metadata : ChartMetadata) :
  ts_Type (t_Spec template) = EmptyString ->
  ch_Metadata chart = Some metadata ->
  recognisedType (annotation (md_Annotations metadata) ChartAnnotationType) = false ->
  parseChartMetadata template chart = (template, Some errNoProviderType).
Proof.
  intros Htype Hmeta Hunknown. unfold parseChartMetadata.
  rewrite Hmeta, Htype. cbn [String.eqb].
  unfold recognisedType in Hunknown. by rewrite Hunknown.
Qed.

Lemma errNoProviderType_message :
  Error errNoProviderType =
    "template type is not supported: " +:+ ChartAnnotationType
    +:+ " chart annotation must be one of [" +:+ TemplateTypeDeployment +:+ "/"
    +:+ TemplateTypeProvider +:+ "/" +:+ TemplateTypeCore +:+ "]".
Proof. reflexivity. Qed.

Lemma template_updateStatus_run (template : Template) (msg : string) (w : W) :
  exists written e,
    outcome env (updateStatus template msg) w = Done (written, e)
    /\ trace env (updateStatus template msg) w
       = [(StatusUpdateTemplate written, isErr e)]
    /\ tst_Valid (t_Status written) = String.eqb msg EmptyString
    /\ tst_ValidationError (t_Status written) = msg.
Proof.
  unfold updateStatus. run_call.
  destruct (env (StatusUpdateTemplate _) w) as [[err|] w1]; cbn [fst snd];
    eexists; eexists; (split; [reflexivity|]); (split; [reflexivity|]); by split.
Qed.

(** C8, amended: in the controller of the single [Template] kind, when the
    template is found with no type in its spec, its chart is found, ready
    and downloaded, and the type annotation of the chart is none of
    deployment, provider and core, [Reconcile] returns the fixed error
    (template type is not supported, with the name of the annotation and
    the three kinds), and the last operation it issues is the write of the
    status with valid=false and the text of that error as validationError;
    the result of that write is ignored. *)
Theorem unsupported_type_is_rejected (namespace name : string) (template : Template)
    (hcChart : HelmChart) (helmChart : Chart) (metadata : ChartMetadata) (w : W) :
  let w1 := (env (GetTemplate namespace name) w).2 in
  let w2 := final env (helmChartOf template) w1 in
  let w3 := (env (ArtifactReady hcChart) w2).2 in
  (env (GetTemplate namespace name) w).1 = Ok template ->
  ts_Type (t_Spec template) = EmptyString ->
  outcome env (helmChartOf template) w1 = Done (Ok (Some hcChart)) ->
  (env (ArtifactReady hcChart) w2).1.2 = None ->
  (env (DownloadChartFromArtifact (hc_Artifact hcChart)) w3).1 = Ok helmChart ->
  ch_Metadata helmChart = Some metadata ->
  recognisedType (annotation (md_Annotations metadata) ChartAnnotationType) = false ->
  exists written,
    outcome env (Reconcile namespace name) w = Done (noRequeue, Some errNoProviderType)
    /\ Error errNoProviderType =
         "template type is not supported: " +:+ ChartAnnotationType
         +:+ " chart annotation must be one of [" +:+ TemplateTypeDeployment +:+ "/"
         +:+ TemplateTypeProvider +:+ "/" +:+ TemplateTypeCore +:+ "]"
    /\ ops env (Reconcile namespace name) w =
         GetTemplate namespace name :: ops env (helmChartOf template) w1
         ++ [ArtifactReady hcChart; DownloadChartFromArtifact (hc_Artifact hcChart);
             StatusUpdateTemplate written]
    /\ tst_Valid (t_Status written) = false
    /\ tst_ValidationError (t_Status written) = Error errNoProviderType.
Proof.
  intros w1 w2 w3 Hget Htype Hchart Hready Hdownload Hmeta Hunknown.
  unfold Reconcile, ops. run_call. fold w1. rewrite Hget.
  rewrite outcome_bind, trace_bind, Hchart. fold w2.
  unfold validate. run_call. fold w3.
  destruct (env (ArtifactReady hcChart) w2).1 as [reportStatus err] eqn:Hanswer.
  cbn [snd] in Hready. subst err. run_call. rewrite Hdownload.
  rewrite (parseChartMetadata_rejects (withChartRef template hcChart) helmChart metadata
             Htype Hmeta Hunknown).
  rewrite outcome_bind, trace_bind.
  destruct (template_updateStatus_run (withChartRef template hcChart)
              (Error errNoProviderType)
              (env (DownloadChartFromArtifact (hc_Artifact hcChart)) w3).2)
    as (written & e & -> & -> & Hvalid & Hmessage).
  exists written. split; [reflexivity|]. split; [reflexivity|].
  split; [|by split].
  cbn [List.map fst]. rewrite List.map_app. reflexivity.
Qed.
End TemplateFacts.

(** The chart of the template p1 carries the type annotation addon. *)
Lemma unsupported_type_witness :
  ts_Type (t_Spec (exampleTemplate systemNamespace "p1" true EmptyString)) = EmptyString
  /\ recognisedType "addon" = false
  /\ exists written,
       outcome (answering chartOfUnknownType)
         (TemplateController1.Reconcile systemNamespace "p1") tt
         = Done (noRequeue, Some TemplateController1.errNoProviderType)
       /\ Error TemplateController1.errNoProviderType =
            "template type is not supported: hmc.mirantis.com/type chart annotation must be one of [deployment/provider/core]"
       /\ ops (answering chartOfUnknownType)
            (TemplateController1.Reconcile systemNamespace "p1") tt =
          GetTemplate systemNamespace "p1"
          :: ops (answering chartOfUnknownType)
               (TemplateController1.helmChartOf
                  (exampleTemplate systemNamespace "p1" true EmptyString)) tt
          ++ [ArtifactReady (exampleHelmChart systemNamespace "p1");
              DownloadChartFromArtifact (hc_Artifact (exampleHelmChart systemNamespace "p1"));
              StatusUpdateTemplate written]
       /\ tst_Valid (t_Status written) = false
       /\ tst_ValidationError (t_Status written) = Error TemplateController1.errNoProviderType.
Proof.
  split; [reflexivity|]. split; [reflexivity|].
  exact (unsupported_type_is_rejected (answering chartOfUnknownType) systemNamespace "p1"
           (exampleTemplate systemNamespace "p1" true EmptyString)
           (exampleHelmChart systemNamespace "p1")
           (exampleChart "addon")
           {| md_Description := "an example chart";
              md_Annotations := {[ "hmc.mirantis.com/type" := "addon" ]} |}
           tt eq_refl eq_refl eq_refl eq_refl eq_refl eq_refl eq_refl).
Defined.

(** The same chart under the controller of the three template kinds
    (template_controller.go): [parseChartMetadata] does not look at the
    type annotation, the pass returns no error and the status is written
    with valid=true and no validation error. *)
Lemma three_kinds_accept_any_type :
  recognisedType "addon" = false
  /\ (answering chartOfUnknownType
        (DownloadChartFromArtifact (hc_Artifact (exampleHelmChart systemNamespace "p1"))) tt).1
       = Ok (exampleChart "addon")
  /\ annotation (md_Annotations
                   {| md_Description := "an example chart";
                      md_Annotations := {[ "hmc.mirantis.com/type" := "addon" ]} |})
       ChartAnnotationType = "addon"
  /\ exists written,
       outcome (answering chartOfUnknownType)
         (TemplateController.ReconcileTemplate templateReconciler
            (exampleKindTemplate ProviderTemplateKind systemNamespace "p1" false [])) tt
         = Done (noRequeue, None)
       /\ last (ops (answering chartOfUnknownType)
                  (TemplateController.ReconcileTemplate templateReconciler
                     (exampleKindTemplate ProviderTemplateKind systemNamespace "p1" false [])) tt)
          = Some (StatusUpdateKindTemplate written)
       /\ tstc_Valid (kt_Status written) = true
       /\ tstc_ValidationError (kt_Status written) = EmptyString.
Proof.
  split; [reflexivity|]. split; [reflexivity|]. split; [reflexivity|].
  eexists. split; [reflexivity|]. split; [vm_compute; reflexivity|]. split; reflexivity.
Qed.

(** ** The validator of the end-to-end tests *)

Section ValidatorFacts.
Import ProviderValidator.
Context {W : Type} (run : resourceValidationFunc -> string -> W -> option error * W).

Lemma removelast_cons {A} (x : A) (l : list A) :
  l <> [] -> removelast (x :: l) = x :: removelast l.
Proof. by destruct l. Qed.

Lemma in_or_not (k : string) (l : list string) : In k l \/ ~ In k l.
Proof. destruct (in_dec (fun a b : string => decide (a = b)) k l); auto. Qed.

(** The loop, one name at a time. *)
Lemma validateEach_absent (cluster name : string) (rest : list string)
    (resources : gmap string resourceValidationFunc) (w : W) :
  resources !! name = None ->
  validateEach run cluster (name :: rest) resources w = validateEach run cluster rest resources w.
Proof. intros H. simpl. by rewrite H. Qed.

Lemma validateEach_spec (cluster : string) (order : list string) :
  forall (resources : gmap string resourceValidationFunc) (w : W),
    let v := validateEach run cluster order resources w in
    (forall k, In k (passed v) -> remaining v !! k = None)
    /\ (forall k, ~ In k (passed v) -> remaining v !! k = resources !! k)
    /\ (returned v = None -> forall k, In k order -> remaining v !! k = None)
    /\ (forall e, returned v = Some e ->
          exists name validator w0,
            called v = passed v ++ [name] /\ remaining v !! name = Some validator
            /\ In name order /\ (run validator cluster w0).1 = Some e)
    /\ (forall k, In k (called v) -> In k order /\ resources !! k <> None).
Proof.
  induction order as [|name rest IH]; intros resources w v.
  { subst v. simpl. repeat split; try done. }
  destruct (resources !! name) as [validator|] eqn:Hname.
  2:{ subst v. rewrite (validateEach_absent _ _ _ _ _ Hname).
      destruct (IH resources w) as (H1 & H2 & H3 & H4 & H5).
      split; [exact H1|]. split; [exact H2|]. split.
      - intros Hnil k [<-|Hin]; [|by apply H3].
        destruct (in_or_not name (passed (validateEach run cluster rest resources w)))
          as [Hk|Hk].
        + by apply H1.
        + by rewrite (H2 _ Hk).
      - split.
        + intros e He. destruct (H4 e He) as (n & f & w0 & Hc & Hr & Hin & Hrun).
          exists n, f, w0. repeat split; try done. by right.
        + intros k Hk. destruct (H5 k Hk). split; [by right|done]. }
  subst v. simpl. rewrite Hname.
  destruct (run validator cluster w) as [[err|] w1] eqn:Hrun.
  - simpl. unfold passed. simpl. repeat split; try done.
    + intros e [= <-]. exists name, validator, w. rewrite Hrun.
      repeat split; try done. by left.
    + destruct H as [<-|[]]. by left.
    + destruct H as [<-|[]]. by rewrite Hname.
  - destruct (IH (delete name resources) w1) as (H1 & H2 & H3 & H4 & H5).
    set (after := validateEach run cluster rest (delete name resources) w1) in *.
    assert (Hpassed : passed {| remaining := remaining after; returned := returned after;
                                called := name :: called after; world := world after |}
                      = name :: passed after).
    { unfold passed. simpl. destruct (returned after) as [e|] eqn:He; [|done].
      destruct (H4 e eq_refl) as (n & f & w0 & Hc & _).
      apply removelast_cons. rewrite Hc. by destruct (passed after). }
    rewrite Hpassed. cbn [remaining returned called].
    split; [|split; [|split; [|split]]].
    + intros k [<-|Hin].
      * destruct (in_or_not name (passed after)) as [Hk|Hk]; [by apply H1|].
        rewrite (H2 _ Hk). apply lookup_delete_eq.
      * by apply H1.
    + intros k Hk. rewrite H2 by (intros ?; apply Hk; by right).
      apply lookup_delete_ne. intros <-. apply Hk. by left.
    + intros Hnil k [<-|Hin]; [|by apply H3].
      destruct (in_or_not name (passed after)) as [Hk|Hk]; [by apply H1|].
      rewrite (H2 _ Hk). apply lookup_delete_eq.
    + intros e He. destruct (H4 e He) as (n & f & w0 & Hc & Hr & Hin & Hfails).
      exists n, f, w0. rewrite Hc. repeat split; try done. by right.
    + intros k [<-|Hk]; [split; [by left|by rewrite Hname]|].
      destruct (H5 k Hk) as [Hin Hsome]. split; [by right|].
      intros Hnone. apply Hsome.
      destruct (decide (name = k)) as [->|Hne]; [apply lookup_delete_eq|].
      by rewrite lookup_delete_ne.
Qed.

Lemma validateEach_idle (cluster : string) (order : list string)
    (resources : gmap string resourceValidationFunc) (w : W) :
  (forall k, In k order -> resources !! k = None) ->
  validateEach run cluster order resources w =
    {| remaining := resources; returned := None; called := []; world := w |}.
Proof.
  induction order as [|name rest IH]; intros Hnone; [reflexivity|].
  rewrite validateEach_absent by (apply Hnone; by left).
  apply IH. intros k Hk. apply Hnone. by right.
Qed.

(** What one call of [Validate] has validated stays validated: a name whose
    validation succeeded is taken out of the map and the next call does not
    call its function again, every other entry of the map is kept, and after
    a call that returned nil the next call calls nothing and returns nil. *)
Theorem validated_resources_are_not_validated_again (p : ProviderValidator) (w w' : W) :
  let v := Validate run p w in
  let again := Validate run (validatorAfter p v) w' in
  (forall name, In name (passed v) ->
     remaining v !! name = None /\ ~ In name (called again))
  /\ (forall name, ~ In name (passed v) ->
       remaining v !! name = resourcesToValidate p !! name)
  /\ (returned v = None ->
       again = {| remaining := remaining v; returned := None; called := []; world := w' |}).
Proof.
  intros v again. subst v again. unfold Validate. cbn [validatorAfter clusterName
    resourceOrder resourcesToValidate].
  destruct (validateEach_spec (clusterName p) (resourceOrder p) (resourcesToValidate p) w)
    as (H1 & H2 & H3 & _ & _).
  split; [|split; [exact H2|]].
  - intros name Hname. split; [by apply H1|]. intros Hcalled.
    match type of Hcalled with
    | In _ (called (validateEach _ ?c ?o ?m ?s)) =>
        destruct (validateEach_spec c o m s) as (_ & _ & _ & _ & H5)
    end.
    destruct (H5 name Hcalled) as [_ Hsome]. apply Hsome. by apply H1.
  - intros Hnil. apply validateEach_idle. by apply H3.
Qed.

(** A call of [Validate] that returns an error has stopped at the function
    that returned it: that function is the last one called, its name is in
    the order and still in the map with the same function, and the names
    called before it are the ones that passed. *)
Theorem validate_stops_at_the_first_error (p : ProviderValidator) (w : W) (e : error) :
  let v := Validate run p w in
  returned v = Some e ->
  exists name validator w0,
    called v = passed v ++ [name]
    /\ In name (resourceOrder p)
    /\ resourcesToValidate p !! name = Some validator
    /\ remaining v !! name = Some validator
    /\ (run validator (clusterName p) w0).1 = Some e.
Proof.
  intros v He. subst v. unfold Validate in *.
  destruct (validateEach_spec (clusterName p) (resourceOrder p) (resourcesToValidate p) w)
    as (H1 & H2 & _ & H4 & _).
  destruct (H4 e He) as (name & validator & w0 & Hc & Hr & Hin & Hrun).
  exists name, validator, w0. repeat split; try done.
  rewrite <- H2; [done|]. intros Hpassed. rewrite (H1 _ Hpassed) in Hr. discriminate.
Qed.
End ValidatorFacts.

Lemma validate_stops_witness :
  ProviderValidator.returned
    (ProviderValidator.Validate machinesReadyAtThird
       (ProviderValidator.NewProviderValidator "aws-standalone-cp" "dev" "deploy") 0%nat)
  = Some (ErrNew "machines are not ready")
  /\ exists name validator w0,
       ProviderValidator.called
         (ProviderValidator.Validate machinesReadyAtThird
            (ProviderValidator.NewProviderValidator "aws-standalone-cp" "dev" "deploy") 0%nat)
       = passed (ProviderValidator.Validate machinesReadyAtThird
                   (ProviderValidator.NewProviderValidator "aws-standalone-cp" "dev" "deploy") 0%nat)
         ++ [name]
       /\ In name ["clusters"; "machines"; "control-planes"; "csi-driver"; "ccm"]
       /\ ProviderValidator.resourcesToValidate
            (ProviderValidator.NewProviderValidator "aws-standalone-cp" "dev" "deploy") !! name
          = Some validator
       /\ ProviderValidator.remaining
            (ProviderValidator.Validate machinesReadyAtThird
               (ProviderValidator.NewProviderValidator "aws-standalone-cp" "dev" "deploy") 0%nat)
          !! name = Some validator
       /\ (machinesReadyAtThird validator "dev" w0).1 = Some (ErrNew "machines are not ready").
Proof.
  split; [reflexivity|].
  exact (validate_stops_at_the_first_error machinesReadyAtThird
           (ProviderValidator.NewProviderValidator "aws-standalone-cp" "dev" "deploy") 0%nat
           (ErrNew "machines are not ready") eq_refl).
Defined.

Section NewValidatorFacts.
Import ProviderValidator.
Context {templates : Templates} {W : Type}
  (run : resourceValidationFunc -> string -> W -> option error * W).

Lemma adopted_is_no_other_template :
  String.eqb TemplateAdoptedCluster TemplateAWSStandaloneCP = false
  /\ String.eqb TemplateAdoptedCluster TemplateAWSHostedCP = false
  /\ String.eqb TemplateAdoptedCluster TemplateAWSEKS = false
  /\ String.eqb TemplateAdoptedCluster TemplateAzureStandaloneCP = false
  /\ String.eqb TemplateAdoptedCluster TemplateAzureHostedCP = false
  /\ String.eqb TemplateAdoptedCluster TemplateVSphereStandaloneCP = false.
Proof.
  pose proof templates_distinct as H.
  repeat (apply NoDup_cons in H as [?%not_elem_of_cons H]).
  rewrite !String.eqb_neq. repeat split; intros E; rewrite <- E in *;
    repeat match goal with
           | H : _ /\ _ |- _ => destruct H
           | H : _ ∉ _ :: _ |- _ => apply not_elem_of_cons in H
           end; congruence.
Qed.

(** Every resource the new validator is to validate has its name in the
    order, but for the adopted cluster on deployment. *)
Lemma NewProviderValidator_keys (template cluster action name : string)
    (validator : resourceValidationFunc) :
  (action = ValidationActionDeploy -> template <> TemplateAdoptedCluster) ->
  resourcesToValidate (NewProviderValidator template cluster action) !! name = Some validator ->
  In name (resourceOrder (NewProviderValidator template cluster action)).
Proof.
  intros Hadopted. unfold NewProviderValidator.
  destruct (String.eqb action ValidationActionDeploy) eqn:Haction.
  - apply String.eqb_eq in Haction. specialize (Hadopted Haction).
    apply String.eqb_neq in Hadopted. rewrite Hadopted.
    destruct (String.eqb template TemplateAWSStandaloneCP
              || String.eqb template TemplateAWSHostedCP);
      [|destruct (String.eqb template TemplateAWSEKS);
        [|destruct (String.eqb template TemplateAzureStandaloneCP
                    || String.eqb template TemplateAzureHostedCP
                    || String.eqb template TemplateVSphereStandaloneCP)]];
      cbn [resourcesToValidate resourceOrder app];
      rewrite ?lookup_delete_Some, ?lookup_insert_Some, ?lookup_empty;
      rewrite ?lookup_insert_Some, ?lookup_empty; simpl;
      intuition (subst; try discriminate; auto 10).
  - destruct (String.eqb template TemplateAWSEKS);
      cbn [resourcesToValidate resourceOrder app];
      rewrite ?lookup_insert_Some, ?lookup_empty; simpl;
      intuition (subst; try discriminate; auto 10).
Qed.

(** For the adopted-cluster template on deployment the only validation
    function, that of the sveltoscluster resource, is under a name that the
    order does not list: [Validate] calls nothing, returns nil and leaves
    the entry in the map. *)
Theorem adopted_cluster_is_never_validated (cluster : string) (w : W) :
  Validate run (NewProviderValidator TemplateAdoptedCluster cluster ValidationActionDeploy) w
  = {| remaining := <["sveltoscluster" := validateSveltosCluster]> ∅;
       returned := None; called := []; world := w |}.
Proof.
  destruct adopted_is_no_other_template as (H1 & H2 & H3 & H4 & H5 & H6).
  unfold Validate, NewProviderValidator.
  rewrite H1, H2, H3, H4, H5, H6, !String.eqb_refl. cbn [orb].
  cbn [clusterName resourceOrder resourcesToValidate].
  apply validateEach_idle. intros k Hk.
  apply lookup_insert_None. split; [apply lookup_empty|].
  simpl in Hk. intros <-. intuition discriminate.
Qed.

(** For every other template and action, a call of [Validate] that returns
    nil leaves nothing to validate: every function of the new validator has
    been called and has passed. *)
Theorem nil_validation_is_complete (template cluster action : string) (w : W) :
  (action = ValidationActionDeploy -> template <> TemplateAdoptedCluster) ->
  let p := NewProviderValidator template cluster action in
  returned (Validate run p w) = None ->
  remaining (Validate run p w) = ∅
  /\ (forall name validator,
        resourcesToValidate p !! name = Some validator -> In name (called (Validate run p w))).
Proof.
  intros Hadopted p Hnil. unfold Validate in *.
  destruct (validateEach_spec run (clusterName p) (resourceOrder p) (resourcesToValidate p) w)
    as (H1 & H2 & H3 & _ & _).
  assert (Hgone : forall k, remaining (validateEach run (clusterName p) (resourceOrder p)
                                         (resourcesToValidate p) w) !! k = None).
  { intros k.
    destruct (in_or_not k (passed (validateEach run (clusterName p) (resourceOrder p)
                                     (resourcesToValidate p) w))) as [Hk|Hk];
      [by apply H1|].
    destruct (resourcesToValidate p !! k) as [f|] eqn:Hf; [|by rewrite (H2 _ Hk)].
    apply (H3 Hnil). by apply (NewProviderValidator_keys template cluster action k f). }
  split; [by apply map_empty|].
  intros name validator Hname.
  destruct (in_or_not name (passed (validateEach run (clusterName p) (resourceOrder p)
                                      (resourcesToValidate p) w))) as [Hk|Hk].
  - unfold passed in Hk. by rewrite Hnil in Hk.
  - rewrite <- (H2 _ Hk), Hgone in Hname. discriminate.
Qed.
End NewValidatorFacts.

Lemma nil_validation_witness :
  ProviderValidator.returned
    (ProviderValidator.Validate machinesReadyAtThird
       (ProviderValidator.NewProviderValidator "azure-hosted-cp" "dev" "deploy") 2%nat) = None
  /\ ProviderValidator.remaining
       (ProviderValidator.Validate machinesReadyAtThird
          (ProviderValidator.NewProviderValidator "azure-hosted-cp" "dev" "deploy") 2%nat) = ∅
  /\ ProviderValidator.called
       (ProviderValidator.Validate machinesReadyAtThird
          (ProviderValidator.NewProviderValidator "azure-hosted-cp" "dev" "deploy") 2%nat)
     = ["clusters"; "machines"; "control-planes"].
Proof.
  split; [reflexivity|]. split; [|reflexivity].
  exact (proj1 (nil_validation_is_complete machinesReadyAtThird "azure-hosted-cp" "dev" "deploy"
                  2%nat ltac:(intros _; by apply String.eqb_neq) eq_refl)).
Defined.

(** ** Management: the additional components and the result of a pass *)

Section ManagementMoreFacts.
Import ManagementController.
Context {api : API} {W : Type} (env : @Env W) (r : ManagementReconciler).

Lemma subConfig_cases (config : gmap string JValue) (key : string) :
  (isObjectOrNull (config !! key) = true /\ subConfig config key = Ret (subObject config key))
  \/ (isObjectOrNull (config !! key) = false /\ subConfig config key = Panic).
Proof.
  unfold subConfig, subObject, isObjectOrNull.
  destruct (config !! key) as [[]|]; auto.
Qed.

(** What [enableAdditionalComponents] does once the configuration is
    decoded and its two sections are objects. *)
Lemma enableAdditionalComponents_decoded (mgmt : Management) (core : Core)
    (config : gmap string JValue) (w : W) :
  ms_Core (m_Spec mgmt) = Some core ->
  decodedConfig env core w = Ok config ->
  isObjectOrNull (config !! "admissionWebhook") = true ->
  isObjectOrNull (config !! "cluster-api-operator") = true ->
  let decode := match comp_Config (HMC core) with
                | Some cfg => [(JSONUnmarshal (Raw cfg), false)]
                | None => []
                end in
  let w1 := match comp_Config (HMC core) with
            | Some cfg => (env (JSONUnmarshal (Raw cfg)) w).2
            | None => w
            end in
  let verify := VerifyAPI (SystemNamespace r) in
  let merged := mergedConfig config in
  match (env verify w1).1 with
  | Some err =>
      outcome env (enableAdditionalComponents r mgmt) w =
        Done (mgmt, Some (Errorf ("failed to check in the cert-manager API is installed: "
                                  +:+ Error err)))
      /\ trace env (enableAdditionalComponents r mgmt) w = decode ++ [(verify, true)]
  | None =>
      match (env (JSONMarshal merged) (env verify w1).2).1 with
      | Fail err =>
          outcome env (enableAdditionalComponents r mgmt) w =
            Done (mgmt, Some (Errorf ("failed to marshal HMC config: " +:+ Error err)))
          /\ trace env (enableAdditionalComponents r mgmt) w =
               decode ++ [(verify, false); (JSONMarshal merged, true)]
      | Ok raw =>
          outcome env (enableAdditionalComponents r mgmt) w =
            Done (withHMCConfig mgmt core {| Raw := raw |}, None)
          /\ trace env (enableAdditionalComponents r mgmt) w =
               decode ++ [(verify, false); (JSONMarshal merged, false)]
      end
  end.
Proof.
  intros Hcore Hdecoded Hwebhook Hoperator decode w1 verify merged.
  unfold enableAdditionalComponents. rewrite Hcore.
  destruct (subConfig_cases config "admissionWebhook") as [[_ Hw]|[Hw _]];
    [|congruence].
  destruct (subConfig_cases config "cluster-api-operator") as [[_ Ho]|[Ho _]];
    [|congruence].
  unfold decodedConfig in Hdecoded. subst decode w1.
  destruct (comp_Config (HMC core)) as [cfg|].
  - run_call. rewrite Hdecoded. rewrite Hw, Ho. cbn [bind].
    run_call. fold verify.
    destruct (env verify _) as [[err|] w2]; cbn [fst snd]; [by split|].
    run_call. fold (mergedConfig config). fold merged.
    destruct (env (JSONMarshal merged) w2) as [[err|raw] w3]; by split.
  - injection Hdecoded as <-. cbn [bind]. rewrite Hw, Ho. cbn [bind].
    run_call. fold verify.
    destruct (env verify _) as [[err|] w2]; cbn [fst snd]; [by split|].
    run_call. fold (mergedConfig ∅). fold merged.
    destruct (env (JSONMarshal merged) w2) as [[err|raw] w3]; by split.
Qed.

Lemma enableAdditionalComponents_panics (mgmt : Management) (core : Core)
    (config : gmap string JValue) (w : W) :
  ms_Core (m_Spec mgmt) = Some core ->
  decodedConfig env core w = Ok config ->
  isObjectOrNull (config !! "admissionWebhook") = false
  \/ isObjectOrNull (config !! "cluster-api-operator") = false ->
  exists cfg,
    comp_Config (HMC core) = Some cfg
    /\ outcome env (enableAdditionalComponents r mgmt) w = Panicked
    /\ trace env (enableAdditionalComponents r mgmt) w = [(JSONUnmarshal (Raw cfg), false)].
Proof.
  intros Hcore Hdecoded Hbad. unfold enableAdditionalComponents. rewrite Hcore.
  unfold decodedConfig in Hdecoded.
  destruct (comp_Config (HMC core)) as [cfg|].
  2:{ injection Hdecoded as <-. by destruct Hbad. }
  exists cfg. split; [done|]. run_call. rewrite Hdecoded.
  destruct (subConfig_cases config "admissionWebhook") as [[Hw ->]|[Hw ->]];
    [|by split].
  destruct (subConfig_cases config "cluster-api-operator") as [[Ho ->]|[Ho ->]];
    [|by split].
  destruct Hbad; congruence.
Qed.

Lemma mergedConfig_spec (config : gmap string JValue) :
  let merged := mergedConfig config in
  subObject merged "admissionWebhook" !! "enabled" = Some (JBool true)
  /\ (subObject config "cluster-api-operator" !! "enabled" = Some (JBool false) ->
      subObject merged "cluster-api-operator" !! "enabled" = Some (JBool false))
  /\ (subObject config "cluster-api-operator" !! "enabled" <> Some (JBool false) ->
      subObject merged "cluster-api-operator" !! "enabled" = Some (JBool true))
  /\ (forall k, k <> "enabled" ->
        subObject merged "admissionWebhook" !! k = subObject config "admissionWebhook" !! k
        /\ subObject merged "cluster-api-operator" !! k
           = subObject config "cluster-api-operator" !! k)
  /\ (forall k, k <> "admissionWebhook" -> k <> "cluster-api-operator" ->
        merged !! k = config !! k).
Proof.
  intros merged. subst merged. unfold mergedConfig.
  set (webhook := subObject config "admissionWebhook").
  set (operator := subObject config "cluster-api-operator").
  assert (Hw : forall x y, subObject (<["cluster-api-operator" := x]>
                 (<["admissionWebhook" := JObject y]> config)) "admissionWebhook" = y).
  { intros x y. unfold subObject. by rewrite lookup_insert_ne, lookup_insert_eq. }
  assert (Ho : forall y z, subObject (<["cluster-api-operator" := JObject y]> z)
                 "cluster-api-operator" = y).
  { intros y z. unfold subObject. by rewrite lookup_insert_eq. }
  rewrite Hw, Ho.
  split; [apply lookup_insert_eq|].
  split. { intros H. by rewrite H. }
  split.
  { intros H. destruct (operator !! "enabled") as [[| [|] | | | |]|] eqn:E;
      try apply lookup_insert_eq. done. }
  split.
  - intros k Hk. split; [by apply lookup_insert_ne|].
    destruct (operator !! "enabled") as [[| [|] | | | |]|] eqn:E;
      try (by apply lookup_insert_ne). done.
  - intros k H1 H2. by rewrite !lookup_insert_ne.
Qed.

(** When [enableAdditionalComponents] returns no error, it has decoded the
    configuration, verified the cert-manager API and encoded a merged
    configuration, in that order and nothing else, and the bytes it writes
    to the HMC component are the answer of that encoding.  The merged
    configuration is the decoded one with admissionWebhook.enabled set to
    true, and with cluster-api-operator.enabled left false when it was false
    and set to true otherwise; every other key of the two sections and every
    other section is as it was decoded. *)
Theorem additional_components_are_enabled (mgmt mgmt' : Management) (core : Core)
    (config : gmap string JValue) (w : W) :
  ms_Core (m_Spec mgmt) = Some core ->
  decodedConfig env core w = Ok config ->
  outcome env (enableAdditionalComponents r mgmt) w = Done (mgmt', None) ->
  let decode := match comp_Config (HMC core) with
                | Some cfg => [(JSONUnmarshal (Raw cfg), false)]
                | None => []
                end in
  let w1 := match comp_Config (HMC core) with
            | Some cfg => (env (JSONUnmarshal (Raw cfg)) w).2
            | None => w
            end in
  let verify := VerifyAPI (SystemNamespace r) in
  exists merged raw,
    trace env (enableAdditionalComponents r mgmt) w =
      decode ++ [(verify, false); (JSONMarshal merged, false)]
    /\ (env (JSONMarshal merged) (env verify w1).2).1 = Ok raw
    /\ mgmt' = withHMCConfig mgmt core {| Raw := raw |}
    /\ subObject merged "admissionWebhook" !! "enabled" = Some (JBool true)
    /\ (subObject config "cluster-api-operator" !! "enabled" = Some (JBool false) ->
        subObject merged "cluster-api-operator" !! "enabled" = Some (JBool false))
    /\ (subObject config "cluster-api-operator" !! "enabled" <> Some (JBool false) ->
        subObject merged "cluster-api-operator" !! "enabled" = Some (JBool true))
    /\ (forall k, k <> "enabled" ->
          subObject merged "admissionWebhook" !! k = subObject config "admissionWebhook" !! k
          /\ subObject merged "cluster-api-operator" !! k
             = subObject config "cluster-api-operator" !! k)
    /\ (forall k, k <> "admissionWebhook" -> k <> "cluster-api-operator" ->
          merged !! k = config !! k).
Proof.
  intros Hcore Hdecoded Hdone decode w1 verify.
  destruct (isObjectOrNull (config !! "admissionWebhook")) eqn:Hw.
  2:{ destruct (enableAdditionalComponents_panics mgmt core config w Hcore Hdecoded)
        as (_ & _ & Hpanic & _); [by left|congruence]. }
  destruct (isObjectOrNull (config !! "cluster-api-operator")) eqn:Ho.
  2:{ destruct (enableAdditionalComponents_panics mgmt core config w Hcore Hdecoded)
        as (_ & _ & Hpanic & _); [by right|congruence]. }
  pose proof (enableAdditionalComponents_decoded mgmt core config w Hcore Hdecoded Hw Ho)
    as Hrun. cbv zeta in Hrun. fold w1 verify decode in Hrun.
  destruct (env verify w1).1 as [err|]; [destruct Hrun; congruence|].
  destruct (env (JSONMarshal _) _).1 as [err|raw] eqn:Hraw; [destruct Hrun; congruence|].
  destruct Hrun as [Hout Htrace]. rewrite Hout in Hdone. injection Hdone as <-.
  exists (mergedConfig config), raw.
  split; [exact Htrace|]. split; [exact Hraw|].
  split; [done|]. apply mergedConfig_spec.
Qed.

(** The two sections are asserted to be maps without a test: when the
    decoded configuration has under admissionWebhook or under
    cluster-api-operator a value that is neither null nor an object, the
    pass panics right after the decoding; the cert-manager API is not
    checked and no component is looked at. *)
Theorem sections_that_are_not_objects_panic (m : Management) (core : Core)
    (config : gmap string JValue) (w : W) :
  ContainsFinalizer (m_meta m) ManagementFinalizer = true ->
  ms_Core (m_Spec m) = Some core ->
  decodedConfig env core w = Ok config ->
  isObjectOrNull (config !! "admissionWebhook") = false
  \/ isObjectOrNull (config !! "cluster-api-operator") = false ->
  exists cfg,
    comp_Config (HMC core) = Some cfg
    /\ outcome env (Update r m) w = Panicked
    /\ trace env (Update r m) w = [(JSONUnmarshal (Raw cfg), false)].
Proof.
  intros Hfin Hcore Hdecoded Hbad.
  destruct (enableAdditionalComponents_panics m core config w Hcore Hdecoded Hbad)
    as (cfg & Hcfg & Hout & Htrace).
  exists cfg. split; [done|].
  unfold Update, AddFinalizer. rewrite Hfin, withMeta_same.
  rewrite (SetDefaults_unchanged (m_Spec m)) by (by rewrite Hcore).
  rewrite withSpec_same, outcome_bind, trace_bind, Hout, Htrace. by rewrite app_nil_r.
Qed.

(** One iteration of the loop: a failure is recorded and joined and the
    providers are as before, or a success is recorded, the errors are as
    before and the providers of the template, which was fetched and is
    valid, are appended. *)
Lemma Update_component_step (c : component) (st : LoopState) (w : W) :
  let name := comp_Template (Component_ c) in
  exists st',
    outcome env (Update_component r c st) w = Done st'
    /\ forallb (fun ev => isComponentOp ev.1) (trace env (Update_component r c st) w) = true
    /\ ((exists msg,
           st' = (errors_Join st.1.1 (Some (ErrNew msg)), st.1.2,
                  <[name := {| cs_Success := String.eqb msg EmptyString;
                               cs_Error := msg |}]> st.2)
           /\ String.eqb msg EmptyString = false)
        \/ (exists template,
              (env (GetTemplate (SystemNamespace r) name) w).1 = Ok template
              /\ tst_Valid (t_Status template) = true
              /\ st' = (st.1.1,
                        {| InfrastructureProviders :=
                             InfrastructureProviders st.1.2
                             ++ InfrastructureProviders (tst_Providers (t_Status template));
                           BootstrapProviders :=
                             BootstrapProviders st.1.2
                             ++ BootstrapProviders (tst_Providers (t_Status template));
                           ControlPlaneProviders :=
                             ControlPlaneProviders st.1.2
                             ++ ControlPlaneProviders (tst_Providers (t_Status template)) |},
                        <[name := succeeded]> st.2))).
Proof.
  intros name. subst name. destruct st as [[errs providers] components].
  unfold Update_component. run_call.
  destruct (env (GetTemplate _ _) w) as [[err|template] w1]; cbn [fst snd].
  { eexists. split; [reflexivity|]. split; [reflexivity|]. left. eexists.
    unfold failComponent, updateComponentsStatus. cbn [String.eqb]. by split. }
  destruct (tst_Valid (t_Status template)) eqn:Hvalid; cbn [negb].
  2:{ eexists. split; [reflexivity|]. split; [reflexivity|]. left. eexists.
      unfold failComponent, updateComponentsStatus. cbn [String.eqb]. by split. }
  run_call.
  destruct (env (ReconcileHelmRelease2 _ _ _) w1) as [[err|hr] w2]; cbn [fst snd].
  { eexists. split; [reflexivity|]. split; [reflexivity|]. left. eexists.
    unfold failComponent, updateComponentsStatus. cbn [String.eqb]. by split. }
  eexists. split; [reflexivity|]. split; [reflexivity|]. right.
  exists template. by repeat split.
Qed.

Lemma errors_Join_some (a : option error) (e : error) : errors_Join a (Some e) <> None.
Proof. by destruct a. Qed.

Lemma Update_components_step (cs : list component) :
  forall (st : LoopState) (w : W),
  let names := List.map (fun c => comp_Template (Component_ c)) cs in
  exists st',
    outcome env (Update_components r cs st) w = Done st'
    /\ forallb (fun ev => isComponentOp ev.1) (trace env (Update_components r cs st) w) = true
    /\ (st'.1.1 = None ->
        st.1.1 = None
        /\ (forall name, In name names -> st'.2 !! name = Some succeeded)
        /\ (forall name, ~ In name names -> st'.2 !! name = st.2 !! name))
    /\ (forall p, In p (InfrastructureProviders st'.1.2) ->
          In p (InfrastructureProviders st.1.2)
          \/ exists c w0 template,
               In c cs
               /\ (env (GetTemplate (SystemNamespace r) (comp_Template (Component_ c))) w0).1
                    = Ok template
               /\ tst_Valid (t_Status template) = true
               /\ In p (InfrastructureProviders (tst_Providers (t_Status template)))).
Proof.
  induction cs as [|c cs IH]; intros st w names.
  { exists st. simpl. repeat split; auto. intros c []. }
  change (Update_components r (c :: cs) st)
    with (bind (Update_component r c st) (Update_components r cs)).
  rewrite outcome_bind, trace_bind.
  destruct (Update_component_step c st w) as (st1 & -> & Hops & Hstep).
  destruct (IH st1 (final env (Update_component r c st) w))
    as (st' & -> & Hops' & Hnil & Hprov).
  exists st'. split; [reflexivity|]. split; [by rewrite forallb_app, Hops, Hops'|].
  split.
  - intros Hnone. destruct (Hnil Hnone) as (Hnone1 & Hall & Hkeep).
    destruct Hstep as [(msg & -> & _)|(template & _ & _ & ->)]; cbn [fst snd] in *.
    { by apply errors_Join_some in Hnone1. }
    split; [done|]. subst names. cbn [List.map]. split.
    + intros name [<-|Hin].
      * destruct (in_or_not (comp_Template (Component_ c))
                    (List.map (fun c => comp_Template (Component_ c)) cs)) as [Hin|Hout].
        -- by apply Hall.
        -- rewrite (Hkeep _ Hout). apply lookup_insert_eq.
      * by apply Hall.
    + intros name Hout. rewrite Hkeep by (intros ?; apply Hout; by right).
      apply lookup_insert_ne. intros E. apply Hout. by left.
  - intros p Hp. destruct (Hprov p Hp) as [Hin|(c0 & w0 & t0 & Hc0 & Hget & Hvalid & Hin0)].
    2:{ right. exists c0, w0, t0. repeat split; try done. by right. }
    destruct Hstep as [(msg & -> & _)|(template & Hget & Hvalid & ->)]; cbn [fst snd] in *.
    { by left. }
    apply in_app_or in Hin as [Hin|Hin]; [by left|].
    right. exists c, w, template. repeat split; try done. by left.
Qed.

(** A pass of [Update] that returns nil has installed every component: the
    object it hands back, whose status it has written without error as its
    last operation, records a success for each of its components and
    nothing else, with the generation it has observed. *)
Theorem a_pass_without_error_installed_everything (m m' : Management) (res : ctrl_Result)
    (w : W) :
  ContainsFinalizer (m_meta m) ManagementFinalizer = true ->
  ms_Core (m_Spec m) <> None ->
  outcome env (Update r m) w = Done (m', res, None) ->
  (forall c, In c (wrappedComponents m') ->
     mst_Components (m_Status m') !! comp_Template (Component_ c) = Some succeeded)
  /\ (forall name status,
        mst_Components (m_Status m') !! name = Some status ->
        status = succeeded
        /\ In name (List.map (fun c => comp_Template (Component_ c)) (wrappedComponents m')))
  /\ mst_ObservedGeneration (m_Status m') = Generation (m_meta m)
  /\ exists pre, trace env (Update r m) w = pre ++ [(StatusUpdateManagement m', false)].
Proof.
  intros Hfin Hcore. unfold Update, AddFinalizer. rewrite Hfin, withMeta_same.
  rewrite (SetDefaults_unchanged _ Hcore), withSpec_same.
  rewrite !outcome_bind, !trace_bind.
  destruct (outcome env (enableAdditionalComponents r m) w) as [[m1 err]|] eqn:Hen;
    [|discriminate].
  destruct (enableAdditionalComponents_core env r m m1 err w Hen) as [_ Hmeta].
  destruct err as [err|]; [discriminate|].
  rewrite !outcome_bind, !trace_bind.
  set (w1 := final env (enableAdditionalComponents r m) w).
  destruct (Update_components_step (wrappedComponents m1) (None, emptyProviders, ∅) w1)
    as ([[errs providers] components] & -> & _ & Hnil & _).
  cbn [fst snd] in *.
  set (m2 := {| m_meta := m_meta m1; m_Spec := m_Spec m1;
                m_Status := {| mst_ObservedGeneration := Generation (m_meta m1);
                               mst_AvailableProviders := providers;
                               mst_Components := components |} |}).
  run_call. unfold call. cbn [outcome trace final].
  destruct (env (StatusUpdateManagement m2) _) as [[err|] w2] eqn:Hupd; cbn [fst snd].
  { intros [= _ _ H]. by apply errors_Join_some in H. }
  intros [= <- _ ->]. destruct (Hnil eq_refl) as (_ & Hall & Hkeep).
  assert (Hwrapped : wrappedComponents m2 = wrappedComponents m1) by done.
  rewrite Hwrapped. cbn [m2 m_Status mst_Components mst_ObservedGeneration m_meta].
  split. { intros c Hc. apply Hall. by apply (List.in_map (fun c => comp_Template (Component_ c))). }
  split.
  { intros name status Hlook.
    destruct (in_or_not name (List.map (fun c => comp_Template (Component_ c))
                                (wrappedComponents m1))) as [Hin|Hout].
    - rewrite (Hall _ Hin) in Hlook. by injection Hlook as <-.
    - rewrite (Hkeep _ Hout), lookup_empty in Hlook. discriminate. }
  split; [by rewrite Hmeta|].
  eexists. rewrite app_assoc. reflexivity.
Qed.





(** The components are not looked at before the cert-manager API is there:
    when its check fails, the pass returns the error of
    [enableAdditionalComponents] and hands the object back as it was, the
    check is the last operation, and before it there is at most the
    decoding of the configuration: no template is read, no release is
    reconciled and the status is not written. *)
Theorem components_wait_for_cert_manager (m : Management) (w : W) :
  In (VerifyAPI (SystemNamespace r), true) (trace env (Update r m) w) ->
  exists err pre,
    outcome env (Update r m) w =
      Done (m, noRequeue,
            Some (ErrNew ("failed to check in the cert-manager API is installed: "
                          +:+ Error err)))
    /\ trace env (Update r m) w = pre ++ [(VerifyAPI (SystemNamespace r), true)]
    /\ forallb (fun ev => isConfigOp ev.1) pre = true.
Proof.
  unfold Update, AddFinalizer.
  destruct (ContainsFinalizer (m_meta m) ManagementFinalizer) eqn:Hfin.
  2:{ run_call. destruct (env (UpdateManagement _) w) as [[err|] w1];
        cbn [fst snd trace]; intros [H|[]]; discriminate. }
  rewrite withMeta_same. unfold SetDefaults.
  destruct (ms_Core (m_Spec m)) as [core|] eqn:Hcore.
  2:{ run_call. cbn [trace]. intros [H|[]]; discriminate. }
  rewrite withSpec_same.
  destruct (decodedConfig env core w) as [err|config] eqn:Hdecoded.
  { unfold decodedConfig in Hdecoded.
    destruct (comp_Config (HMC core)) as [cfg|] eqn:Hcfg; [|discriminate].
    rewrite trace_bind. unfold enableAdditionalComponents. rewrite Hcore, Hcfg.
    run_call. rewrite Hdecoded. cbn [trace outcome app].
    intros [H|[]]; discriminate. }
  destruct (isObjectOrNull (config !! "admissionWebhook")) eqn:Hw.
  2:{ destruct (enableAdditionalComponents_panics m core config w Hcore Hdecoded)
        as (cfg & _ & Hout & Htrace); [by left|].
      rewrite trace_bind, Hout, Htrace. intros [H|[]]; discriminate. }
  destruct (isObjectOrNull (config !! "cluster-api-operator")) eqn:Ho.
  2:{ destruct (enableAdditionalComponents_panics m core config w Hcore Hdecoded)
        as (cfg & _ & Hout & Htrace); [by right|].
      rewrite trace_bind, Hout, Htrace. intros [H|[]]; discriminate. }
  pose proof (enableAdditionalComponents_decoded m core config w Hcore Hdecoded Hw Ho)
    as Hrun. cbv zeta in Hrun.
  assert (Hdecode : forallb (fun ev : Event => isConfigOp ev.1)
                      match comp_Config (HMC core) with
                      | Some cfg => [(JSONUnmarshal (Raw cfg), false)]
                      | None => []
                      end = true) by (by destruct (comp_Config (HMC core))).
  rewrite outcome_bind, trace_bind.
  destruct (env (VerifyAPI _) _).1 as [err|].
  { destruct Hrun as [-> ->]. intros _. exists err. eexists. split; [reflexivity|].
    split; [by rewrite app_nil_r|exact Hdecode]. }
  intros Hin. exfalso.
  assert (Hloop : forall m1 w1,
            ~ In (VerifyAPI (SystemNamespace r), true)
                (trace env
                   (bind (Update_components r (wrappedComponents m1) (None, emptyProviders, ∅))
                      (fun st =>
                         let '(errs, detectedProviders, detectedComponents) := st in
                         let management :=
                           {| m_meta := m_meta m1; m_Spec := m_Spec m1;
                              m_Status :=
                                {| mst_ObservedGeneration := Generation (m_meta m1);
                                   mst_AvailableProviders := detectedProviders;
                                   mst_Components := detectedComponents |} |} in
                         bind (call (StatusUpdateManagement management))
                           (fun updated =>
                              let errs :=
                                match updated with
                                | Some err =>
                                    errors_Join errs
                                      (Some (Errorf_w ("failed to update status for Management "
                                                       +:+ Name (m_meta management) +:+ ": "
                                                       +:+ Error err) err))
                                | None => errs
                                end in
                              Ret (management, noRequeue, errs)))) w1)).
  { intros m1 w1. rewrite trace_bind.
    destruct (Update_components_step (wrappedComponents m1) (None, emptyProviders, ∅) w1)
      as ([[errs providers] components] & -> & Hops & _).
    intros H. apply in_app_or in H as [H|H].
    - rewrite forallb_forall in Hops. by specialize (Hops _ H).
    - cbn [trace bind call] in H. destruct H as [H|[]]. discriminate. }
  assert (Hnone : ~ In (VerifyAPI (SystemNamespace r), true)
                      match comp_Config (HMC core) with
                      | Some cfg => [(JSONUnmarshal (Raw cfg), false)]
                      | None => []
                      end).
  { destruct (comp_Config (HMC core)); simpl; intuition discriminate. }
  destruct (env (JSONMarshal _) _).1 as [err|raw]; destruct Hrun as [Hout Htrace];
    rewrite Hout, Htrace in Hin; cbn [fst snd] in Hin;
    apply in_app_or in Hin as [Hin|Hin].
  - apply in_app_or in Hin as [Hin|Hin]; [done|].
    destruct Hin as [H|[H|[]]]; discriminate.
  - destruct Hin.
  - apply in_app_or in Hin as [Hin|Hin]; [done|].
    destruct Hin as [H|[H|[]]]; discriminate.
  - by apply Hloop in Hin.
Qed.
End ManagementMoreFacts.

Lemma additional_components_witness :
  ms_Core (m_Spec managementWithConfig) <> None
  /\ subObject operatorDisabled "cluster-api-operator" !! "enabled" = Some (JBool false)
  /\ exists merged raw,
       trace (answering configDisablesOperator)
         (ManagementController.enableAdditionalComponents managementReconciler
            managementWithConfig) tt
       = [(JSONUnmarshal "{...}", false); (VerifyAPI systemNamespace, false);
          (JSONMarshal merged, false)]
       /\ (answering configDisablesOperator (JSONMarshal merged) tt).1 = Ok raw
       /\ subObject merged "admissionWebhook" !! "enabled" = Some (JBool true)
       /\ subObject merged "admissionWebhook" !! "port" = Some (JNumber "9443")
       /\ subObject merged "cluster-api-operator" !! "enabled" = Some (JBool false)
       /\ merged !! "replicas" = Some (JNumber "1").
Proof.
  split; [done|]. split; [reflexivity|].
  destruct (additional_components_are_enabled (answering configDisablesOperator)
              managementReconciler managementWithConfig
              (ManagementController.withHMCConfig managementWithConfig
                 {| HMC := {| comp_Template := DefaultCoreHMCTemplate;
                              comp_Config := Some {| Raw := "{...}" |} |};
                    CAPI := CAPI DefaultCoreConfiguration |} {| Raw := "{}" |})
              {| HMC := {| comp_Template := DefaultCoreHMCTemplate;
                           comp_Config := Some {| Raw := "{...}" |} |};
                 CAPI := CAPI DefaultCoreConfiguration |}
              operatorDisabled tt eq_refl eq_refl eq_refl)
    as (merged & raw & Htrace & Hraw & _ & Hwebhook & Hoff & _ & Hkeys & Hrest).
  exists merged, raw. split; [exact Htrace|]. split; [exact Hraw|].
  split; [exact Hwebhook|].
  split. { by rewrite (proj1 (Hkeys "port" ltac:(done))). }
  split; [by apply Hoff|].
  by rewrite Hrest.
Defined.

Lemma sections_panic_witness :
  isObjectOrNull ((<["admissionWebhook" := JBool true]> ∅ : gmap string JValue)
                    !! "admissionWebhook") = false
  /\ exists cfg,
       outcome (answering webhookNotAnObject)
         (ManagementController.Update managementReconciler managementWithConfig) tt = Panicked
       /\ trace (answering webhookNotAnObject)
            (ManagementController.Update managementReconciler managementWithConfig) tt
          = [(JSONUnmarshal (Raw cfg), false)].
Proof.
  split; [reflexivity|].
  destruct (sections_that_are_not_objects_panic (answering webhookNotAnObject)
              managementReconciler managementWithConfig
              {| HMC := {| comp_Template := DefaultCoreHMCTemplate;
                           comp_Config := Some {| Raw := "{...}" |} |};
                 CAPI := CAPI DefaultCoreConfiguration |}
              (<["admissionWebhook" := JBool true]> ∅) tt eq_refl eq_refl eq_refl
              (or_introl eq_refl))
    as (cfg & _ & Hout & Htrace).
  by exists cfg.
Defined.

Lemma installed_everything_witness :
  exists m',
    outcome (answering nominal)
      (ManagementController.Update managementReconciler managementWithP1) tt
      = Done (m', noRequeue, None)
    /\ mst_Components (m_Status m') !! "p1" = Some succeeded
    /\ mst_Components (m_Status m') !! "hmc" = Some succeeded
    /\ mst_ObservedGeneration (m_Status m') = 1.
Proof.
  eexists. split; [reflexivity|].
  match goal with
  | |- mst_Components (m_Status ?m') !! _ = _ /\ _ =>
      destruct (a_pass_without_error_installed_everything (answering nominal)
                  managementReconciler managementWithP1 m' noRequeue tt eq_refl
                  ltac:(done) eq_refl) as (Hall & _ & Hgen & _)
  end.
  split; [apply (Hall p1Component); right; right; by left|].
  split; [|exact Hgen].
  apply (Hall {| ManagementController.Component_ :=
                   {| comp_Template := DefaultCoreHMCTemplate;
                      comp_Config := Some {| Raw := "{}" |} |};
                 ManagementController.dependsOn := [];
                 ManagementController.targetNamespace := EmptyString;
                 ManagementController.createNamespace := false |}).
  by left.
Defined.


(** The release of p1 cannot be reconciled, and p1 is the last component:
    the pass reports the providers of the two components before it and not
    those of the template of p1, which it has fetched and found valid. *)
Lemma a_failed_release_contributes_no_provider :
  exists m' e,
    outcome (answering p1ReleaseFails)
      (ManagementController.Update managementReconciler managementWithP1) tt
      = Done (m', noRequeue, Some e)
    /\ List.map (fun c => comp_Template (ManagementController.Component_ c))
         (ManagementController.wrappedComponents managementWithP1)
       = ["hmc"; "cluster-api"; "p1"]
    /\ InfrastructureProviders (mst_AvailableProviders (m_Status m')) = ["aws"; "aws"]
    /\ (exists status, mst_Components (m_Status m') !! "p1" = Some status
                       /\ cs_Success status = false).
Proof.
  eexists. eexists. split; [reflexivity|]. split; [reflexivity|].
  split; [reflexivity|]. eexists. split; [vm_compute; reflexivity|reflexivity].
Qed.

Lemma cert_manager_witness :
  In (VerifyAPI systemNamespace, true)
     (trace (answering certManagerMissing)
        (ManagementController.Update managementReconciler managementWithP1) tt)
  /\ exists err pre,
       outcome (answering certManagerMissing)
         (ManagementController.Update managementReconciler managementWithP1) tt =
         Done (managementWithP1, noRequeue,
               Some (ErrNew ("failed to check in the cert-manager API is installed: "
                             +:+ Error err)))
       /\ trace (answering certManagerMissing)
            (ManagementController.Update managementReconciler managementWithP1) tt
          = pre ++ [(VerifyAPI systemNamespace, true)]
       /\ forallb (fun ev => isConfigOp ev.1) pre = true.
Proof.
  split; [by left|].
  exact (components_wait_for_cert_manager (answering certManagerMissing)
           managementReconciler managementWithP1 tt (or_introl eq_refl)).
Defined.

(** ** ManagedCluster: deletion *)

Section DeleteFacts.
Import ManagedClusterController.
Context {api : API} {W : Type} (env : @Env W) (r : ManagedClusterReconciler).

(** When the HelmRelease of the cluster cannot be read, [Delete] touches
    nothing else: for an error other than NotFound it returns that error;
    for NotFound it takes the ManagedCluster finalizer off with one Update,
    whose failure it returns, or does nothing more when the finalizer is
    not there.  No ClusterProfile or HelmRelease is deleted and no provider
    is released. *)
Theorem deletion_ends_when_the_release_is_gone (mc : ManagedCluster) (err : error) (w : W) :
  let get := GetHelmRelease (Namespace (mc_meta mc)) (Name (mc_meta mc)) in
  (env get w).1 = Fail err ->
  let released := withMeta mc (RemoveFinalizer (mc_meta mc) ManagedClusterFinalizer).1 in
  let update := UpdateManagedCluster released in
  ContainsFinalizer (mc_meta released) ManagedClusterFinalizer = false
  /\ (IsNotFound err = false ->
      outcome env (Delete r mc) w = Done (mc, noRequeue, Some err)
      /\ trace env (Delete r mc) w = [(get, true)])
  /\ (IsNotFound err = true ->
      ContainsFinalizer (mc_meta mc) ManagedClusterFinalizer = true ->
      trace env (Delete r mc) w = [(get, true); (update, isErr (env update (env get w).2).1)]
      /\ exists e, outcome env (Delete r mc) w = Done (released, noRequeue, e)
                   /\ isErr e = isErr (env update (env get w).2).1)
  /\ (IsNotFound err = true ->
      ContainsFinalizer (mc_meta mc) ManagedClusterFinalizer = false ->
      outcome env (Delete r mc) w = Done (released, noRequeue, None)
      /\ trace env (Delete r mc) w = [(get, true)]).
Proof.
  intros get Hget released update.
  split; [apply RemoveFinalizer_gone|].
  unfold Delete. run_call. fold get. rewrite Hget. cbn [failed isFail].
  pose proof (RemoveFinalizer_updated (mc_meta mc) ManagedClusterFinalizer) as Hupdated.
  subst released update.
  destruct (RemoveFinalizer (mc_meta mc) ManagedClusterFinalizer) as [meta updated].
  cbn [fst snd] in *. subst updated.
  split; [|split].
  - intros ->. by split.
  - intros -> ->. run_call.
    destruct (env (UpdateManagedCluster (withMeta mc meta)) (env get w).2) as [[e|] w1];
      cbn [fst snd]; (split; [reflexivity|]); eexists; by split.
  - intros -> ->. by split.
Qed.

(** [Delete] works in order: the ClusterProfile is deleted only after the
    HelmRelease was read, the HelmRelease only after the deletion of the
    ClusterProfile returned no error, and the providers are released only
    after the deletion of the HelmRelease returned no error. *)
Theorem deletion_in_order (mc : ManagedCluster) (w : W) :
  let namespace := Namespace (mc_meta mc) in
  let name := Name (mc_meta mc) in
  let get := GetHelmRelease namespace name in
  let profile := DeleteClusterProfile namespace name in
  let release := DeleteHelmRelease name namespace in
  let w3 := (env release (env profile (env get w).2).2).2 in
  (isFail (env get w).1 = false ->
   exists rest,
     [get; profile; release]
     ++ ops env (releaseCluster r namespace name (mcs_Template (mc_Spec mc))) w3
     = ops env (Delete r mc) w ++ rest)
  /\ (In profile (ops env (Delete r mc) w) -> In (get, false) (trace env (Delete r mc) w))
  /\ (In release (ops env (Delete r mc) w) -> In (profile, false) (trace env (Delete r mc) w))
  /\ (In (GetClusterTemplate (SystemNamespace r) (mcs_Template (mc_Spec mc)))
         (ops env (Delete r mc) w) ->
      In (release, false) (trace env (Delete r mc) w)).
Proof.
  intros namespace name get profile release w3. subst w3.
  unfold Delete, ops. run_call. fold namespace name get.
  destruct (env get w) as [[err|hr] w1]; cbn [fst snd failed isFail].
  { split; [discriminate|].
    destruct (IsNotFound err); [|by repeat split; intros [H|[]]; discriminate].
    destruct (RemoveFinalizer (mc_meta mc) ManagedClusterFinalizer) as [meta [|]].
    - run_call. destruct (env (UpdateManagedCluster _) w1) as [[e|] w2];
        cbn [fst snd List.map trace];
        repeat split; intros [H|[H|[]]]; discriminate.
    - cbn [trace List.map]. repeat split; intros [H|[]]; discriminate. }
  run_call. fold profile.
  destruct (env profile w1) as [[err|] w2]; cbn [fst snd failed isErr].
  { split; [intros _; eexists; reflexivity|].
    cbn [trace List.map fst]. split; [intros _; by left|].
    split; intros [H|[H|[]]]; discriminate. }
  run_call. fold release.
  destruct (env release w2) as [[err|] w3]; cbn [fst snd failed isErr].
  { split; [intros _; eexists; reflexivity|].
    cbn [trace List.map fst]. split; [intros _; by left|].
    split; [intros _; right; by left|].
    intros [H|[H|[H|[]]]]; discriminate. }
  rewrite trace_bind.
  split.
  { intros _. exists []. rewrite app_nil_r. cbn [List.map fst app]. do 3 f_equal.
    rewrite List.map_app.
    destruct (outcome env (releaseCluster r namespace name _) w3) as [[e|]|];
      cbn [trace List.map]; by rewrite app_nil_r. }
  split; [intros _; by left|].
  split; [intros _; right; by left|].
  intros _. right. right. by left.
Qed.
End DeleteFacts.

Lemma release_gone_witness :
  (answering releaseGone (GetHelmRelease "default" "dev") tt).1 = Fail (notFound "helmrelease")
  /\ IsNotFound (notFound "helmrelease") = true
  /\ ContainsFinalizer (mc_meta deletedCluster) ManagedClusterFinalizer = true
  /\ trace (answering releaseGone)
       (ManagedClusterController.Delete clusterReconciler deletedCluster) tt
     = [(GetHelmRelease "default" "dev", true);
        (UpdateManagedCluster (exampleCluster [] false []), false)].
Proof.
  split; [reflexivity|]. split; [reflexivity|]. split; [reflexivity|].
  exact (proj1 (proj1 (proj2 (proj2
    (deletion_ends_when_the_release_is_gone (answering releaseGone) clusterReconciler
       deletedCluster (notFound "helmrelease") tt eq_refl))) eq_refl eq_refl)).
Defined.

Section ReleaseMoreFacts.
Import ManagedClusterController.
Context {api : API} {W : Type} (env : @Env W) (r : ManagedClusterReconciler).

Lemma getCluster_run (namespace name : string) (gvk : GroupVersionKind) (w : W) :
  exists res flag,
    outcome env (getCluster namespace name gvk) w = Done res
    /\ trace env (getCluster namespace name gvk) w
       = [(ListMetadata gvk namespace {[ FluxHelmChartNameKey := name ]} 0, flag)].
Proof.
  unfold getCluster. run_call.
  destruct (env (ListMetadata _ _ _ _) w) as [[err|[|first rest]] w1];
    cbn [fst snd]; eexists; eexists; by split.
Qed.

Lemma machinesAvailable_run (namespace clusterName : string) (gvk : GroupVersionKind)
    (w : W) :
  exists res flag,
    outcome env (machinesAvailable namespace clusterName gvk) w = Done res
    /\ trace env (machinesAvailable namespace clusterName gvk) w
       = [(ListMetadata gvk namespace {[ ClusterNameLabelKey := clusterName ]} 1, flag)].
Proof.
  unfold machinesAvailable. run_call.
  destruct (env (ListMetadata _ _ _ _) w) as [[err|items] w1];
    cbn [fst snd]; eexists; eexists; by split.
Qed.

Lemma removeClusterFinalizer_run (cluster : PartialObjectMetadata) (w : W) :
  trace env (removeClusterFinalizer cluster) w = []
  \/ exists obj original flag,
       trace env (removeClusterFinalizer cluster) w = [(PatchMetadata obj original, flag)].
Proof.
  unfold removeClusterFinalizer.
  destruct (RemoveFinalizer (pom_meta cluster) BlockingFinalizer) as [meta [|]];
    [|by left].
  right. run_call.
  destruct (env (PatchMetadata _ _) w) as [[err|] w1]; cbn [fst snd];
    eexists; eexists; eexists; reflexivity.
Qed.

Lemma releaseProviders_patches_last (namespace name : string) (providers : list string) :
  forall w : W,
    forallb (fun ev => negb (isPatch ev.1))
      (trace env (releaseProviders namespace name providers) w) = true
    \/ exists pre obj original flag,
         trace env (releaseProviders namespace name providers) w
           = pre ++ [(PatchMetadata obj original, flag)]
         /\ forallb (fun ev => negb (isPatch ev.1)) pre = true.
Proof.
  induction providers as [|provider rest IH]; intros w; [by left|].
  cbn [releaseProviders].
  destruct (providerGVKs !! provider) as [gvk|]; [|apply IH].
  rewrite trace_bind.
  destruct (getCluster_run namespace name (cluster gvk) w) as (found & f1 & -> & ->).
  destruct found as [err|found]; [by left|].
  rewrite trace_bind.
  match goal with
  | |- context [machinesAvailable ?a ?b ?c] =>
      destruct (machinesAvailable_run a b c (final env (getCluster namespace name (cluster gvk)) w))
        as (available & f2 & -> & ->)
  end.
  destruct available as [err|[|]]; [by left| |]; cbn [negb].
  - destruct (IH (final env (machinesAvailable namespace (Name (pom_meta found)) (machine gvk))
                    (final env (getCluster namespace name (cluster gvk)) w)))
      as [Hnone|(pre & obj & original & flag & -> & Hpre)].
    + left. cbn [app forallb isPatch negb fst andb]. exact Hnone.
    + right. eexists (_ :: _ :: pre), obj, original, flag. split; [reflexivity|].
      cbn [forallb isPatch negb fst andb]. exact Hpre.
  - match goal with
    | |- context [trace env (removeClusterFinalizer found) ?s] =>
        destruct (removeClusterFinalizer_run found s)
          as [->|(obj & original & flag & ->)]
    end.
    + by left.
    + right. eexists [_; _], obj, original, flag. by split.
Qed.

(** A pass of [releaseCluster] patches at most one object, and the patch is
    the last thing it does. *)
Theorem a_release_patches_once_and_last (namespace name templateName : string) (w : W)
    (obj original : PartialObjectMetadata) (flag : bool) :
  In (PatchMetadata obj original, flag)
     (trace env (releaseCluster r namespace name templateName) w) ->
  exists pre,
    trace env (releaseCluster r namespace name templateName) w
      = pre ++ [(PatchMetadata obj original, flag)]
    /\ forallb (fun ev => negb (isPatch ev.1)) pre = true.
Proof.
  unfold releaseCluster. rewrite trace_bind. unfold getProviders. run_call.
  destruct (env (GetClusterTemplate _ _) w) as [[err|template] w1];
    cbn [fst snd trace outcome final app].
  { intros [H|[]]. discriminate. }
  destruct (releaseProviders_patches_last namespace name
              (InfrastructureProviders (tstc_Providers (kt_Status template))) w1)
    as [Hnone|(pre & obj' & original' & flag' & Htrace & Hpre)].
  - intros [H|H]; [discriminate|].
    rewrite forallb_forall in Hnone. by specialize (Hnone _ H).
  - rewrite Htrace. intros [H|H]; [discriminate|].
    apply in_app_or in H as [H|[H|[]]].
    + rewrite forallb_forall in Hpre. by specialize (Hpre _ H).
    + rewrite <- H. eexists (_ :: pre). by split.
Qed.
End ReleaseMoreFacts.

Lemma release_patches_witness :
  exists obj original,
    In (PatchMetadata obj original, false)
       (trace (answering twoProvidersNoMachines)
          (ManagedClusterController.releaseCluster clusterReconciler "default" "dev"
             "aws-standalone") tt)
    /\ exists pre,
         trace (answering twoProvidersNoMachines)
           (ManagedClusterController.releaseCluster clusterReconciler "default" "dev"
              "aws-standalone") tt
         = pre ++ [(PatchMetadata obj original, false)]
         /\ forallb (fun ev => negb (isPatch ev.1)) pre = true.
Proof.
  eexists. eexists.
  assert (Hin : In (PatchMetadata
                      {| pom_gvk := ManagedClusterController.gvkAWSCluster;
                         pom_meta := exampleMeta "default" "dev" [] |}
                      (ManagedClusterController.originalAfterRemove
                         (infraCluster ManagedClusterController.gvkAWSCluster)
                         BlockingFinalizer), false)
                 (trace (answering twoProvidersNoMachines)
                    (ManagedClusterController.releaseCluster clusterReconciler "default" "dev"
                       "aws-standalone") tt)).
  { right. right. right. by left. }
  split; [exact Hin|].
  exact (a_release_patches_once_and_last (answering twoProvidersNoMachines) clusterReconciler
           "default" "dev" "aws-standalone" tt _ _ false Hin).
Defined.

(** ** ManagedCluster: what the ClusterProfile is reconciled with *)

Section ProfileFacts.
Import ManagedClusterController.
Context {api : API} {W : Type} (env : @Env W).

Lemma getServiceTemplateRepoURL_reads (tmpl : ServiceTemplate) (w : W) :
  List.filter (fun ev => isGetServiceTemplate ev.1)
    (trace env (getServiceTemplateRepoURL tmpl) w) = [].
Proof.
  unfold getServiceTemplateRepoURL.
  destruct (tstc_ChartRef (kt_Status tmpl)) as [chartRef|]; [|reflexivity].
  run_call. destruct (env (GetHelmChart _ _) w) as [[err|chart] w1]; [reflexivity|].
  cbn [fst snd]. run_call.
  by destruct (env (GetHelmRepository _ _) w1) as [[err|repo] w2].
Qed.

(** When the loop of [updateServices] ends without error, it has read the
    template of each service to install, in order, and has added one entry
    for each of them, with what the service asks for. *)
Lemma collectServices_ok (mc : ManagedCluster) (services : list ManagedClusterServiceSpec) :
  forall (opts opts' : list HelmChartOpts) (w : W),
    outcome env (collectServices mc services opts) w = Done (Ok opts') ->
    List.map profiledRelease opts'
      = List.map profiledRelease opts
        ++ List.map requestedRelease (List.filter svc_Install services)
    /\ List.filter (fun ev => isGetServiceTemplate ev.1)
         (trace env (collectServices mc services opts) w)
       = List.map (fun svc => (GetServiceTemplate (Namespace (mc_meta mc)) (svc_Template svc),
                               false))
           (List.filter svc_Install services).
Proof.
  induction services as [|svc rest IH]; intros opts opts' w.
  { cbn [collectServices outcome]. intros [= <-]. by rewrite app_nil_r. }
  cbn [collectServices List.filter].
  destruct (svc_Install svc); cbn [negb]; [|apply IH].
  run_call.
  destruct (env (GetServiceTemplate _ _) w) as [[err|tmpl] w1]; cbn [fst snd];
    [discriminate|].
  rewrite outcome_bind, trace_bind.
  destruct (getServiceTemplateRepoURL_returns env tmpl w1) as [[err|url] ->];
    [discriminate|].
  intros Hdone. apply IH in Hdone as [Hopts Hreads].
  split.
  - rewrite Hopts, List.map_app, <- app_assoc. f_equal. cbn [List.map app].
    f_equal. unfold profiledRelease, requestedRelease.
    cbn [hco_ReleaseName hco_Values hco_ReleaseNamespace hco_CreateNamespace
         hco_PlainHTTP hco_Insecure].
    by destruct (String.eqb (svc_ReleaseNamespace svc) EmptyString).
  - cbn [List.filter isGetServiceTemplate fst failed isFail List.map].
    rewrite List.filter_app, getServiceTemplateRepoURL_reads. cbn [app].
    f_equal. exact Hreads.
Qed.

(** When every service to install resolves, the loop of [updateServices]
    ends without error. *)
Lemma collectServices_all_resolve (mc : ManagedCluster)
    (services : list ManagedClusterServiceSpec) :
  (forall svc, In svc (List.filter svc_Install services) ->
     serviceResolvable env (Namespace (mc_meta mc)) svc) ->
  forall (opts : list HelmChartOpts) (w : W),
    exists opts', outcome env (collectServices mc services opts) w = Done (Ok opts').
Proof.
  induction services as [|svc rest IH]; intros Hall opts w; [by eexists|].
  cbn [collectServices]. cbn [List.filter] in Hall.
  destruct (svc_Install svc); cbn [negb]; [|by apply IH].
  pose proof (Hall svc (or_introl eq_refl) w) as Hsvc.
  run_call.
  destruct (env (GetServiceTemplate _ _) w) as [[err|tmpl] w1]; cbn [fst snd]; [done|].
  destruct Hsvc as [url Hurl]. rewrite outcome_bind, Hurl.
  apply IH. intros svc0 Hin. apply Hall. by right.
Qed.

(** [updateServices] reconciles the ClusterProfile of the cluster when
    every service to install resolves, and whenever it reconciles it, it
    does so once, as its last operation, with one chart for each service to
    install, in the order of the spec and with the release name, values,
    release namespace (the release name when none is given) and switches
    the service asks for; a service with install=false has no chart and its
    template is not read.  The pass then asks to be run again after the
    default interval, or returns the error of the reconciliation. *)
Theorem the_profile_lists_the_services_to_install (mc : ManagedCluster) (w : W) :
  let installed := List.filter svc_Install (mcs_Services (mc_Spec mc)) in
  let selector : gmap string string :=
    <[FluxHelmChartNamespaceKey := Namespace (mc_meta mc)]>
      (<[FluxHelmChartNameKey := Name (mc_meta mc)]> ∅) in
  ((forall svc, In svc installed -> serviceResolvable env (Namespace (mc_meta mc)) svc) ->
   exists opts flag,
     In (ReconcileClusterProfile (Namespace (mc_meta mc)) (Name (mc_meta mc)) selector opts,
         flag)
        (trace env (updateServices mc) w))
  /\ (forall namespace name labels opts flag,
        In (ReconcileClusterProfile namespace name labels opts, flag)
           (trace env (updateServices mc) w) ->
        namespace = Namespace (mc_meta mc)
        /\ name = Name (mc_meta mc)
        /\ labels = selector
        /\ rcp_OwnerReference opts = Some (ownerReference mc)
        /\ List.map profiledRelease (rcp_HelmChartOpts opts)
           = List.map requestedRelease installed
        /\ List.filter (fun ev => isGetServiceTemplate ev.1) (trace env (updateServices mc) w)
           = List.map (fun svc => (GetServiceTemplate (Namespace (mc_meta mc))
                                     (svc_Template svc), false)) installed
        /\ (exists pre,
              trace env (updateServices mc) w
                = pre ++ [(ReconcileClusterProfile namespace name labels opts, flag)]
              /\ forallb (fun ev => negb (isReconcileClusterProfile ev.1)) pre = true)
        /\ (flag = false ->
            outcome env (updateServices mc) w
              = Done (requeueAfter DefaultRequeueInterval, None))
        /\ (flag = true ->
            exists e, outcome env (updateServices mc) w = Done (noRequeue, Some e))).
Proof.
  intros installed selector. subst installed selector. split.
  { intros Hall. unfold updateServices. rewrite trace_bind.
    destruct (collectServices_all_resolve mc _ Hall [] w) as [collected ->].
    run_call. eexists _, _. apply in_or_app. right. by left. }
  intros namespace name labels opts flag.
  unfold updateServices. rewrite trace_bind, outcome_bind.
  pose proof (collectServices_ops env mc (mcs_Services (mc_Spec mc)) [] w) as Hnone.
  destruct (outcome env (collectServices mc (mcs_Services (mc_Spec mc)) []) w)
    as [[err|collected]|] eqn:Hcollect.
  1,3: rewrite app_nil_r; intros H; rewrite forallb_forall in Hnone;
       by specialize (Hnone _ H).
  destruct (collectServices_ok mc _ _ _ _ Hcollect) as [Hopts Hreads].
  run_call. unfold call. cbn [trace outcome bind].
  set (w1 := final env (collectServices mc (mcs_Services (mc_Spec mc)) []) w).
  destruct (env (ReconcileClusterProfile _ _ _ _) w1) as [[err|profile] w2];
    cbn [fst snd failed isFail trace outcome];
    (intros Hin; apply in_app_or in Hin as [Hin|[Hin|[]]];
     [rewrite forallb_forall in Hnone; by specialize (Hnone _ Hin)|]);
    injection Hin as <- <- <- <- <-;
    cbn [rcp_OwnerReference rcp_HelmChartOpts];
    (split; [done|]); (split; [done|]); (split; [done|]); (split; [done|]);
    (split; [exact Hopts|]);
    (split; [rewrite List.filter_app, Hreads;
             cbn [List.filter isGetServiceTemplate fst]; by rewrite app_nil_r|]);
    (split; [eexists; split; [reflexivity|exact Hnone]|]);
    split; try done.
  intros _. by eexists.
Qed.
End ProfileFacts.

Lemma profile_witness :
  (forall svc,
     In svc (List.filter svc_Install (mcs_Services (mc_Spec clusterWithASkippedService))) ->
     serviceResolvable (answering nominal) "default" svc)
  /\ exists opts flag,
       In (ReconcileClusterProfile "default" "dev"
             (<[FluxHelmChartNamespaceKey := "default"]>
                (<[FluxHelmChartNameKey := "dev"]> ∅)) opts, flag)
          (trace (answering nominal)
             (ManagedClusterController.updateServices clusterWithASkippedService) tt)
       /\ List.map profiledRelease (rcp_HelmChartOpts opts)
          = [("ingress", None, "ingress", true, false, false);
             ("kyverno", Some {| Raw := "{}" |}, "policies", false, true, false)]
       /\ List.filter (fun ev => isGetServiceTemplate ev.1)
            (trace (answering nominal)
               (ManagedClusterController.updateServices clusterWithASkippedService) tt)
          = [(GetServiceTemplate "default" "ingress", false);
             (GetServiceTemplate "default" "kyverno", false)].
Proof.
  assert (Hall : forall svc,
            In svc (List.filter svc_Install
                      (mcs_Services (mc_Spec clusterWithASkippedService))) ->
            serviceResolvable (answering nominal) "default" svc).
  { intros svc _ []. simpl. by eexists. }
  split; [exact Hall|].
  destruct (the_profile_lists_the_services_to_install (answering nominal)
              clusterWithASkippedService tt) as [Hissued Hshape].
  destruct (Hissued Hall) as (opts & flag & Hin).
  exists opts, flag. split; [exact Hin|].
  destruct (Hshape _ _ _ _ _ Hin) as (_ & _ & _ & _ & Hopts & Hreads & _).
  split; [exact Hopts|exact Hreads].
Defined.

(** ** ManagedCluster: the shape of a pass *)

Section PassFacts.
Import ManagedClusterController.
Context {api : API} {W : Type} (env : @Env W) (r : ManagedClusterReconciler).

Lemma copyClusterConditions_same (conditions : list UCondition) :
  forall (mc : ManagedCluster) (complete : bool),
    mc_meta (copyClusterConditions mc conditions complete).1.1 = mc_meta mc
    /\ mc_Spec (copyClusterConditions mc conditions complete).1.1 = mc_Spec mc.
Proof.
  induction conditions as [|[|err|c] rest IH]; intros mc complete; try done.
  cbn [copyClusterConditions]. by destruct (IH (setCondition mc
    (if String.eqb (cReason c) EmptyString && String.eqb (cStatus c) "True"
     then {| cType := cType c; cStatus := cStatus c; cReason := "Succeeded";
             cMessage := cMessage c |} else c))
    (if negb (String.eqb (cStatus c) "True") then false else complete)) as [-> ->].
Qed.

(** The copy of the status of the CAPI cluster, with the deferred
    [updateStatus] that runs when it panics. *)
Lemma setStatusFromClusterStatus_run (mc : ManagedCluster) (w : W) :
  let p := onPanic (setStatusFromClusterStatus mc) (updateStatus mc) in
  let list := DynamicListClusters (Namespace (mc_meta mc))
                {[ FluxHelmChartNameKey := Name (mc_meta mc) ]} in
  (exists x, outcome env p w = Done x
             /\ trace env p w = [(list, failed list (env list w).1)]
             /\ final env p w = (env list w).2
             /\ mc_meta x.1.1 = mc_meta mc /\ mc_Spec x.1.1 = mc_Spec mc)
  \/ (outcome env p w = Panicked
      /\ trace env p w
         = (list, failed list (env list w).1) :: trace env (updateStatus mc) (env list w).2).
Proof.
  intros p list. subst p. unfold setStatusFromClusterStatus.
  cbn [bind call onPanic outcome trace final]. fold list.
  destruct (env list w) as [[err|[|first rest]] w1]; cbn [fst snd].
  - destruct (IsNotFound err); cbn [onPanic outcome trace final].
    + left. eexists. by repeat split.
    + right. rewrite outcome_bind, trace_bind.
      destruct (updateStatus_run env mc w1) as (mc' & e & -> & -> & _).
      by split.
  - left. eexists. by repeat split.
  - left. destruct (uc_statusConditions first) as [err| |conditions];
      cbn [onPanic outcome trace final]; eexists;
      (split; [reflexivity|]); (split; [reflexivity|]); (split; [reflexivity|]);
      try done.
    apply copyClusterConditions_same.
Qed.

Lemma collectServices_resolves (mc : ManagedCluster)
    (services : list ManagedClusterServiceSpec) :
  forall (opts : list HelmChartOpts) (w : W),
    (exists res, outcome env (collectServices mc services opts) w = Done res)
    /\ forallb (fun ev => isResolveOp ev.1)
         (trace env (collectServices mc services opts) w) = true.
Proof.
  induction services as [|svc rest IH]; intros opts w; [split; [by eexists|done]|].
  cbn [collectServices]. destruct (svc_Install svc); cbn [negb]; [|apply IH].
  run_call. destruct (env (GetServiceTemplate _ _) w) as [[err|tmpl] w1]; cbn [fst snd];
    [split; [by eexists|done]|].
  rewrite outcome_bind, trace_bind.
  assert (Hurl : forallb (fun ev => isResolveOp ev.1)
                   (trace env (getServiceTemplateRepoURL tmpl) w1) = true).
  { unfold getServiceTemplateRepoURL.
    destruct (tstc_ChartRef (kt_Status tmpl)) as [chartRef|]; [|reflexivity].
    run_call. destruct (env (GetHelmChart _ _) w1) as [[err|chart] w2]; [reflexivity|].
    cbn [fst snd]. run_call.
    by destruct (env (GetHelmRepository _ _) w2) as [[err|repo] w3]. }
  destruct (getServiceTemplateRepoURL_returns env tmpl w1) as [[err|url] ->].
  - split; [by eexists|]. cbn [forallb isResolveOp fst andb].
    by rewrite forallb_app, Hurl.
  - match goal with
    | |- context [collectServices mc rest ?o] =>
        destruct (IH o (final env (getServiceTemplateRepoURL tmpl) w1)) as [Hdone Hops]
    end.
    split; [exact Hdone|]. cbn [forallb isResolveOp fst andb].
    rewrite forallb_app, Hurl. exact Hops.
Qed.

Lemma updateServices_run (mc : ManagedCluster) (w : W) :
  (exists res, outcome env (updateServices mc) w = Done res)
  /\ forallb (fun ev => isResolveOp ev.1 || isReconcileClusterProfile ev.1)
       (trace env (updateServices mc) w) = true.
Proof.
  unfold updateServices. rewrite outcome_bind, trace_bind.
  destruct (collectServices_resolves mc (mcs_Services (mc_Spec mc)) [] w)
    as [[res Hres] Hops].
  assert (Hops' : forallb (fun ev : Event => isResolveOp ev.1 || isReconcileClusterProfile ev.1)
                    (trace env (collectServices mc (mcs_Services (mc_Spec mc)) []) w) = true).
  { rewrite forallb_forall in Hops |- *. intros ev Hev. by rewrite (Hops ev Hev). }
  rewrite Hres. destruct res as [err|opts].
  - split; [by eexists|]. by rewrite app_nil_r.
  - run_call. unfold call. cbn [outcome trace].
    destruct (env (ReconcileClusterProfile _ _ _ _) _) as [[err|profile] w2];
      cbn [fst snd outcome trace]; (split; [by eexists|]);
      by rewrite forallb_app, Hops'.
Qed.

(** How the body of [Update] ends: it returns after operations of its own;
    or the copy of the status of the CAPI cluster panics and the deferred
    [updateStatus] runs; or, for a cluster that is not a dry run, after
    operations that all succeeded, the last but one of which reconciled the
    HelmRelease of the cluster and found it ready, it goes on with
    [updateServices]. *)
Lemma Update_body_shape (mc : ManagedCluster) (w : W) :
  exists pre,
    forallb (fun ev => isBodyOp ev.1) pre = true
    /\ ((trace env (Update_body r mc) w = pre
         /\ exists x, outcome env (Update_body r mc) w = Done x
                      /\ mc_meta x.1.1 = mc_meta mc)
        \/ (exists mc1 w1,
              trace env (Update_body r mc) w = pre ++ trace env (updateStatus mc1) w1
              /\ outcome env (Update_body r mc) w = Panicked
              /\ mc_meta mc1 = mc_meta mc)
        \/ (exists mc1 w1 before opts hr listed,
              pre = before
                    ++ [(ReconcileHelmRelease (Name (mc_meta mc)) (Namespace (mc_meta mc))
                           opts, false); listed]
              /\ forallb (fun ev : Event => negb ev.2) before = true
              /\ trace env (Update_body r mc) w = pre ++ trace env (updateServices mc1) w1
              /\ (exists x, outcome env (Update_body r mc) w = Done x
                            /\ mc_meta x.1.1 = mc_meta mc)
              /\ mcs_DryRun (mc_Spec mc) = false
              /\ (env (ReconcileHelmRelease (Name (mc_meta mc)) (Namespace (mc_meta mc)) opts)
                     (stateAfter env (List.map fst before) w)).1 = Ok hr
              /\ fluxconditions_IsReady hr = true)).
Proof.
  unfold Update_body, getSource, validateReleaseWithValues, call.
  cbn [bind outcome trace final].
  destruct (env (GetClusterTemplate _ _) w) as [[err|template] w1] eqn:H1;
    cbn [fst snd bind outcome trace final].
  { eexists; split; cycle 1; [left; split; [reflexivity|by eexists]|reflexivity]. }
  destruct (tstc_Valid (kt_Status template)); cbn [negb bind outcome trace final].
  2:{ eexists; split; cycle 1; [left; split; [reflexivity|by eexists]|reflexivity]. }
  destruct (tstc_ChartRef (kt_Status template)) as [ref|]; cbn [bind outcome trace final].
  2:{ eexists; split; cycle 1; [left; split; [reflexivity|by eexists]|reflexivity]. }
  destruct (env (GetHelmChart _ _) w1) as [[err|source] w2] eqn:H2;
    cbn [fst snd bind outcome trace final].
  { eexists; split; cycle 1; [left; split; [reflexivity|by eexists]|reflexivity]. }
  destruct (env (DownloadChartFromArtifact _) w2) as [[err|chart] w3] eqn:H3;
    cbn [fst snd bind outcome trace final].
  { eexists; split; cycle 1; [left; split; [reflexivity|by eexists]|reflexivity]. }
  destruct (env (ActionConfigInit _) w3) as [[err|] w4] eqn:H4;
    cbn [fst snd bind outcome trace final].
  { eexists; split; cycle 1; [left; split; [reflexivity|by eexists]|reflexivity]. }
  destruct (env (HelmValues _) w4) as [[err|vals] w5] eqn:H5;
    cbn [fst snd bind outcome trace final].
  { eexists; split; cycle 1; [left; split; [reflexivity|by eexists]|reflexivity]. }
  match goal with
  | |- context [env ?o w5] => destruct (env o w5) as [[err|] w6] eqn:Hinstall
  end; cbn [fst snd bind outcome trace final].
  { eexists; split; cycle 1; [left; split; [reflexivity|by eexists]|reflexivity]. }
  cbn [mc_Spec setCondition withConditions].
  destruct (mcs_DryRun (mc_Spec mc)) eqn:Hdry; cbn [bind outcome trace final].
  { eexists; split; cycle 1; [left; split; [reflexivity|by eexists]|reflexivity]. }
  match goal with
  | |- context [env (ReconcileHelmRelease ?a ?b ?c) w6] =>
      destruct (env (ReconcileHelmRelease a b c) w6) as [[err|hr] w7] eqn:Hrelease
  end; cbn [fst snd bind outcome trace final].
  { eexists; split; cycle 1; [left; split; [reflexivity|by eexists]|reflexivity]. }
  rewrite !outcome_bind, !trace_bind.
  match goal with
  | |- context [onPanic (setStatusFromClusterStatus ?m) _] =>
      destruct (setStatusFromClusterStatus_run m w7)
        as [([[mc3 requeue] e] & -> & -> & Hfinal & Hmeta & Hspec)|[-> ->]]
  end.
  2:{ rewrite app_nil_r.
      eexists (_ :: _ :: _ :: _ :: _ :: _ :: _ :: [_]).
      split; cycle 1;
        [right; left; eexists; eexists; split; [reflexivity|]; split; [reflexivity|];
         by destruct (fluxconditions_Get hr fluxmeta_ReadyCondition)
        |reflexivity]. }
  cbn [fst snd] in Hmeta, Hspec.
  assert (Hmeta3 : mc_meta mc3 = mc_meta mc).
  { rewrite Hmeta. by destruct (fluxconditions_Get hr fluxmeta_ReadyCondition). }
  destruct e as [e|].
  { destruct requeue; cbn [outcome trace];
      (eexists; split; cycle 1; [left; split; [reflexivity|by eexists]|reflexivity]). }
  destruct requeue.
  { eexists; split; cycle 1; [left; split; [reflexivity|by eexists]|reflexivity]. }
  destruct (fluxconditions_IsReady hr) eqn:Hready; cbn [negb].
  2:{ eexists; split; cycle 1; [left; split; [reflexivity|by eexists]|reflexivity]. }
  rewrite outcome_bind, trace_bind.
  match goal with
  | |- context [outcome env (updateServices mc3) ?s] =>
      destruct (updateServices_run mc3 s) as [[res Hres] _]; rewrite Hres
  end.
  cbn [outcome trace]. rewrite app_nil_r.
  eexists (_ :: _ :: _ :: _ :: _ :: _ :: _ :: [_]).
  split; cycle 1.
  - right; right. eexists mc3, _, (_ :: _ :: _ :: _ :: _ :: [_]), _, hr, _.
    split; [reflexivity|]. split; cycle 1.
    + split; [reflexivity|]. split; [by eexists|]. split; [done|]. split; [|done].
      cbn [stateAfter List.map fst].
      repeat match goal with
             | H : env ?o' ?s = _ |- context [(env ?o ?s).2] =>
                 change ((env o s).2) with ((env o' s).2); rewrite H; cbn [snd]
             end.
      exact (f_equal fst Hrelease).
    + reflexivity.
  - reflexivity.
Qed.

Lemma updateStatus_written (mc : ManagedCluster) (w : W) :
  exists mc' e ready,
    outcome env (updateStatus mc) w = Done (mc', e)
    /\ trace env (updateStatus mc) w = [(StatusUpdateManagedCluster mc', isErr e)]
    /\ mc_meta mc' = mc_meta mc
    /\ mcst_ObservedGeneration (mc_Status mc') = Generation (mc_meta mc)
    /\ FindStatusCondition (mcst_Conditions (mc_Status mc')) ReadyCondition = Some ready
    /\ (forall t, t <> ReadyCondition ->
          FindStatusCondition (mcst_Conditions (mc_Status mc')) t =
          FindStatusCondition (mcst_Conditions (mc_Status mc)) t).
Proof.
  unfold updateStatus.
  set (ready := readyCondition (mcst_Conditions (mc_Status _))).
  set (mc1 := withObservedGeneration mc (Generation (mc_meta mc))).
  assert (Htype : cType ready = ReadyCondition).
  { subst ready. unfold readyCondition.
    destruct (collectMessages _ EmptyString EmptyString) as [warnings errs].
    by destruct (negb (String.eqb warnings EmptyString)),
                (negb (String.eqb errs EmptyString)). }
  destruct (setCondition_same mc1 ready) as (c & Hfind & _).
  rewrite Htype in Hfind.
  assert (Hothers : forall t, t <> ReadyCondition ->
            FindStatusCondition (mcst_Conditions (mc_Status (setCondition mc1 ready))) t =
            FindStatusCondition (mcst_Conditions (mc_Status mc)) t).
  { intros t Ht. rewrite setCondition_other; [done | by rewrite Htype]. }
  rewrite outcome_call, trace_call.
  destruct (env (StatusUpdateManagedCluster _) w) as [[err|] w1]; cbn [fst snd];
    eexists _, _, c; (split; [reflexivity|]); (split; [reflexivity|]);
    (split; [reflexivity|]); (split; [reflexivity|]); by split.
Qed.

Lemma body_ops_write_no_status (events : list Event) :
  forallb (fun ev => isBodyOp ev.1) events = true ->
  forallb (fun ev => negb (isStatusUpdateManagedCluster ev.1)
                     && negb (isReconcileClusterProfile ev.1)) events = true.
Proof.
  rewrite !forallb_forall. intros H ev Hev. specialize (H ev Hev).
  by destruct ev as [[] flag].
Qed.

Lemma service_ops_write_no_status (events : list Event) :
  forallb (fun ev => isResolveOp ev.1 || isReconcileClusterProfile ev.1) events = true ->
  forallb (fun ev => negb (isStatusUpdateManagedCluster ev.1)) events = true.
Proof.
  rewrite !forallb_forall. intros H ev Hev. specialize (H ev Hev).
  by destruct ev as [[] flag].
Qed.

(** The object a pass works on once the finalizer is there: the conditions
    are initialised when there are none. *)
Lemma initialised_same (mc : ManagedCluster) :
  let mc0 := if Nat.eqb (length (mcst_Conditions (mc_Status mc))) 0
             then withConditions mc (InitConditions mc) else mc in
  mc_meta mc0 = mc_meta mc /\ mc_Spec mc0 = mc_Spec mc.
Proof. cbv zeta. by destruct (Nat.eqb _ 0). Qed.

(** Once the finalizer is there, every pass of [Update] ends by writing the
    status, and writes it once: also when a step has failed, and when the
    copy of the status of the CAPI cluster panics.  The object written has
    the generation of the object as its observed generation and carries the
    aggregate Ready condition. *)
Theorem the_status_is_written_once_and_last (mc : ManagedCluster) (w : W) :
  ContainsFinalizer (mc_meta mc) ManagedClusterFinalizer = true ->
  exists pre mc' written ready,
    trace env (Update r mc) w = pre ++ [(StatusUpdateManagedCluster mc', written)]
    /\ forallb (fun ev => negb (isStatusUpdateManagedCluster ev.1)) pre = true
    /\ mc_meta mc' = mc_meta mc
    /\ mcst_ObservedGeneration (mc_Status mc') = Generation (mc_meta mc)
    /\ FindStatusCondition (mcst_Conditions (mc_Status mc')) ReadyCondition = Some ready.
Proof.
  intros Hfin. unfold Update, AddFinalizer. rewrite Hfin. cbv beta iota zeta.
  destruct (initialised_same (withMeta mc (mc_meta mc))) as [Hmeta0 _].
  cbv zeta in Hmeta0. change (mc_meta (withMeta mc (mc_meta mc))) with (mc_meta mc) in Hmeta0.
  set (mc0 := if Nat.eqb _ 0 then _ else _) in *.
  rewrite trace_bind.
  destruct (Update_body_shape mc0 w) as (pre & Hpre & Hshape).
  apply body_ops_write_no_status in Hpre.
  assert (Hpre' : forallb (fun ev : Event => negb (isStatusUpdateManagedCluster ev.1)) pre
                  = true).
  { rewrite forallb_forall in Hpre |- *. intros ev Hev.
    specialize (Hpre ev Hev). by apply andb_true_iff in Hpre as [-> _]. }
  destruct Hshape as [[-> ([[m1 res] e] & -> & Hmeta)]
                     |[(mc1 & w1 & -> & -> & Hmeta)
                      |(mc1 & w1 & _ & _ & _ & _ & _ & _ & -> & ([[m1 res] e] & -> & Hmeta)
                        & _)]].
  - cbn [fst snd] in Hmeta. rewrite trace_bind.
    destruct (updateStatus_written m1 (final env (Update_body r mc0) w))
      as (mc' & e' & ready & -> & -> & Hm & Hgen & Hready & _).
    exists pre, mc', (isErr e'), ready. cbn [trace]. rewrite app_nil_r.
    split; [done|]. split; [done|]. rewrite Hm, Hgen, Hmeta, Hmeta0. by repeat split.
  - destruct (updateStatus_written mc1 w1)
      as (mc' & e' & ready & _ & -> & Hm & Hgen & Hready & _).
    exists pre, mc', (isErr e'), ready. rewrite app_nil_r.
    split; [done|]. split; [done|]. rewrite Hm, Hgen, Hmeta, Hmeta0. by repeat split.
  - cbn [fst snd] in Hmeta. rewrite trace_bind.
    destruct (updateStatus_written m1 (final env (Update_body r mc0) w))
      as (mc' & e' & ready & -> & -> & Hm & Hgen & Hready & _).
    exists (pre ++ trace env (updateServices mc1) w1), mc', (isErr e'), ready.
    cbn [trace]. rewrite app_nil_r.
    split; [done|].
    split. { rewrite forallb_app, Hpre'. cbn [andb].
             apply service_ops_write_no_status. apply updateServices_run. }
    rewrite Hm, Hgen, Hmeta, Hmeta0. by repeat split.
Qed.

(** The ClusterProfile is reconciled only in a pass over a cluster that
    has its finalizer and is not a dry run, and only after the HelmRelease
    of the cluster was reconciled in that pass and found ready, every
    operation up to there having returned without error. *)
Theorem the_profile_waits_for_the_release (mc : ManagedCluster) (w : W) (o : Op) :
  In o (ops env (Update r mc) w) ->
  isReconcileClusterProfile o = true ->
  ContainsFinalizer (mc_meta mc) ManagedClusterFinalizer = true
  /\ mcs_DryRun (mc_Spec mc) = false
  /\ exists before opts hr later,
       let release :=
         ReconcileHelmRelease (Name (mc_meta mc)) (Namespace (mc_meta mc)) opts in
       trace env (Update r mc) w = before ++ (release, false) :: later
       /\ forallb (fun ev : Event => negb ev.2) before = true
       /\ forallb (fun ev : Event => negb (isReconcileClusterProfile ev.1)) before = true
       /\ In o (List.map fst later)
       /\ (env release (stateAfter env (List.map fst before) w)).1 = Ok hr
       /\ fluxconditions_IsReady hr = true.
Proof.
  unfold Update, AddFinalizer, ops.
  destruct (ContainsFinalizer (mc_meta mc) ManagedClusterFinalizer).
  2:{ run_call. destruct (env (UpdateManagedCluster _) w) as [[err|] w1];
        cbn [fst snd trace List.map]; intros [<-|[]]; discriminate. }
  cbv beta iota zeta.
  destruct (initialised_same (withMeta mc (mc_meta mc))) as [Hmeta0 Hspec0].
  cbv zeta in Hmeta0, Hspec0.
  change (mc_meta (withMeta mc (mc_meta mc))) with (mc_meta mc) in Hmeta0.
  change (mc_Spec (withMeta mc (mc_meta mc))) with (mc_Spec mc) in Hspec0.
  set (mc0 := if Nat.eqb _ 0 then _ else _) in *.
  rewrite trace_bind.
  destruct (Update_body_shape mc0 w) as (pre & Hpre & Hshape).
  apply body_ops_write_no_status in Hpre.
  assert (Hstatus : forall m s o',
            In o' (List.map fst (trace env (updateStatus m) s)) ->
            isReconcileClusterProfile o' = false).
  { intros m s o' Hin.
    destruct (updateStatus_written m s) as (mc' & e' & ready & _ & Htrace & _).
    rewrite Htrace in Hin. by destruct Hin as [<-|[]]. }
  assert (Hbody : forall ev, In ev pre -> isReconcileClusterProfile ev.1 = false).
  { intros ev Hev. rewrite forallb_forall in Hpre. specialize (Hpre ev Hev).
    apply andb_true_iff in Hpre as [_ H]. by apply negb_true_iff. }
  destruct Hshape as [[-> ([[m1 res] e] & -> & Hmeta)]
                     |[(mc1 & w1 & -> & -> & Hmeta)
                      |(mc1 & w1 & before & opts & hr & listed & Hbefore & Hok & Htrace & _
                        & Hdry & Hhr & Hready)]].
  - rewrite trace_bind, !List.map_app. intros Hin Ho.
    apply in_app_or in Hin as [Hin|Hin].
    { apply in_map_iff in Hin as (ev & <- & Hev). by rewrite (Hbody _ Hev) in Ho. }
    apply in_app_or in Hin as [Hin|Hin]; [by rewrite (Hstatus _ _ _ Hin) in Ho|].
    destruct (outcome env (updateStatus m1) _); destruct Hin.
  - rewrite app_nil_r, List.map_app. intros Hin Ho.
    apply in_app_or in Hin as [Hin|Hin].
    { apply in_map_iff in Hin as (ev & <- & Hev). by rewrite (Hbody _ Hev) in Ho. }
    by rewrite (Hstatus _ _ _ Hin) in Ho.
  - rewrite Htrace, Hbefore, Hmeta0, <- !app_assoc. cbn [app].
    intros Hin Ho. split; [done|]. split; [by rewrite <- Hspec0|].
    rewrite Hmeta0 in Hhr.
    eexists before, opts, hr, _. cbv zeta.
    split; [reflexivity|]. split; [exact Hok|].
    split.
    { rewrite forallb_forall. intros ev Hev. apply negb_true_iff, Hbody.
      rewrite Hbefore. apply in_or_app. by left. }
    split; [|by split].
    rewrite List.map_app in Hin. apply in_app_or in Hin as [Hin|Hin].
    { apply in_map_iff in Hin as (ev & <- & Hev).
      rewrite (Hbody ev) in Ho; [done|]. rewrite Hbefore. apply in_or_app. by left. }
    destruct Hin as [<-|Hin]; [done|exact Hin].
Qed.
End PassFacts.

Lemma status_written_witness :
  ContainsFinalizer (mc_meta clusterWithServices) ManagedClusterFinalizer = true
  /\ exists pre mc' written ready,
       trace (answering nominal)
         (ManagedClusterController.Update clusterReconciler clusterWithServices) tt
       = pre ++ [(StatusUpdateManagedCluster mc', written)]
       /\ forallb (fun ev => negb (isStatusUpdateManagedCluster ev.1)) pre = true
       /\ mc_meta mc' = mc_meta clusterWithServices
       /\ mcst_ObservedGeneration (mc_Status mc') = Generation (mc_meta clusterWithServices)
       /\ FindStatusCondition (mcst_Conditions (mc_Status mc')) ReadyCondition = Some ready.
Proof.
  split; [reflexivity|].
  apply (the_status_is_written_once_and_last (answering nominal) clusterReconciler
           clusterWithServices tt).
  reflexivity.
Defined.

Lemma profile_gate_witness :
  exists labels opts,
    In (ReconcileClusterProfile "default" "dev" labels opts)
       (ops (answering nominal)
          (ManagedClusterController.Update clusterReconciler clusterWithASkippedService) tt)
    /\ ContainsFinalizer (mc_meta clusterWithASkippedService) ManagedClusterFinalizer = true
    /\ mcs_DryRun (mc_Spec clusterWithASkippedService) = false
    /\ exists before opts' hr later,
         trace (answering nominal)
           (ManagedClusterController.Update clusterReconciler clusterWithASkippedService) tt
         = before ++ (ReconcileHelmRelease "dev" "default" opts', false) :: later
         /\ forallb (fun ev : Event => negb ev.2) before = true
         /\ forallb (fun ev : Event => negb (isReconcileClusterProfile ev.1)) before = true
         /\ In (ReconcileClusterProfile "default" "dev" labels opts) (List.map fst later)
         /\ (answering nominal (ReconcileHelmRelease "dev" "default" opts')
               (stateAfter (answering nominal) (List.map fst before) tt)).1 = Ok hr
         /\ fluxconditions_IsReady hr = true.
Proof.
  eexists. eexists.
  match goal with
  | |- ?H /\ _ => assert (Hin : H) by (repeat (first [left; reflexivity | right]))
  end.
  split; [exact Hin|].
  exact (the_profile_waits_for_the_release (answering nominal) clusterReconciler
           clusterWithASkippedService tt _ Hin eq_refl).
Defined.
